(** * ElderNest ML service: risk fusion, emergency rules and alert rate limiting

    A shallow embedding of three services of [backend/python-ml/app/services]:
    - [emergency_detector.py]         (module [EmergencyDetector]),
    - [multi_modal_risk_predictor.py] (module [MultiModalRiskPredictor]),
    - [alert_service.py]              (module [AlertService]).

    Modelling conventions.
    - A Python [dict] whose keys come from outside (the modality summaries,
      the emergency data, a family member) is a [gmap string pyval];
      [d.get(k, dflt)] is [dict_get]. The values are the scalars [None],
      [bool], [int], [float] and [str].
    - Python [float]s are idealised as exact rationals ([Q]); [round(x, 3)]
      and the [.1f] format round half to even on the exact value.
    - A naive [datetime] is its number of microseconds on the local time
      line; every value returned by [datetime.now()] is an explicit argument
      of the function that reads the clock.
    - Exceptions are values of [exn], threaded through the error monad [res].
    - Library built-ins whose result cannot be computed from a rational
      ([repr] of a float) or whose grammar is not part of this program
      ([datetime.fromisoformat]) are the fields of a [runtime] that the
      functions take as argument; [BasicRuntime.rt] is an executable one. *)

From Stdlib Require Import QArith Qround ZArith Lia Lqa Permutation Sorted Ascii String.
From stdpp Require Import gmap strings list pretty.

Open Scope string_scope.

(** ** Python values and exceptions *)

Inductive pyval :=
  | PNone
  | PBool (b : bool)
  | PInt (z : Z)
  | PFloat (q : Q)
  | PStr (s : string).

Inductive exn := TypeError | ValueError | IndexError.

Inductive res (A : Type) :=
  | Ok (a : A)
  | Raise (e : exn).
Arguments Ok {A} a.
Arguments Raise {A} e.

#[global] Instance res_ret : MRet res := fun A a => Ok a.
#[global] Instance res_bind : MBind res := fun A B f m =>
  match m with
  | Ok a => f a
  | Raise e => Raise e
  end.

(** [try: body except (ValueError, TypeError): handler] *)
Definition catch_value_type {A} (body : res A) (handler : res A) : res A :=
  match body with
  | Ok a => Ok a
  | Raise TypeError | Raise ValueError => handler
  | Raise e => Raise e
  end.

(** [try: body except Exception as e: handler(e)] *)
Definition catch_all {A B} (body : res A) (ok : A -> B) (handler : exn -> B) : B :=
  match body with
  | Ok a => ok a
  | Raise e => handler e
  end.

Definition Qlt_bool (x y : Q) : bool := negb (Qle_bool y x).

(** bool(v) *)
Definition truthy (v : pyval) : bool :=
  match v with
  | PNone => false
  | PBool b => b
  | PInt z => negb (z =? 0)%Z
  | PFloat q => negb (Qeq_bool q 0%Q)
  | PStr s => negb (String.eqb s "")
  end.

(** The numeric value of an operand of [<], [>], [*], [-]; [bool] is a
    subclass of [int]. *)
Definition as_num (v : pyval) : option Q :=
  match v with
  | PBool b => Some (if b then 1 else 0)%Q
  | PInt z => Some (inject_Z z)
  | PFloat q => Some q
  | PNone | PStr _ => None
  end.

Definition num (v : pyval) : res Q :=
  match as_num v with
  | Some q => Ok q
  | None => Raise TypeError
  end.

(** [v > c], [v >= c], [v < c] against a numeric literal [c] *)
Definition py_gt (v : pyval) (c : Q) : res bool := q ← num v; Ok (Qlt_bool c q).
Definition py_ge (v : pyval) (c : Q) : res bool := q ← num v; Ok (Qle_bool c q).
Definition py_lt (v : pyval) (c : Q) : res bool := q ← num v; Ok (Qlt_bool q c).

(** [v == c] against a numeric literal: never raises *)
Definition py_eq_num (v : pyval) (c : Q) : bool :=
  match as_num v with
  | Some q => Qeq_bool q c
  | None => false
  end.

(** [v == s] against a string literal: never raises *)
Definition py_eq_str (v : pyval) (s : string) : bool :=
  match v with
  | PStr t => String.eqb t s
  | _ => false
  end.

Abbreviation pydict := (gmap string pyval).

(** [d.get(k, dflt)] and [d.get(k)] *)
Definition dict_get (d : pydict) (k : string) (dflt : pyval) : pyval :=
  default dflt (d !! k).
Definition dict_get_none (d : pydict) (k : string) : pyval := dict_get d k PNone.

(** [d or {}] for an optional mapping *)
Definition or_empty (d : option pydict) : pydict := default ∅ d.

(** ** Rounding and number formatting *)

Definition Qfloor_Z (q : Q) : Z := (Qnum q / Zpos (Qden q))%Z.

(** [int(x)]: truncation towards zero *)
Definition py_int (q : Q) : Z := (Qnum q ÷ Zpos (Qden q))%Z.

Definition round_half_even (q : Q) : Z :=
  let f := Qfloor_Z q in
  let r := (q - inject_Z f)%Q in
  if Qlt_bool r (1 # 2)%Q then f
  else if Qlt_bool (1 # 2)%Q r then (f + 1)%Z
  else if Z.even f then f else (f + 1)%Z.

(** [round(x, 3)] *)
Definition py_round3 (q : Q) : Q := (round_half_even (q * 1000) # 1000)%Q.

(** [f'{x:.1f}'] *)
Definition format_1f (q : Q) : string :=
  let n := Z.abs (round_half_even (q * 10)%Q) in
  (if Qlt_bool q 0%Q then "-" else "")
    +:+ pretty (n / 10)%Z +:+ "." +:+ pretty (n mod 10)%Z.

(** [min(1.0, max(0.0, x))] *)
Definition py_max (a b : Q) : Q := if Qlt_bool a b then b else a.
Definition py_min (a b : Q) : Q := if Qlt_bool b a then b else a.
Definition clamp01 (x : Q) : Q := py_min 1%Q (py_max 0%Q x).

(** ** Strings *)

Definition ascii_lower (c : ascii) : ascii :=
  let n := nat_of_ascii c in
  if (65 <=? n)%nat && (n <=? 90)%nat then ascii_of_nat (n + 32) else c.

(** [s.lower()] on the ASCII letters (the literals of this program contain
    no other cased character) *)
Fixpoint str_lower (s : string) : string :=
  match s with
  | EmptyString => EmptyString
  | String c r => String (ascii_lower c) (str_lower r)
  end.

Fixpoint str_prefix (p s : string) : bool :=
  match p, s with
  | EmptyString, _ => true
  | String a p', String b s' => Ascii.eqb a b && str_prefix p' s'
  | String _ _, EmptyString => false
  end.

(** [p in s] *)
Fixpoint str_in (p s : string) : bool :=
  str_prefix p s ||
  match s with
  | EmptyString => false
  | String _ s' => str_in p s'
  end.

(** [sep.join(l)] *)
Fixpoint str_join (sep : string) (l : list string) : string :=
  match l with
  | [] => ""
  | [x] => x
  | x :: r => x +:+ sep +:+ str_join sep r
  end.

(** ** Datetimes *)

Inductive pydatetime :=
  | Naive (us : Z)
  | Aware (us : Z) (utcoffset : Z).

Definition us_per_minute : Z := 60000000.
Definition us_per_hour : Z := 3600000000.

(** ** Library built-ins taken as parameters *)

Record runtime := {
  (** [repr(x)] of a float, as used by [str] and by an f-string field
      without format specification *)
  repr_float : Q -> string;
  (** [datetime.fromisoformat(s)]; [None] stands for [ValueError] *)
  parse_iso : string -> option pydatetime
}.

(** [str(v)], the rendering of an f-string field [{v}] *)
Definition py_str (rt : runtime) (v : pyval) : string :=
  match v with
  | PNone => "None"
  | PBool true => "True"
  | PBool false => "False"
  | PInt z => pretty z
  | PFloat q => repr_float rt q
  | PStr s => s
  end.

(** [datetime.fromisoformat(v)]: [TypeError] unless [v] is a [str] *)
Definition fromisoformat (rt : runtime) (v : pyval) : res pydatetime :=
  match v with
  | PStr s =>
      match parse_iso rt s with
      | Some d => Ok d
      | None => Raise ValueError
      end
  | _ => Raise TypeError
  end.

(** [(a - b)] for two datetimes, as microseconds; a naive and an aware
    datetime cannot be subtracted *)
Definition datetime_sub (a b : pydatetime) : res Z :=
  match a, b with
  | Naive x, Naive y => Ok (x - y)%Z
  | Aware x ox, Aware y oy => Ok ((x - ox) - (y - oy))%Z
  | _, _ => Raise TypeError
  end.

(** * emergency_detector.py *)

Module EmergencyDetector.

(** The dict built by each check: keys [type], [severity], [message],
    [action] and, for the combined check only, [risk_factors]. *)
Record candidate := {
  type : string;
  severity : string;
  message : string;
  action : string;
  risk_factors : option (list string)
}.

(** Values stored in the dict returned by [detect_emergency] *)
Inductive rval :=
  | RNone
  | RBool (b : bool)
  | RStr (s : string)
  | RInt (z : Z)
  | RConcerns (l : list candidate)
  | RIsoformat (t : Z).   (** [datetime(t).isoformat()] *)

(** A dict literal, in source order *)
Definition result := list (string * rval).

Fixpoint result_get (r : result) (k : string) : option rval :=
  match r with
  | [] => None
  | (k', v) :: r' => if String.eqb k' k then Some v else result_get r' k
  end.

(** THRESHOLDS *)
Definition fall_no_movement_minutes : Q := 5.
Definition critical_distress_duration_min : Q := 10.
Definition days_without_eating_threshold : Q := 2.
Definition inactivity_hours_threshold : Q := 18.
Definition pain_score_threshold : Q := 7 # 10.
Definition combined_risk_factors : nat := 3.

Definition fall_no_movement (time_since_fall : Q) : candidate := {|
  type := "fall_no_movement";
  severity := "critical";
  message := "🚨 URGENT: Fall detected " +:+ pretty (py_int time_since_fall)
             +:+ " minutes ago with no movement detected!";
  action := "Call immediately or contact emergency services (911). "
            +:+ "Elder may be unable to get up or be unconscious.";
  risk_factors := None
|}.

Definition fall_detected : candidate := {|
  type := "fall_detected";
  severity := "critical";
  message := "🚨 FALL DETECTED! Elder appears to have fallen.";
  action := "Contact immediately to verify safety. "
            +:+ "Be prepared to call emergency services if no response.";
  risk_factors := None
|}.

(** The body of the [try] of [_check_fall_emergency]: [Ok None] when it
    falls through without returning. *)
Definition fall_try (rt : runtime) (fall_timestamp : pyval) (now : Z)
  : res (option candidate) :=
  fall_time ← fromisoformat rt fall_timestamp;
  delta ← datetime_sub (Naive now) fall_time;
  let time_since_fall := (inject_Z delta / 1000000 / 60)%Q in
  if Qle_bool fall_no_movement_minutes time_since_fall
  then Ok (Some (fall_no_movement time_since_fall))
  else Ok None.

(** [_check_fall_emergency]; [now] is the value of [datetime.now()] read
    inside the [try]. [recent_events] is not used by the source. *)
Definition _check_fall_emergency (rt : runtime) (vision_data : pydict)
    (now : Z) : res (option candidate) :=
  if negb (truthy (dict_get_none vision_data "fall_detected")) then Ok None
  else
    let fall_timestamp := dict_get_none vision_data "fall_timestamp" in
    early ←
      (if truthy fall_timestamp
       then catch_value_type (fall_try rt fall_timestamp now) (Ok None)
       else Ok None);
    match early with
    | Some c => Ok (Some c)
    | None => Ok (Some fall_detected)
    end.

Definition _check_distress_emergency (vision_data : pydict)
  : res (option candidate) :=
  let distress_level := dict_get vision_data "distress_level" (PStr "low") in
  if py_eq_str distress_level "critical" then
    Ok (Some {|
      type := "extreme_distress";
      severity := "critical";
      message := "🚨 URGENT: Extreme emotional distress detected! "
                 +:+ "Facial expressions indicate severe distress.";
      action := "Contact immediately to check on wellbeing and provide support.";
      risk_factors := None |})
  else if py_eq_str distress_level "high" then
    Ok (Some {|
      type := "high_distress";
      severity := "high";
      message := "High emotional distress detected in facial expressions.";
      action := "Schedule immediate check-in call or visit.";
      risk_factors := None |})
  else Ok None.

Definition severe_pain (rt : runtime) (pain_score : Q) (pain_expressions : pyval)
  : candidate := {|
  type := "severe_pain";
  severity := "high";
  message := "Severe pain detected (score: " +:+ format_1f pain_score +:+ "). "
             +:+ "Visible pain expressions count: " +:+ py_str rt pain_expressions;
  action := "Contact to assess pain level. "
            +:+ "Consider arranging medical consultation if persistent.";
  risk_factors := None
|}.

Definition pain_indicators (rt : runtime) (pain_expressions health_complaints : pyval)
  : candidate := {|
  type := "pain_indicators";
  severity := "medium";
  message := "Multiple pain indicators: " +:+ py_str rt pain_expressions
             +:+ " pain expressions, " +:+ py_str rt health_complaints
             +:+ " health complaints.";
  action := "Monitor closely and check in about health status.";
  risk_factors := None
|}.

Definition _check_pain_emergency (rt : runtime) (vision_data health_data : pydict)
  : res (option candidate) :=
  let pain_detected := dict_get vision_data "pain_detected" (PBool false) in
  let pain_score := dict_get health_data "pain_score" (PInt 0) in
  let pain_expressions := dict_get vision_data "pain_expression_count" (PInt 0) in
  let health_complaints := dict_get health_data "health_complaints" (PInt 0) in
  severe ←
    (if truthy pain_detected then py_gt pain_score pain_score_threshold
     else Ok false);
  if (severe : bool) then
    score ← num pain_score;
    Ok (Some (severe_pain rt score pain_expressions))
  else
    many ← py_gt pain_expressions 3;
    both ← (if (many : bool) then py_gt health_complaints 2 else Ok false);
    if (both : bool)
    then Ok (Some (pain_indicators rt pain_expressions health_complaints))
    else Ok None.

Definition _check_eating_emergency (rt : runtime) (activity_data : pydict)
  : res (option candidate) :=
  let days_without_eating := dict_get activity_data "days_without_eating" (PInt 0) in
  urgent ← py_ge days_without_eating days_without_eating_threshold;
  if (urgent : bool) then
    Ok (Some {|
      type := "no_eating";
      severity := "critical";
      message := "🚨 URGENT: No meals detected for "
                 +:+ py_str rt days_without_eating +:+ " days!";
      action := "Contact IMMEDIATELY to ensure food access, appetite, and ability to eat. "
                +:+ "This may indicate serious health issues or inability to prepare food.";
      risk_factors := None |})
  else if py_eq_num days_without_eating 1 then
    Ok (Some {|
      type := "missed_meals";
      severity := "medium";
      message := "No meals detected for the past day.";
      action := "Check in to verify eating status and food availability.";
      risk_factors := None |})
  else Ok None.

Definition _check_inactivity_emergency (activity_data : pydict)
  : res (option candidate) :=
  let max_inactivity := dict_get activity_data "max_inactivity_hours" (PInt 0) in
  prolonged ← py_ge max_inactivity inactivity_hours_threshold;
  hours ← num max_inactivity;
  if (prolonged : bool) then
    Ok (Some {|
      type := "prolonged_inactivity";
      severity := "high";
      message := "No movement detected for " +:+ format_1f hours +:+ " hours.";
      action := "Contact immediately to verify safety. "
                +:+ "Prolonged inactivity may indicate medical emergency or inability to move.";
      risk_factors := None |})
  else
    extended ← py_ge max_inactivity 12;
    if (extended : bool) then
      Ok (Some {|
        type := "extended_inactivity";
        severity := "medium";
        message := "Extended inactivity: no movement for " +:+ format_1f hours
                   +:+ " hours.";
        action := "Schedule check-in to verify wellbeing.";
        risk_factors := None |})
    else Ok None.

Definition _check_emergency_button (rt : runtime) (health_data : pydict)
  : res (option candidate) :=
  let emergency_presses := dict_get health_data "emergency_button_presses" (PInt 0) in
  pressed ← py_gt emergency_presses 0;
  if (pressed : bool) then
    Ok (Some {|
      type := "emergency_button";
      severity := "critical";
      message := "🚨 EMERGENCY BUTTON PRESSED (" +:+ py_str rt emergency_presses
                 +:+ " times)!";
      action := "Contact IMMEDIATELY or call emergency services. "
                +:+ "Elder has actively requested help.";
      risk_factors := None |})
  else Ok None.

(** [if cond: risk_factors.append(name)] *)
Definition append_if (cond : bool) (name : string) (l : list string) : list string :=
  if cond then (l ++ [name])%list else l.

Definition _check_combined_risks (vision_data activity_data health_data : pydict)
  : res (option candidate) :=
  let risk_factors := [] in
  (* Vision risks *)
  let distress := dict_get_none vision_data "distress_level" in
  let risk_factors :=
    append_if (py_eq_str distress "high" || py_eq_str distress "critical")
      "emotional distress" risk_factors in
  let risk_factors :=
    append_if (truthy (dict_get_none vision_data "pain_detected"))
      "pain expressions" risk_factors in
  let risk_factors :=
    append_if (truthy (dict_get_none vision_data "unusual_posture"))
      "unusual posture" risk_factors in
  (* Activity risks *)
  let risk_factors :=
    append_if (truthy (dict_get_none activity_data "prolonged_inactivity"))
      "prolonged inactivity" risk_factors in
  let risk_factors :=
    append_if (truthy (dict_get_none activity_data "concerning"))
      "concerning activity patterns" risk_factors in
  missed ← py_gt (dict_get activity_data "days_without_eating" (PInt 0)) 0;
  let risk_factors := append_if missed "missed meals" risk_factors in
  (* Health risks *)
  complaints ← py_gt (dict_get health_data "health_complaints" (PInt 0)) 3;
  let risk_factors := append_if complaints "multiple health complaints" risk_factors in
  medicine ← py_gt (dict_get health_data "medicine_missed" (PInt 0)) 3;
  let risk_factors := append_if medicine "missed medications" risk_factors in
  (* Trigger on threshold *)
  if (combined_risk_factors <=? length risk_factors)%nat then
    Ok (Some {|
      type := "multiple_risk_factors";
      severity := "high";
      message := "Multiple concerning signals detected: "
                 +:+ str_join ", " (take 5 risk_factors)
                 +:+ (if (5 <? length risk_factors)%nat then "..." else "");
      action := "Schedule urgent check-in or visit. "
                +:+ "Multiple indicators suggest declining wellbeing.";
      risk_factors := Some risk_factors |})
  else Ok None.

(** [severity_order.get(x['severity'], 0)] *)
Definition severity_order (sev : string) : nat :=
  if String.eqb sev "critical" then 4
  else if String.eqb sev "high" then 3
  else if String.eqb sev "medium" then 2
  else if String.eqb sev "low" then 1
  else 0.

Definition rank (c : candidate) : nat := severity_order (severity c).

(** [emergencies.sort(key=..., reverse=True)]: Python's sort is stable,
    also under [reverse=True]; candidates of equal rank keep their order. *)
Fixpoint insert_by_rank (c : candidate) (l : list candidate) : list candidate :=
  match l with
  | [] => [c]
  | d :: l' =>
      if (rank c <? rank d)%nat then d :: insert_by_rank c l'
      else c :: d :: l'
  end.

Definition sort_by_severity (l : list candidate) : list candidate :=
  foldr insert_by_rank [] l.

(** [if x: emergencies.append(x)] *)
Definition append_some (l : list candidate) (x : option candidate) : list candidate :=
  match x with
  | Some c => (l ++ [c])%list
  | None => l
  end.

(** The seven checks of [detect_emergency], in order: the list
    [emergencies] before it is sorted. *)
Definition collect_emergencies (rt : runtime)
    (vision_data activity_data health_data : pydict) (now_fall : Z)
  : res (list candidate) :=
  let emergencies := [] in
  fall_emergency ← _check_fall_emergency rt vision_data now_fall;
  let emergencies := append_some emergencies fall_emergency in
  distress_emergency ← _check_distress_emergency vision_data;
  let emergencies := append_some emergencies distress_emergency in
  pain_emergency ← _check_pain_emergency rt vision_data health_data;
  let emergencies := append_some emergencies pain_emergency in
  eating_emergency ← _check_eating_emergency rt activity_data;
  let emergencies := append_some emergencies eating_emergency in
  inactivity_emergency ← _check_inactivity_emergency activity_data;
  let emergencies := append_some emergencies inactivity_emergency in
  button_emergency ← _check_emergency_button rt health_data;
  let emergencies := append_some emergencies button_emergency in
  combined_emergency ← _check_combined_risks vision_data activity_data health_data;
  let emergencies := append_some emergencies combined_emergency in
  Ok emergencies.

(** The [Return Result] part of [detect_emergency]; [emergencies[0]]
    raises [IndexError] on an empty list. *)
Definition build_result (emergencies : list candidate) (now : Z) : res result :=
  match emergencies with
  | [] =>
      Ok [ ("emergency", RBool false);
           ("emergency_type", RNone);
           ("severity", RStr "none");
           ("alert_message", RNone);
           ("recommended_action", RNone);
           ("all_concerns", RConcerns []);
           ("timestamp", RIsoformat now) ]
  | _ :: _ =>
      let emergencies := sort_by_severity emergencies in
      match emergencies with
      | [] => Raise IndexError
      | top_emergency :: _ =>
          Ok [ ("emergency", RBool true);
               ("emergency_type", RStr (type top_emergency));
               ("severity", RStr (severity top_emergency));
               ("alert_message", RStr (message top_emergency));
               ("recommended_action", RStr (action top_emergency));
               ("all_concerns", RConcerns emergencies);
               ("total_emergencies", RInt (Z.of_nat (length emergencies)));
               ("timestamp", RIsoformat now) ]
      end
  end.

(** [detect_emergency]. [now_fall] and [now] are the two readings of the
    clock: inside the fall check and for the [timestamp] of the result.
    [recent_events] only reaches the fall check, which ignores it. *)
Definition detect_emergency (rt : runtime)
    (vision_data activity_data health_data : option pydict)
    (now_fall now : Z) : res result :=
  let vision_data := or_empty vision_data in
  let activity_data := or_empty activity_data in
  let health_data := or_empty health_data in
  emergencies ← collect_emergencies rt vision_data activity_data health_data now_fall;
  build_result emergencies now.

End EmergencyDetector.

(** * multi_modal_risk_predictor.py *)

Module MultiModalRiskPredictor.

(** The dict built by [_extract_features]: its fifteen fixed keys are the
    fields of a record, in the order of the dict literal. *)
Record features := {
  avg_sentiment_7days : pyval;
  lonely_mentions : pyval;
  health_complaints : pyval;
  sad_mood_count : pyval;
  inactive_days : pyval;
  avg_facial_emotion_score : pyval;
  fall_detected_count : pyval;
  distress_episodes : pyval;
  pain_expression_count : pyval;
  camera_inactivity_hours : pyval;
  eating_irregularity : pyval;
  sleep_quality_score : pyval;
  days_without_eating : pyval;
  medicine_missed : pyval;
  emergency_button_presses : pyval
}.

Definition RISK_LABELS : list string := ["SAFE"; "MONITOR"; "HIGH_RISK"].

(** [[features[f] for f in self.FEATURE_ORDER]] *)
Definition FEATURE_ORDER : list (features -> pyval) :=
  [ avg_sentiment_7days; sad_mood_count; lonely_mentions; health_complaints;
    inactive_days; medicine_missed; avg_facial_emotion_score;
    fall_detected_count; distress_episodes; eating_irregularity;
    sleep_quality_score; days_without_eating; emergency_button_presses;
    camera_inactivity_hours; pain_expression_count ].

Definition _extract_features
    (chat_data mood_data vision_data activity_data health_data : pydict)
  : features := {|
  (* From chat *)
  avg_sentiment_7days := dict_get chat_data "avg_sentiment" (PFloat 0);
  lonely_mentions := dict_get chat_data "lonely_mentions" (PInt 0);
  health_complaints := dict_get chat_data "health_complaints" (PInt 0);
  (* From mood check-ins *)
  sad_mood_count := dict_get mood_data "sad_count" (PInt 0);
  inactive_days := dict_get mood_data "inactive_days" (PInt 0);
  (* From vision/camera *)
  avg_facial_emotion_score := dict_get vision_data "emotion_score" (PFloat 0);
  fall_detected_count := dict_get vision_data "fall_count" (PInt 0);
  distress_episodes := dict_get vision_data "distress_count" (PInt 0);
  pain_expression_count := dict_get vision_data "pain_count" (PInt 0);
  camera_inactivity_hours := dict_get vision_data "inactivity_hours" (PFloat 0);
  (* From activity logs *)
  eating_irregularity := dict_get activity_data "eating_irregularity" (PFloat 0);
  sleep_quality_score := dict_get activity_data "sleep_quality" (PFloat 1);
  days_without_eating := dict_get activity_data "days_without_eating" (PInt 0);
  (* From health data *)
  medicine_missed := dict_get health_data "medicine_missed" (PInt 0);
  emergency_button_presses := dict_get health_data "emergency_button_presses" (PInt 0)
|}.

Record probabilities := {
  safe : Q;
  monitor : Q;
  high_risk : Q
}.

Record prediction := {
  risk_level : string;
  risk_score : Q;
  probs : probabilities
}.

(** The fitted classifier, an opaque artifact: [predict(X)[0]] and
    [predict_proba(X)[0]] on the one-row matrix [X]. *)
Record classifier := {
  predict : list pyval -> res Z;
  predict_proba : list pyval -> res (list Q)
}.

(** [l[i]] with Python's negative indices *)
Definition py_index {A} (l : list A) (i : Z) : res A :=
  let n := Z.of_nat (length l) in
  let j := if (i <? 0)%Z then (n + i)%Z else i in
  if (j <? 0)%Z then Raise IndexError
  else match l !! Z.to_nat j with
       | Some a => Ok a
       | None => Raise IndexError
       end.

Definition _predict_with_model (model : classifier) (f : features)
  : res prediction :=
  let X := (λ get, get f) <$> FEATURE_ORDER in
  prediction ← predict model X;
  probabilities ← predict_proba model X;
  risk_level ← py_index RISK_LABELS prediction;
  risk_score ← py_index probabilities prediction;
  p0 ← py_index probabilities 0;
  p1 ← py_index probabilities 1;
  p2 ← py_index probabilities 2;
  Ok {| risk_level := risk_level;
        risk_score := py_round3 risk_score;
        probs := {| safe := py_round3 p0;
                    monitor := py_round3 p1;
                    high_risk := py_round3 p2 |} |}.

Local Open Scope Q_scope.

(** [if features[k] > 0: score += w * features[k]] *)
Definition add_if_positive (score w : Q) (v : pyval) : res Q :=
  positive ← py_gt v 0;
  if (positive : bool) then x ← num v; Ok (score + w * x) else Ok score.

(** [score += features[k] * w] *)
Definition add_weighted (score : Q) (v : pyval) (w : Q) : res Q :=
  x ← num v; Ok (score + x * w).

(** The weighted sum of [_predict_with_rules], up to the comment
    [Normalize to probabilities]. *)
Definition rule_score (f : features) : res Q :=
  let score := 0 in
  (* Critical factors (high weight) *)
  score ← add_if_positive score 3 (fall_detected_count f);
  score ← add_if_positive score 4 (emergency_button_presses f);
  score ← add_if_positive score (5 # 2) (days_without_eating f);
  (* High importance factors *)
  score ← add_if_positive score (3 # 2) (distress_episodes f);
  inactive ← py_gt (camera_inactivity_hours f) 12;
  let score := if (inactive : bool) then score + 2 else score in
  pain ← py_gt (pain_expression_count f) 2;
  score ← (if (pain : bool)
           then x ← num (pain_expression_count f); Ok (score + 1 * (x - 2))
           else Ok score);
  (* Medium importance factors *)
  x ← num (avg_sentiment_7days f);
  let score := score + (- x) * (3 # 2) in
  score ← add_weighted score (sad_mood_count f) (3 # 10);
  score ← add_weighted score (lonely_mentions f) (2 # 10);
  score ← add_weighted score (health_complaints f) (3 # 10);
  score ← add_weighted score (medicine_missed f) (4 # 10);
  score ← add_weighted score (inactive_days f) (3 # 10);
  (* Lower importance factors *)
  x ← num (avg_facial_emotion_score f);
  let score := score + (- x) * (1 # 2) in
  score ← add_weighted score (eating_irregularity f) (1 # 2);
  x ← num (sleep_quality_score f);
  let score := score + (1 - x) * (1 # 2) in
  Ok score.

(** The three bands of [_predict_with_rules] *)
Definition band (normalized : Q) : prediction :=
  if Qlt_bool normalized (3 # 10) then
    {| risk_level := "SAFE";
       risk_score := py_round3 normalized;
       probs := {| safe := py_round3 (1 - normalized);
                   monitor := py_round3 (normalized * (7 # 10));
                   high_risk := py_round3 (normalized * (3 # 10)) |} |}
  else if Qlt_bool normalized (6 # 10) then
    {| risk_level := "MONITOR";
       risk_score := py_round3 normalized;
       probs := {| safe := py_round3 ((1 - normalized) * (1 # 2));
                   monitor := py_round3 ((1 # 2) + (normalized - (3 # 10)) * (1 # 2));
                   high_risk := py_round3 (normalized * (3 # 10)) |} |}
  else
    {| risk_level := "HIGH_RISK";
       risk_score := py_round3 normalized;
       probs := {| safe := py_round3 ((1 - normalized) * (3 # 10));
                   monitor := py_round3 ((1 - normalized) * (1 # 2));
                   high_risk := py_round3 normalized |} |}.

Definition normalize (score : Q) : Q := clamp01 ((score + 2) / 12).

Definition _predict_with_rules (f : features) : res prediction :=
  score ← rule_score f;
  let normalized := normalize score in
  Ok (band normalized).

Local Close Scope Q_scope.

(** [if cond: factors.append(text)] *)
Definition append_if (cond : bool) (text : string) (l : list string) : list string :=
  if cond then (l ++ [text])%list else l.

Definition _identify_risk_factors (rt : runtime) (f : features)
  : res (list string) :=
  let factors := [] in
  c ← py_lt (avg_sentiment_7days f) (- 3 # 10);
  let factors := append_if c "Persistent negative mood in conversations" factors in
  c ← py_gt (sad_mood_count f) 4;
  let factors :=
    append_if c ("Frequent sad moods (" +:+ py_str rt (sad_mood_count f) +:+ " times)")
      factors in
  c ← py_gt (lonely_mentions f) 3;
  let factors := append_if c "Repeated mentions of loneliness" factors in
  c ← py_gt (health_complaints f) 2;
  let factors :=
    append_if c (py_str rt (health_complaints f) +:+ " health complaints reported")
      factors in
  c ← py_gt (medicine_missed f) 2;
  let factors :=
    append_if c (py_str rt (medicine_missed f) +:+ " missed medications") factors in
  c ← py_gt (fall_detected_count f) 0;
  let factors :=
    append_if c ("⚠️ " +:+ py_str rt (fall_detected_count f) +:+ " fall(s) detected")
      factors in
  c ← py_gt (distress_episodes f) 0;
  let factors :=
    append_if c ("⚠️ " +:+ py_str rt (distress_episodes f) +:+ " distress episode(s)")
      factors in
  c ← py_gt (pain_expression_count f) 2;
  let factors := append_if c "Frequent pain expressions detected" factors in
  c ← py_gt (days_without_eating f) 0;
  let factors :=
    append_if c ("⚠️ No meals for " +:+ py_str rt (days_without_eating f) +:+ " day(s)")
      factors in
  c ← py_gt (camera_inactivity_hours f) 12;
  hours ← num (camera_inactivity_hours f);
  let factors :=
    append_if c ("Prolonged inactivity (" +:+ format_1f hours +:+ " hours)") factors in
  c ← py_lt (sleep_quality_score f) (1 # 2);
  let factors := append_if c "Poor sleep quality" factors in
  c ← py_gt (eating_irregularity f) (1 # 2);
  let factors := append_if c "Irregular eating patterns" factors in
  c ← py_gt (inactive_days f) 3;
  let factors :=
    append_if c (py_str rt (inactive_days f) +:+ " inactive days") factors in
  c ← py_lt (avg_facial_emotion_score f) (- 3 # 10);
  let factors := append_if c "Consistently negative facial expressions" factors in
  c ← py_gt (emergency_button_presses f) 0;
  let factors :=
    append_if c ("🚨 Emergency button pressed "
                 +:+ py_str rt (emergency_button_presses f) +:+ " time(s)")
      factors in
  Ok (match factors with
      | [] => ["No major concerns detected"]
      | _ :: _ => factors
      end).

Definition _generate_recommendations (risk_level : string) (factors : list string)
  : list string :=
  if String.eqb risk_level "SAFE" then
    [ "✅ Continue regular monitoring";
      "Maintain current care routine";
      "Encourage social activities and engagement" ]
  else if String.eqb risk_level "MONITOR" then
    let recs := ["📊 Increase check-in frequency"] in
    let factors_lower := str_lower (str_join " " factors) in
    let recs := append_if (str_in "lonely" factors_lower)
                  "💬 Arrange family visit or video call" recs in
    let recs := append_if (str_in "health" factors_lower || str_in "pain" factors_lower)
                  "🏥 Schedule medical consultation" recs in
    let recs := append_if (str_in "eating" factors_lower || str_in "meal" factors_lower)
                  "🍽️ Verify food availability and appetite" recs in
    let recs := append_if (str_in "medicine" factors_lower
                           || str_in "medication" factors_lower)
                  "💊 Set up medication reminders or assistance" recs in
    let recs := append_if (str_in "sleep" factors_lower)
                  "😴 Assess sleep environment and habits" recs in
    let recs := append_if (str_in "inactive" factors_lower)
                  "🚶 Encourage light physical activity" recs in
    take 5 recs
  else
    let recs := ["⚠️ IMMEDIATE ACTION REQUIRED"] in
    let factors_str := str_lower (str_join " " factors) in
    let recs := append_if (str_in "fall" factors_str)
                  "🚨 Contact IMMEDIATELY to verify safety after fall" recs in
    let recs := append_if (str_in "eating" factors_str && str_in "day" factors_str)
                  "🚨 URGENT: Check food situation immediately" recs in
    let recs := append_if (str_in "distress" factors_str)
                  "🚨 Contact immediately - emotional distress detected" recs in
    let recs := append_if (str_in "inactivity" factors_str)
                  "🚨 Verify wellbeing - prolonged inactivity detected" recs in
    let recs := append_if (str_in "emergency" factors_str)
                  "🚨 RESPOND TO EMERGENCY BUTTON - contact now" recs in
    let recs := (recs ++ [ "📞 Schedule immediate check-in or visit";
                           "📋 Evaluate need for increased care level";
                           "📊 Monitor closely for next 24-48 hours" ])%list in
    take 7 recs.

Record data_sources := {
  chat : bool;
  mood : bool;
  vision : bool;
  activity : bool;
  health : bool
}.

(** The two dicts [predict_risk] can return: the assessment, and the one
    of the [except Exception] branch. *)
Record assessment := {
  a_risk_level : string;
  a_risk_score : Q;
  a_risk_probability : probabilities;
  a_contributing_factors : list string;
  a_recommendations : list string;
  a_features : features;
  a_data_sources_used : data_sources;
  a_model_used : string;
  a_timestamp : Z
}.

Record failure := {
  f_risk_level : string;
  f_risk_score : Q;
  f_error : exn;
  f_timestamp : Z
}.

Inductive risk_result :=
  | Assessment (a : assessment)
  | Failure (f : failure).

(** [result['risk_level']] *)
Definition result_risk_level (r : risk_result) : string :=
  match r with
  | Assessment a => a_risk_level a
  | Failure f => f_risk_level f
  end.

(** The body of the [try] of [predict_risk]. [model] is [Some] when
    [self.model_loaded and self.model is not None]. *)
Definition predict_risk_try (rt : runtime) (model : option classifier)
    (chat_data mood_data vision_data activity_data health_data : option pydict)
    (now : Z) : res assessment :=
  let features :=
    _extract_features (or_empty chat_data) (or_empty mood_data)
      (or_empty vision_data) (or_empty activity_data) (or_empty health_data) in
  result ←
    match model with
    | Some m => _predict_with_model m features
    | None => _predict_with_rules features
    end;
  factors ← _identify_risk_factors rt features;
  let recommendations := _generate_recommendations (risk_level result) factors in
  Ok {| a_risk_level := risk_level result;
        a_risk_score := risk_score result;
        a_risk_probability := probs result;
        a_contributing_factors := factors;
        a_recommendations := recommendations;
        a_features := features;
        a_data_sources_used :=
          {| chat := bool_decide (is_Some chat_data);
             mood := bool_decide (is_Some mood_data);
             vision := bool_decide (is_Some vision_data);
             activity := bool_decide (is_Some activity_data);
             health := bool_decide (is_Some health_data) |};
        a_model_used := match model with
                        | Some _ => "random_forest"
                        | None => "rule_based"
                        end;
        a_timestamp := now |}.

Definition predict_risk (rt : runtime) (model : option classifier)
    (chat_data mood_data vision_data activity_data health_data : option pydict)
    (now : Z) : risk_result :=
  catch_all
    (predict_risk_try rt model chat_data mood_data vision_data activity_data
       health_data now)
    Assessment
    (λ e, Failure {| f_risk_level := "UNKNOWN";
                     f_risk_score := 0;
                     f_error := e;
                     f_timestamp := now |}).

End MultiModalRiskPredictor.

(** * alert_service.py *)

Module AlertService.

(** Rate limiting settings *)
Definition ALERT_COOLDOWN_MINUTES : Z := 30.
Definition MAX_ALERTS_PER_HOUR : Z := 10.

(** [timedelta(minutes=ALERT_COOLDOWN_MINUTES)] and [timedelta(hours=1)],
    in microseconds *)
Definition cooldown : Z := ALERT_COOLDOWN_MINUTES * us_per_minute.
Definition one_hour : Z := 1 * us_per_hour.

Definition newline : string := String (ascii_of_nat 10) EmptyString.

(** The arguments of one call of [_send_fcm_notification] *)
Record fcm_message := {
  fcm_token : pyval;
  title : string;
  body : string;
  data_elder_id : string;
  data_emergency_type : pyval;
  data_severity : pyval;
  data_timestamp : Z;
  data_screen : string
}.

Record notified := {
  n_name : pyval;
  n_fcm : bool;
  n_sms : bool
}.

(** The [results] dict of [send_emergency_alert] *)
Record send_results := {
  fcm_sent : Z;
  sms_sent : Z;
  failed : Z;
  family_notified : list notified
}.

(** The document written by [_log_alert] *)
Record alert_doc := {
  doc_elder_id : string;
  doc_emergency_type : pyval;
  doc_severity : pyval;
  doc_message : pyval;
  doc_action : pyval;
  doc_family_notified : list pyval;
  doc_results : send_results
}.

(** What leaves the service: one event per call of a channel method *)
Inductive event :=
  | EFcm (m : fcm_message)
  | ESms (phone : pyval) (text : string)
  | ELog (d : alert_doc).

(** The external collaborators: whether the SDKs are initialised, whether
    [self.db] holds a Firestore client ([_initialize_firebase] can set
    [firebase_initialized] and then fail in [firestore.client()], which
    leaves [self.db] at [None]), and whether a real send succeeds ([false]:
    it raised, which the channel method catches). *)
Record backends := {
  firebase_initialized : bool;
  db : bool;
  twilio_initialized : bool;
  messaging_send : fcm_message -> bool;
  twilio_create : pyval -> string -> bool
}.

(** The mutable part of the service, and the trace of channel calls *)
Record state := {
  alert_history : gmap string (list Z);
  trace : list event
}.

(** The readings of [datetime.now()] during one call of
    [send_emergency_alert] *)
Record clock := {
  now_check : Z;            (** in [_is_rate_limited] *)
  now_fcm : nat -> Z;       (** in the data of the i-th member's push *)
  now_record : Z;           (** in [_record_alert] *)
  now_return : Z            (** in the returned dict *)
}.

Inductive alert_result :=
  | Sent (results : send_results) (timestamp : Z)
  | NotSent (reason message : string).

Definition sent (r : alert_result) : bool :=
  match r with
  | Sent _ _ => true
  | NotSent _ _ => false
  end.

Definition reason (r : alert_result) : option string :=
  match r with
  | Sent _ _ => None
  | NotSent why _ => Some why
  end.

(** [key = f"{elder_id}:{alert_type}"] *)
Definition history_key (rt : runtime) (elder_id : string) (alert_type : pyval)
  : string :=
  elder_id +:+ ":" +:+ py_str rt alert_type.

Definition _is_rate_limited (rt : runtime) (history : gmap string (list Z))
    (elder_id : string) (alert_type : pyval) (now : Z) : bool :=
  let key := history_key rt elder_id alert_type in
  match history !! key with
  | Some stamps =>
      let recent_alerts := filter (λ ts, (now - ts < cooldown)%Z) stamps in
      (0 <? length recent_alerts)%nat
  | None => false
  end.

Definition _record_alert (rt : runtime) (history : gmap string (list Z))
    (elder_id : string) (alert_type : pyval) (now : Z) : gmap string (list Z) :=
  let key := history_key rt elder_id alert_type in
  let history :=
    match history !! key with
    | Some _ => history
    | None => <[key := []]> history
    end in
  let history := <[key := (default [] (history !! key) ++ [now])%list]> history in
  (* Clean old entries (keep last hour) *)
  let cutoff := (now - one_hour)%Z in
  <[key := filter (λ ts, (cutoff < ts)%Z) (default [] (history !! key))]> history.

Definition _format_title (elder_name : string) (severity : pyval) : string :=
  if py_eq_str severity "critical" then "‼️ CRITICAL EMERGENCY: " +:+ elder_name
  else if py_eq_str severity "high" then "🚨 URGENT: " +:+ elder_name
  else if py_eq_str severity "medium" then "⚠️ Alert: " +:+ elder_name
  else "ℹ️ Notice: " +:+ elder_name.

Definition _send_fcm_notification (be : backends) (m : fcm_message)
    (st : state) : bool * state :=
  let st := {| alert_history := alert_history st;
               trace := (trace st ++ [EFcm m])%list |} in
  if negb (firebase_initialized be) then (true, st)
  else (messaging_send be m, st).

Definition _send_sms_alert (be : backends) (phone : pyval) (text : string)
    (st : state) : bool * state :=
  let st := {| alert_history := alert_history st;
               trace := (trace st ++ [ESms phone text])%list |} in
  if negb (twilio_initialized be) then (true, st)
  else (twilio_create be phone text, st).

Definition _log_alert (be : backends) (d : alert_doc) (st : state) : state :=
  if negb (firebase_initialized be) || negb (db be) then st
  else {| alert_history := alert_history st;
          trace := (trace st ++ [ELog d])%list |}.

Definition is_not_none (v : pyval) : bool :=
  match v with
  | PNone => false
  | _ => true
  end.

(** One iteration of [for family_member in family_members] *)
Definition notify_member (rt : runtime) (be : backends) (clk : clock)
    (elder_id : string) (emergency_data : pydict)
    (severity message action : pyval) (notification_title notification_body : string)
    (i : nat) (family_member : pydict) (results : send_results) (st : state)
  : send_results * state :=
  let fcm_token := dict_get_none family_member "fcm_token" in
  let phone := dict_get_none family_member "phone" in
  let name := dict_get family_member "name" (PStr "Family Member") in
  (* Send FCM push notification *)
  let '(results, st) :=
    if truthy fcm_token then
      let '(fcm_result, st) :=
        _send_fcm_notification be
          {| fcm_token := fcm_token;
             title := notification_title;
             body := notification_body;
             data_elder_id := elder_id;
             data_emergency_type :=
               dict_get emergency_data "emergency_type" (PStr "unknown");
             data_severity := severity;
             data_timestamp := now_fcm clk i;
             data_screen := "emergency" |} st in
      if (fcm_result : bool)
      then ({| fcm_sent := fcm_sent results + 1; sms_sent := sms_sent results;
               failed := failed results;
               family_notified := family_notified results |}, st)
      else ({| fcm_sent := fcm_sent results; sms_sent := sms_sent results;
               failed := failed results + 1;
               family_notified := family_notified results |}, st)
    else (results, st) in
  (* Send SMS for critical emergencies *)
  let '(results, st) :=
    if py_eq_str severity "critical" && truthy phone then
      let sms_text :=
        "🚨 ElderNest EMERGENCY 🚨" +:+ newline +:+ newline
        +:+ notification_title +:+ newline +:+ newline
        +:+ py_str rt message +:+ newline +:+ newline
        +:+ py_str rt action in
      let '(sms_result, st) := _send_sms_alert be phone sms_text st in
      if (sms_result : bool)
      then ({| fcm_sent := fcm_sent results; sms_sent := sms_sent results + 1;
               failed := failed results;
               family_notified := family_notified results |}, st)
      else (results, st)
    else (results, st) in
  ({| fcm_sent := fcm_sent results; sms_sent := sms_sent results;
      failed := failed results;
      family_notified :=
        (family_notified results ++
         [ {| n_name := name;
              n_fcm := is_not_none fcm_token;
              n_sms := is_not_none phone && py_eq_str severity "critical" |} ])%list |},
   st).

(** The loop over [family_members], from index [i] *)
Fixpoint notify_all (rt : runtime) (be : backends) (clk : clock)
    (elder_id : string) (emergency_data : pydict)
    (severity message action : pyval) (notification_title notification_body : string)
    (i : nat) (family_members : list pydict) (results : send_results) (st : state)
  : send_results * state :=
  match family_members with
  | [] => (results, st)
  | family_member :: rest =>
      let '(results, st) :=
        notify_member rt be clk elder_id emergency_data severity message action
          notification_title notification_body i family_member results st in
      notify_all rt be clk elder_id emergency_data severity message action
        notification_title notification_body (S i) rest results st
  end.

(** [send_emergency_alert]. None of the modelled operations raises, so
    the [except Exception] branch (reason ["error"]) has no counterpart. *)
Definition send_emergency_alert (rt : runtime) (be : backends) (clk : clock)
    (elder_id elder_name : string) (emergency_data : pydict)
    (family_members : list pydict) (st : state) : alert_result * state :=
  let alert_type := dict_get_none emergency_data "emergency_type" in
  (* Check rate limiting *)
  if _is_rate_limited rt (alert_history st) elder_id alert_type (now_check clk) then
    (NotSent "rate_limited" "Similar alert sent recently", st)
  else
    let severity := dict_get emergency_data "severity" (PStr "medium") in
    let message := dict_get emergency_data "alert_message" (PStr "Alert from ElderNest") in
    let action := dict_get emergency_data "recommended_action" (PStr "") in
    (* Format notification *)
    let notification_title := _format_title elder_name severity in
    let notification_body :=
      py_str rt message +:+ newline +:+ newline +:+ py_str rt action in
    let results :=
      {| fcm_sent := 0; sms_sent := 0; failed := 0; family_notified := [] |} in
    (* Send to each family member *)
    let '(results, st) :=
      notify_all rt be clk elder_id emergency_data severity message action
        notification_title notification_body 0 family_members results st in
    (* Log alert in Firestore *)
    let st :=
      _log_alert be
        {| doc_elder_id := elder_id;
           doc_emergency_type := dict_get_none emergency_data "emergency_type";
           doc_severity := dict_get_none emergency_data "severity";
           doc_message := dict_get_none emergency_data "alert_message";
           doc_action := dict_get_none emergency_data "recommended_action";
           doc_family_notified :=
             (λ f : pydict, dict_get_none f "id") <$> family_members;
           doc_results := results |} st in
    (* Update rate limit cache *)
    let st :=
      {| alert_history :=
           _record_alert rt (alert_history st) elder_id alert_type (now_record clk);
         trace := trace st |} in
    (Sent results (now_return clk), st).

End AlertService.

(** * A concrete runtime

    An executable instance of [runtime], for evaluating the services on
    concrete inputs: floats with a short decimal expansion print as that
    expansion, and [parse_iso] accepts the form [YYYY-MM-DDTHH:MM:SS] that
    [datetime.isoformat()] produces for a naive datetime without
    microseconds. *)

Module BasicRuntime.

Definition digit (c : ascii) : option Z :=
  let n := Z.of_nat (nat_of_ascii c) in
  if (48 <=? n)%Z && (n <=? 57)%Z then Some (n - 48)%Z else None.

(** The value of a string of decimal digits *)
Fixpoint digits (acc : Z) (s : string) : option Z :=
  match s with
  | EmptyString => Some acc
  | String c r => d ← digit c; digits (acc * 10 + d)%Z r
  end.

(** [s[i:i+n]] as a number *)
Definition field (s : string) (i n : nat) : option Z :=
  let part := String.substring i n s in
  if (String.length part =? n)%nat then digits 0 part else None.

Definition is_leap (y : Z) : bool :=
  ((y mod 4 =? 0) && negb (y mod 100 =? 0) || (y mod 400 =? 0))%Z.

Definition days_in_month (y m : Z) : Z :=
  if (m =? 2)%Z then (if is_leap y then 29 else 28)
  else if ((m =? 4) || (m =? 6) || (m =? 9) || (m =? 11))%Z then 30
  else 31.

(** Days from 1970-01-01 to the given date of the proleptic Gregorian
    calendar *)
Definition days_from_civil (y m d : Z) : Z :=
  let y := (if (m <=? 2)%Z then y - 1 else y)%Z in
  let era := (y / 400)%Z in
  let yoe := (y - era * 400)%Z in
  let mp := (if (2 <? m)%Z then m - 3 else m + 9)%Z in
  let doy := ((153 * mp + 2) / 5 + d - 1)%Z in
  let doe := (yoe * 365 + yoe / 4 - yoe / 100 + doy)%Z in
  (era * 146097 + doe - 719468)%Z.

Definition separator (s : string) (i : nat) (c : string) : bool :=
  String.eqb (String.substring i 1 s) c.

Definition parse (s : string) : option pydatetime :=
  if negb ((String.length s =? 19)%nat
           && separator s 4 "-" && separator s 7 "-" && separator s 10 "T"
           && separator s 13 ":" && separator s 16 ":")
  then None
  else
    y ← field s 0 4; mo ← field s 5 2; d ← field s 8 2;
    h ← field s 11 2; mi ← field s 14 2; sec ← field s 17 2;
    if ((1 <=? y) && (1 <=? mo) && (mo <=? 12) && (1 <=? d)
        && (d <=? days_in_month y mo) && (h <=? 23) && (mi <=? 59)
        && (sec <=? 59))%Z
    then Some (Naive ((((days_from_civil y mo d * 24 + h) * 60 + mi) * 60 + sec)
                      * 1000000))
    else None.

(** The first [n] decimals of a fraction [0 <= r < 1] *)
Fixpoint decimals (n : nat) (r : Q) : list Z :=
  match n with
  | O => []
  | S n' =>
      if Qeq_bool r 0 then []
      else
        let d := Qfloor_Z (r * 10) in
        d :: decimals n' (r * 10 - inject_Z d)%Q
  end.

Definition repr (q : Q) : string :=
  let a := (if Qlt_bool q 0 then - q else q)%Q in
  let whole := Qfloor_Z a in
  let frac := decimals 17 (a - inject_Z whole)%Q in
  (if Qlt_bool q 0 then "-" else "")
    +:+ pretty whole +:+ "."
    +:+ match frac with
        | [] => "0"
        | _ :: _ => String.concat "" (pretty <$> frac)
        end.

Definition rt : runtime := {| repr_float := repr; parse_iso := parse |}.

End BasicRuntime.

(** * The specification's side

    Definitions that follow the words of the specification, to be compared
    with the definitions above, which follow the source. *)

Module Spec.

(** ** Emergency rule engine *)

(** The datetime that [fall_timestamp] denotes, when it is a non-empty
    string in ISO-8601 form, with or without UTC offset *)
Definition fall_time (rt : runtime) (vision_data : pydict) : option pydatetime :=
  match dict_get_none vision_data "fall_timestamp" with
  | PStr s => if String.eqb s "" then None else parse_iso rt s
  | _ => None
  end.

(** The elapsed time since the fall, in microseconds, at the local
    wall-clock time [now]. A timestamp without UTC offset is a local time;
    one with an offset is an instant, compared with [now] on the UTC time
    line, [local_utcoffset] being the offset of local time from UTC. *)
Definition elapsed_since_fall (rt : runtime) (local_utcoffset : Z)
    (vision_data : pydict) (now : Z) : option Z :=
  match fall_time rt vision_data with
  | Some (Naive t) => Some (now - t)%Z
  | Some (Aware t utcoffset) => Some ((now - local_utcoffset) - (t - utcoffset))%Z
  | None => None
  end.

(** The fall check as the specification words it: with [fall_detected]
    true, a timestamp with an elapsed time of at least five minutes gives
    the "no movement" variant. *)
Definition no_movement_after_five_minutes (rt : runtime) (local_utcoffset : Z)
    (vision_data : pydict) (now : Z) : Prop :=
  truthy (dict_get_none vision_data "fall_detected") = true →
  ∀ elapsed,
    elapsed_since_fall rt local_utcoffset vision_data now = Some elapsed →
    (5 * us_per_minute ≤ elapsed)%Z →
    ∃ c, EmergencyDetector._check_fall_emergency rt vision_data now = Ok (Some c)
         ∧ EmergencyDetector.type c = "fall_no_movement".

(** An elapsed time in microseconds as a number of minutes *)
Definition minutes (us : Z) : Q := (inject_Z us / 1000000 / 60)%Q.

(** The pain check as the specification words it: [pain_score] is read
    from the vision summary, next to [pain_detected]. *)
Definition pain_score_from_vision (rt : runtime) (vision_data health_data : pydict)
  : Prop :=
  (∃ c, EmergencyDetector._check_pain_emergency rt vision_data health_data
          = Ok (Some c)
        ∧ EmergencyDetector.type c = "severe_pain"
        ∧ EmergencyDetector.severity c = "high")
  ↔ (truthy (dict_get vision_data "pain_detected" (PBool false)) = true
     ∧ py_gt (dict_get vision_data "pain_score" (PInt 0))
         EmergencyDetector.pain_score_threshold = Ok true).

(** ** Feature extractor *)

(** The field [k] of an optional mapping, or [dflt] when the mapping or
    the field is absent *)
Definition field_or (d : option pydict) (k : string) (dflt : pyval) : pyval :=
  match d with
  | Some m => default dflt (m !! k)
  | None => dflt
  end.

(** Feature extraction as the specification words it: the vision field
    [pain_expression_count] populates the feature of that name. *)
Definition features_from_documented_fields
    (chat_data mood_data vision_data activity_data health_data : option pydict)
  : Prop :=
  MultiModalRiskPredictor.pain_expression_count
    (MultiModalRiskPredictor._extract_features
       (or_empty chat_data) (or_empty mood_data) (or_empty vision_data)
       (or_empty activity_data) (or_empty health_data))
  = field_or vision_data "pain_expression_count" (PInt 0).

(** ** Risk scorer *)

(** The feature vector of the data model: fifteen typed slots, in the
    order of its table. *)
Record FeatureVector := {
  avg_sentiment_7days : Q;
  sad_mood_count : Z;
  lonely_mentions : Z;
  health_complaints : Z;
  inactive_days : Z;
  medicine_missed : Z;
  avg_facial_emotion_score : Q;
  fall_detected_count : Z;
  distress_episodes : Z;
  eating_irregularity : Q;
  sleep_quality_score : Q;
  days_without_eating : Z;
  emergency_button_presses : Z;
  camera_inactivity_hours : Q;
  pain_expression_count : Z
}.

(** The feature dict that carries a feature vector *)
Definition to_features (v : FeatureVector) : MultiModalRiskPredictor.features := {|
  MultiModalRiskPredictor.avg_sentiment_7days := PFloat (avg_sentiment_7days v);
  MultiModalRiskPredictor.lonely_mentions := PInt (lonely_mentions v);
  MultiModalRiskPredictor.health_complaints := PInt (health_complaints v);
  MultiModalRiskPredictor.sad_mood_count := PInt (sad_mood_count v);
  MultiModalRiskPredictor.inactive_days := PInt (inactive_days v);
  MultiModalRiskPredictor.avg_facial_emotion_score :=
    PFloat (avg_facial_emotion_score v);
  MultiModalRiskPredictor.fall_detected_count := PInt (fall_detected_count v);
  MultiModalRiskPredictor.distress_episodes := PInt (distress_episodes v);
  MultiModalRiskPredictor.pain_expression_count := PInt (pain_expression_count v);
  MultiModalRiskPredictor.camera_inactivity_hours :=
    PFloat (camera_inactivity_hours v);
  MultiModalRiskPredictor.eating_irregularity := PFloat (eating_irregularity v);
  MultiModalRiskPredictor.sleep_quality_score := PFloat (sleep_quality_score v);
  MultiModalRiskPredictor.days_without_eating := PInt (days_without_eating v);
  MultiModalRiskPredictor.medicine_missed := PInt (medicine_missed v);
  MultiModalRiskPredictor.emergency_button_presses :=
    PInt (emergency_button_presses v)
|}.

(** The weighted sum as the specification words it *)
Definition weighted_sum (v : FeatureVector) : Q :=
  ((* critical-weight terms *)
   inject_Z (fall_detected_count v) * 3
   + inject_Z (emergency_button_presses v) * 4
   + inject_Z (days_without_eating v) * (25 # 10)
   (* high-weight terms *)
   + inject_Z (distress_episodes v) * (15 # 10)
   + (if Qlt_bool 12 (camera_inactivity_hours v) then 2 else 0)
   + inject_Z (Z.max 0 (pain_expression_count v - 2)) * 1
   (* medium-weight terms *)
   - avg_sentiment_7days v * (15 # 10)
   + inject_Z (sad_mood_count v) * (3 # 10)
   + inject_Z (lonely_mentions v) * (2 # 10)
   + inject_Z (health_complaints v) * (3 # 10)
   + inject_Z (medicine_missed v) * (4 # 10)
   + inject_Z (inactive_days v) * (3 # 10)
   (* low-weight terms *)
   - avg_facial_emotion_score v * (5 # 10)
   + eating_irregularity v * (5 # 10)
   + (1 - sleep_quality_score v) * (5 # 10))%Q.

(** [clamp(x, lo, hi)] *)
Definition clamp (x lo hi : Q) : Q :=
  if Qlt_bool x lo then lo else if Qlt_bool hi x then hi else x.

Definition normalized (v : FeatureVector) : Q :=
  clamp ((weighted_sum v + 2) / 12)%Q 0%Q 1%Q.

(** normalized < 0.3: SAFE; < 0.6: MONITOR; else HIGH_RISK *)
Definition label (n : Q) : string :=
  if Qlt_bool n (3 # 10)%Q then "SAFE"
  else if Qlt_bool n (6 # 10)%Q then "MONITOR"
  else "HIGH_RISK".

(** The tolerance on the sum of the three probabilities: 1e-6 *)
Definition tolerance : Q := (1 # 1000000)%Q.

Definition total (p : MultiModalRiskPredictor.probabilities) : Q :=
  (MultiModalRiskPredictor.safe p + MultiModalRiskPredictor.monitor p
   + MultiModalRiskPredictor.high_risk p)%Q.




(** ** Alert dispatcher *)

(** Pruning as the specification words it: after any dispatch attempt at
    time [now_check], sent or suppressed, no timestamp of the key is older
    than one hour. *)
Definition pruned_on_every_attempt (rt : runtime) (be : AlertService.backends)
    (clk : AlertService.clock) (elder_id elder_name : string) (data : pydict)
    (members : list pydict) (st : AlertService.state) : Prop :=
  let st' :=
    (AlertService.send_emergency_alert rt be clk elder_id elder_name data
       members st).2 in
  let key :=
    AlertService.history_key rt elder_id (dict_get_none data "emergency_type") in
  Forall (λ ts, AlertService.now_check clk - ts ≤ AlertService.one_hour)%Z
    (default [] (AlertService.alert_history st' !! key)).

End Spec.

(** * Concrete collaborators and inputs *)

Module Sample.
Import AlertService.

(** The service built as [AlertService(initialize_firebase=False)] without
    Twilio credentials: both channels are in mock mode. *)
Definition mock_backends : backends := {|
  firebase_initialized := false;
  db := false;
  twilio_initialized := false;
  messaging_send := λ _, true;
  twilio_create := λ _ _, true
|}.

(** A call during which the clock does not advance *)
Definition at_time (t : Z) : clock := {|
  now_check := t;
  now_fcm := λ _, t;
  now_record := t;
  now_return := t
|}.

Definition fresh : state := {| alert_history := ∅; trace := [] |}.

Definition fall_alert : pydict :=
  {[ "emergency_type" := PStr "fall_detected";
     "severity" := PStr "critical";
     "alert_message" := PStr "FALL DETECTED!";
     "recommended_action" := PStr "Contact immediately." ]}.

Definition family : list pydict :=
  [ {[ "id" := PStr "family-1"; "name" := PStr "Ana";
       "fcm_token" := PStr "token-1"; "phone" := PStr "+15550100" ]} ].

Definition second : Z := 1000000.
Definition minute : Z := us_per_minute.

Definition dispatch (t : Z) (st : state) : alert_result * state :=
  send_emergency_alert BasicRuntime.rt mock_backends (at_time t)
    "elder-1" "Elder" fall_alert family st.

(** One distress episode and a sleep quality of 0.8: a weighted sum of
    1.6, normalized to exactly 0.3 *)
Definition boundary_vector : Spec.FeatureVector := {|
  Spec.avg_sentiment_7days := 0;
  Spec.sad_mood_count := 0;
  Spec.lonely_mentions := 0;
  Spec.health_complaints := 0;
  Spec.inactive_days := 0;
  Spec.medicine_missed := 0;
  Spec.avg_facial_emotion_score := 0;
  Spec.fall_detected_count := 0;
  Spec.distress_episodes := 1;
  Spec.eating_irregularity := 0;
  Spec.sleep_quality_score := 8 # 10;
  Spec.days_without_eating := 0;
  Spec.emergency_button_presses := 0;
  Spec.camera_inactivity_hours := 0;
  Spec.pain_expression_count := 0
|}.

(** What the tests read from the result of [detect_emergency] *)
Definition emergency_summary (r : res EmergencyDetector.result)
  : option (EmergencyDetector.rval * EmergencyDetector.rval * EmergencyDetector.rval) :=
  match r with
  | Ok r =>
      e ← EmergencyDetector.result_get r "emergency";
      t ← EmergencyDetector.result_get r "emergency_type";
      s ← EmergencyDetector.result_get r "severity";
      Some (e, t, s)
  | Raise _ => None
  end.
End Sample.

(** * emergency_detector.py: routing priority *)

Module EmergencyPriority.
Import EmergencyDetector.

(** [bool(v)] for a value of the result dict *)
Definition rval_truthy (v : rval) : bool :=
  match v with
  | RNone => false
  | RBool b => b
  | RStr s => negb (String.eqb s "")
  | RInt z => negb (z =? 0)%Z
  | RConcerns l => negb (Nat.eqb (length l) 0)
  | RIsoformat _ => true
  end.

(** [r.get(k)] and [r.get(k, dflt)] on the result dict *)
Definition rget (r : result) (k : string) (dflt : rval) : rval :=
  default dflt (result_get r k).

(** [severity_scores.get(v, 0)]; a list cannot be a dict key *)
Definition severity_scores (v : rval) : res Z :=
  match v with
  | RStr s =>
      Ok (if String.eqb s "critical" then 100
          else if String.eqb s "high" then 75
          else if String.eqb s "medium" then 50
          else if String.eqb s "low" then 25
          else 0)%Z
  | RConcerns _ => Raise TypeError
  | RNone | RBool _ | RInt _ | RIsoformat _ => Ok 0%Z
  end.

(** [p in v] for one of the literals ['fall'], ['emergency_button'],
    ['no_eating']: a substring test on a string (none of them occurs in an
    ISO timestamp), a membership test on a list of candidate dicts (a string
    equals no dict), and [TypeError] on [None], a bool or an int. *)
Definition contains (p : string) (v : rval) : res bool :=
  match v with
  | RStr s => Ok (str_in p s)
  | RIsoformat _ | RConcerns _ => Ok false
  | RNone | RBool _ | RInt _ => Raise TypeError
  end.

Definition get_emergency_priority_score (emergency_result : result) : res Z :=
  if negb (rval_truthy (rget emergency_result "emergency" RNone)) then Ok 0%Z
  else
    base_score ← severity_scores (rget emergency_result "severity" RNone);
    (* Boost for certain emergency types *)
    let emergency_type := rget emergency_result "emergency_type" (RStr "") in
    fall ← contains "fall" emergency_type;
    boosted ← (if (fall : bool) then Ok true
               else contains "emergency_button" emergency_type);
    let base_score :=
      if (boosted : bool) then Z.min 100 (base_score + 10) else base_score in
    no_eating ← contains "no_eating" emergency_type;
    let base_score :=
      if (no_eating : bool) then Z.min 100 (base_score + 5) else base_score in
    Ok base_score.

End EmergencyPriority.

(** * Notions used to state further properties *)

Module Extra.

(** The (type, severity) pairs of the twelve candidates the seven checks
    can build *)
Definition candidate_kinds : list (string * string) :=
  [ ("fall_no_movement", "critical"); ("fall_detected", "critical");
    ("extreme_distress", "critical"); ("high_distress", "high");
    ("severe_pain", "high"); ("pain_indicators", "medium");
    ("no_eating", "critical"); ("missed_meals", "medium");
    ("prolonged_inactivity", "high"); ("extended_inactivity", "medium");
    ("emergency_button", "critical"); ("multiple_risk_factors", "high") ].

Definition kind (c : EmergencyDetector.candidate) : string * string :=
  (EmergencyDetector.type c, EmergencyDetector.severity c).

(** The rank of what a check returned: 0 when it returned [None] *)
Definition rank_of (o : option EmergencyDetector.candidate) : nat :=
  match o with
  | Some c => EmergencyDetector.rank c
  | None => 0
  end.

(** The eight factor names of the combined check, in the order it tests
    them *)
Definition all_risk_factors : list string :=
  [ "emotional distress"; "pain expressions"; "unusual posture";
    "prolonged inactivity"; "concerning activity patterns"; "missed meals";
    "multiple health complaints"; "missed medications" ].


(** The second feature vector is at least as concerning as the first:
    no count, duration or irregularity is lower, and no sentiment, facial
    emotion or sleep quality is higher. *)
Definition at_least_as_concerning (v v' : Spec.FeatureVector) : Prop :=
  (Spec.fall_detected_count v ≤ Spec.fall_detected_count v')%Z
  ∧ (Spec.emergency_button_presses v ≤ Spec.emergency_button_presses v')%Z
  ∧ (Spec.days_without_eating v ≤ Spec.days_without_eating v')%Z
  ∧ (Spec.distress_episodes v ≤ Spec.distress_episodes v')%Z
  ∧ (Spec.camera_inactivity_hours v <= Spec.camera_inactivity_hours v')%Q
  ∧ (Spec.pain_expression_count v ≤ Spec.pain_expression_count v')%Z
  ∧ (Spec.avg_sentiment_7days v' <= Spec.avg_sentiment_7days v)%Q
  ∧ (Spec.sad_mood_count v ≤ Spec.sad_mood_count v')%Z
  ∧ (Spec.lonely_mentions v ≤ Spec.lonely_mentions v')%Z
  ∧ (Spec.health_complaints v ≤ Spec.health_complaints v')%Z
  ∧ (Spec.medicine_missed v ≤ Spec.medicine_missed v')%Z
  ∧ (Spec.inactive_days v ≤ Spec.inactive_days v')%Z
  ∧ (Spec.avg_facial_emotion_score v' <= Spec.avg_facial_emotion_score v)%Q
  ∧ (Spec.eating_irregularity v <= Spec.eating_irregularity v')%Q
  ∧ (Spec.sleep_quality_score v' <= Spec.sleep_quality_score v)%Q.

(** The ranges of the aggregated features: counts and eating irregularity
    are not negative; the two sentiment scores and the sleep quality are at
    most 1. *)
Definition in_range (v : Spec.FeatureVector) : Prop :=
  (0 ≤ Spec.fall_detected_count v)%Z
  ∧ (0 ≤ Spec.emergency_button_presses v)%Z
  ∧ (0 ≤ Spec.days_without_eating v)%Z
  ∧ (0 ≤ Spec.distress_episodes v)%Z
  ∧ (0 ≤ Spec.sad_mood_count v)%Z
  ∧ (0 ≤ Spec.lonely_mentions v)%Z
  ∧ (0 ≤ Spec.health_complaints v)%Z
  ∧ (0 ≤ Spec.medicine_missed v)%Z
  ∧ (0 ≤ Spec.inactive_days v)%Z
  ∧ (0 <= Spec.eating_irregularity v)%Q
  ∧ (Spec.avg_sentiment_7days v <= 1)%Q
  ∧ (Spec.avg_facial_emotion_score v <= 1)%Q
  ∧ (Spec.sleep_quality_score v <= 1)%Q.

(** SAFE < MONITOR < HIGH_RISK *)
Definition label_rank (label : string) : nat :=
  if String.eqb label "SAFE" then 0
  else if String.eqb label "MONITOR" then 1
  else 2.

(** The members a push is attempted for, and those an SMS is attempted
    for when the alert is critical *)
Definition has_token (member : pydict) : bool :=
  truthy (dict_get_none member "fcm_token").
Definition has_phone (member : pydict) : bool :=
  truthy (dict_get_none member "phone").

Definition is_fcm (e : AlertService.event) : bool :=
  match e with
  | AlertService.EFcm _ => true
  | _ => false
  end.
Definition is_sms (e : AlertService.event) : bool :=
  match e with
  | AlertService.ESms _ _ => true
  | _ => false
  end.

(** Number of elements of a list that satisfy a test *)
Definition count {A} (p : A -> bool) (l : list A) : Z :=
  Z.of_nat (length (List.filter p l)).

(** Timestamps in increasing order, each at least one cooldown after the
    one before *)
Definition spaced (stamps : list Z) : Prop :=
  StronglySorted (λ a b, a + AlertService.cooldown ≤ b)%Z stamps.

(** The string has no colon *)
Fixpoint no_colon (s : string) : bool :=
  match s with
  | EmptyString => true
  | String c r => negb (Ascii.eqb c ":"%char) && no_colon r
  end.

End Extra.

(** * Inputs used as instances *)

Module Cases.

(** [fromisoformat] on the form [YYYY-MM-DDTHH:MM:SS+HH:MM] (or [-HH:MM]):
    an aware datetime with that UTC offset; other strings as in the basic
    runtime *)
Definition parse_with_offset (s : string) : option pydatetime :=
  if (String.length s =? 25)%nat then
    match BasicRuntime.parse (String.substring 0 19 s) with
    | Some (Naive t) =>
        h ← BasicRuntime.field s 20 2;
        m ← BasicRuntime.field s 23 2;
        if (BasicRuntime.separator s 22 ":" && (h <=? 23) && (m <=? 59))%Z then
          let utcoffset := ((h * 60 + m) * us_per_minute)%Z in
          if BasicRuntime.separator s 19 "+" then Some (Aware t utcoffset)
          else if BasicRuntime.separator s 19 "-" then Some (Aware t (- utcoffset))
          else None
        else None
    | _ => None
    end
  else BasicRuntime.parse s.

Definition offset_runtime : runtime :=
  {| repr_float := BasicRuntime.repr; parse_iso := parse_with_offset |}.

(** A fall stamped 10:45 UTC, with the offset written out *)
Definition fall_with_offset : pydict :=
  {[ "fall_detected" := PBool true;
     "fall_timestamp" := PStr "2026-01-25T10:45:00+00:00" ]}.

(** Nothing reported, except the given number of emergency button
    presses, with the best sentiment, facial emotion and sleep scores *)
Definition presses (n : Z) : Spec.FeatureVector := {|
  Spec.avg_sentiment_7days := 1;
  Spec.sad_mood_count := 0;
  Spec.lonely_mentions := 0;
  Spec.health_complaints := 0;
  Spec.inactive_days := 0;
  Spec.medicine_missed := 0;
  Spec.avg_facial_emotion_score := 1;
  Spec.fall_detected_count := 0;
  Spec.distress_episodes := 0;
  Spec.eating_irregularity := 0;
  Spec.sleep_quality_score := 1;
  Spec.days_without_eating := 0;
  Spec.emergency_button_presses := n;
  Spec.camera_inactivity_hours := 0;
  Spec.pain_expression_count := 0
|}.

(** The given number of detected falls, with the best sentiment, facial
    emotion and sleep scores *)
Definition falls (n : Z) : Spec.FeatureVector := {|
  Spec.avg_sentiment_7days := 1;
  Spec.sad_mood_count := 0;
  Spec.lonely_mentions := 0;
  Spec.health_complaints := 0;
  Spec.inactive_days := 0;
  Spec.medicine_missed := 0;
  Spec.avg_facial_emotion_score := 1;
  Spec.fall_detected_count := n;
  Spec.distress_episodes := 0;
  Spec.eating_irregularity := 0;
  Spec.sleep_quality_score := 1;
  Spec.days_without_eating := 0;
  Spec.emergency_button_presses := 0;
  Spec.camera_inactivity_hours := 0;
  Spec.pain_expression_count := 0
|}.

(** A fitted classifier that always answers class 1 with the same three
    probabilities *)
Definition fixed_classifier : MultiModalRiskPredictor.classifier := {|
  MultiModalRiskPredictor.predict := λ _, Ok 1%Z;
  MultiModalRiskPredictor.predict_proba := λ _, Ok [2 # 10; 5 # 10; 3 # 10]%Q
|}.

(** Both SDKs initialised: every push is rejected, every SMS accepted *)
Definition live_backends : AlertService.backends := {|
  AlertService.firebase_initialized := true;
  AlertService.db := true;
  AlertService.twilio_initialized := true;
  AlertService.messaging_send := λ _, false;
  AlertService.twilio_create := λ _ _, true
|}.

(** Firebase initialised but [firestore.client()] failed: pushes are
    sent, [self.db] is [None] *)
Definition firestore_down : AlertService.backends := {|
  AlertService.firebase_initialized := true;
  AlertService.db := false;
  AlertService.twilio_initialized := true;
  AlertService.messaging_send := λ _, true;
  AlertService.twilio_create := λ _ _, true
|}.

(** No SDK initialised: both channels are in mock mode *)
Definition mock_backends : AlertService.backends := {|
  AlertService.firebase_initialized := false;
  AlertService.db := false;
  AlertService.twilio_initialized := false;
  AlertService.messaging_send := λ _, false;
  AlertService.twilio_create := λ _ _, false
|}.

(** A call that checks the rate limit at [t] and records the alert one
    second later *)
Definition clock_at (t : Z) : AlertService.clock := {|
  AlertService.now_check := t;
  AlertService.now_fcm := λ _, t;
  AlertService.now_record := t + 1000000;
  AlertService.now_return := t + 1000000
|}.

Definition idle : AlertService.state :=
  {| AlertService.alert_history := ∅; AlertService.trace := [] |}.

Definition button_alert : pydict :=
  {[ "emergency_type" := PStr "emergency_button";
     "severity" := PStr "critical";
     "alert_message" := PStr "Emergency button pressed";
     "recommended_action" := PStr "Respond now." ]}.

(** One relative with a token and a phone, one with a token only, one
    with neither *)
Definition relatives : list pydict :=
  [ {[ "id" := PStr "family-1"; "name" := PStr "Ana";
       "fcm_token" := PStr "token-1"; "phone" := PStr "+15550100" ]};
    {[ "id" := PStr "family-2"; "fcm_token" := PStr "token-2" ]};
    {[ "id" := PStr "family-3"; "name" := PStr "Raj" ]} ].

End Cases.

(** * Verification *)

(** ** Comparisons, rounding and the error monad *)

Section Rationals.
Local Open Scope Q_scope.

Lemma Qlt_bool_iff x y : Qlt_bool x y = true ↔ x < y.
Proof.
  unfold Qlt_bool. rewrite negb_true_iff, <- not_true_iff_false, Qle_bool_iff.
  split; [apply Qnot_le_lt | apply Qlt_not_le].
Qed.

Lemma Qlt_bool_false x y : Qlt_bool x y = false ↔ y <= x.
Proof. unfold Qlt_bool. by rewrite negb_false_iff, Qle_bool_iff. Qed.

Lemma Qlt_bool_proper x x' y y' :
  x == x' → y == y' → Qlt_bool x y = Qlt_bool x' y'.
Proof.
  intros Hx Hy. apply eq_true_iff_eq.
  rewrite !Qlt_bool_iff. by rewrite Hx, Hy.
Qed.

Lemma Qlt_bool_inject_Z (a z : Z) :
  Qlt_bool (inject_Z a) (inject_Z z) = (a <? z)%Z.
Proof.
  apply eq_true_iff_eq. rewrite Qlt_bool_iff, Z.ltb_lt.
  by rewrite (Zlt_Qlt a z).
Qed.

Lemma Qfloor_Z_bounds q : inject_Z (Qfloor_Z q) <= q < inject_Z (Qfloor_Z q) + 1.
Proof.
  assert (E : Qfloor_Z q = Qfloor q) by by destruct q.
  rewrite E. split; [apply Qfloor_le|].
  pose proof (Qlt_floor q) as H. by rewrite inject_Z_plus in H.
Qed.

(** Rounding moves a number by at most one half. *)
Lemma round_half_even_bounds q :
  q - (1 # 2) <= inject_Z (round_half_even q) <= q + (1 # 2).
Proof.
  unfold round_half_even.
  destruct (Qfloor_Z_bounds q) as [Hlo Hhi].
  set (f := Qfloor_Z q) in *.
  assert (E : inject_Z (f + 1) == inject_Z f + 1)
    by (rewrite inject_Z_plus; reflexivity).
  destruct (Qlt_bool (q - inject_Z f) (1 # 2)) eqn:H1.
  { apply Qlt_bool_iff in H1. lra. }
  apply Qlt_bool_false in H1.
  destruct (Qlt_bool (1 # 2) (q - inject_Z f)) eqn:H2.
  { rewrite E. lra. }
  apply Qlt_bool_false in H2.
  destruct (Z.even f); [lra | rewrite E; lra].
Qed.

(** [round(x, 3)] moves a number by at most 0.0005. *)
Lemma py_round3_bounds x :
  x - (1 # 2000) <= py_round3 x <= x + (1 # 2000).
Proof.
  unfold py_round3.
  pose proof (round_half_even_bounds (x * 1000)) as H.
  set (z := round_half_even (x * 1000)) in *.
  assert (E : z # 1000 == inject_Z z * (1 # 1000)).
  { unfold Qeq, inject_Z, Qmult. simpl. lia. }
  rewrite E. lra.
Qed.

Lemma clamp01_spec x : clamp01 x == Spec.clamp x 0 1.
Proof.
  unfold clamp01, Spec.clamp, py_min, py_max.
  destruct (Qlt_bool 0 x) eqn:Hpos;
    [apply Qlt_bool_iff in Hpos | apply Qlt_bool_false in Hpos];
  repeat match goal with
         | |- context [Qlt_bool ?a ?b] =>
             let E := fresh in
             destruct (Qlt_bool a b) eqn:E;
             [apply Qlt_bool_iff in E | apply Qlt_bool_false in E]
         end; try reflexivity; lra.
Qed.

Lemma clamp_proper x y lo hi : x == y → Spec.clamp x lo hi == Spec.clamp y lo hi.
Proof.
  intros E. unfold Spec.clamp.
  rewrite (Qlt_bool_proper x y lo lo E (Qeq_refl lo)),
    (Qlt_bool_proper hi hi x y (Qeq_refl hi) E).
  destruct (Qlt_bool y lo); [reflexivity|].
  destruct (Qlt_bool hi y); [reflexivity | exact E].
Qed.

Lemma label_proper x y : x == y → Spec.label x = Spec.label y.
Proof.
  intros E. unfold Spec.label.
  by rewrite (Qlt_bool_proper x y _ _ E (Qeq_refl (3 # 10))),
    (Qlt_bool_proper x y _ _ E (Qeq_refl (6 # 10))).
Qed.

(** Five minutes, as the fall check measures them *)
Lemma five_minutes (d : Z) :
  Qle_bool EmergencyDetector.fall_no_movement_minutes (Spec.minutes d)
  = (5 * us_per_minute <=? d)%Z.
Proof.
  unfold EmergencyDetector.fall_no_movement_minutes, Spec.minutes, us_per_minute.
  apply eq_true_iff_eq. rewrite Qle_bool_iff, Z.leb_le.
  rewrite (Zle_Qle (5 * 60000000) d).
  change (inject_Z (5 * 60000000)) with (300000000 # 1).
  generalize (inject_Z d). intros x.
  assert (E : x / 1000000 / 60 == x * (1 # 60000000)) by field.
  rewrite E. split; intros H; lra.
Qed.
End Rationals.

Section Operands.


Lemma num_ok v q : as_num v = Some q → num v = Ok q.
Proof. intros H. unfold num. by rewrite H. Qed.

Lemma py_gt_num v c q : as_num v = Some q → py_gt v c = Ok (Qlt_bool c q).
Proof. intros H. unfold py_gt, num. by rewrite H. Qed.

End Operands.

(** ** Emergency rule engine: selection of the primary emergency *)

Section SortBySeverity.
Import EmergencyDetector.

Lemma insert_by_rank_perm c l : insert_by_rank c l ≡ₚ c :: l.
Proof.
  induction l as [|d l IH]; simpl; [done|].
  destruct (rank c <? rank d)%nat; [|done].
  rewrite IH. apply Permutation_swap.
Qed.

Lemma sort_by_severity_perm l : sort_by_severity l ≡ₚ l.
Proof.
  induction l as [|c l IH]; simpl; [done|].
  rewrite insert_by_rank_perm. by rewrite IH.
Qed.

Lemma sort_by_severity_length l : length (sort_by_severity l) = length l.
Proof. by rewrite sort_by_severity_perm. Qed.

(** The sorted list is in descending order of rank. *)
Lemma insert_by_rank_sorted c l :
  StronglySorted (λ a b, rank b ≤ rank a)%nat l →
  StronglySorted (λ a b, rank b ≤ rank a)%nat (insert_by_rank c l).
Proof.
  induction 1 as [|d l Hs IH Hd]; simpl.
  - repeat constructor.
  - destruct (Nat.ltb_spec (rank c) (rank d)) as [Hlt|Hge].
    + constructor; [done|].
      rewrite insert_by_rank_perm. constructor; [lia | done].
    + constructor; [by constructor|].
      constructor; [done|].
      eapply Forall_impl; [exact Hd|]. simpl. lia.
Qed.

Lemma sort_by_severity_sorted l :
  StronglySorted (λ a b, rank b ≤ rank a)%nat (sort_by_severity l).
Proof.
  induction l; simpl; [constructor | by apply insert_by_rank_sorted].
Qed.

(** The head of the sorted list is the first candidate of maximal rank. *)
Lemma sort_by_severity_head c l :
  ∃ top rest pre post,
    sort_by_severity (c :: l) = top :: rest
    ∧ c :: l = (pre ++ top :: post)%list
    ∧ Forall (λ d, rank d < rank top)%nat pre
    ∧ Forall (λ d, rank d ≤ rank top)%nat post.
Proof.
  revert c. induction l as [|d l IH]; intros c.
  - exists c, [], [], []. by repeat split.
  - destruct (IH d) as (top & rest & pre & post & Hs & Hl & Hpre & Hpost).
    change (sort_by_severity (c :: d :: l))
      with (insert_by_rank c (sort_by_severity (d :: l))).
    rewrite Hs. simpl.
    destruct (Nat.ltb_spec (rank c) (rank top)) as [Hlt|Hge].
    + exists top, (insert_by_rank c rest), (c :: pre), post.
      repeat split; [by rewrite Hl | by constructor | done].
    + exists c, (top :: rest), [], (d :: l).
      repeat split; [constructor|].
      rewrite Hl. apply Forall_app. split.
      * eapply Forall_impl; [exact Hpre|]. simpl. lia.
      * constructor; [done|].
        eapply Forall_impl; [exact Hpost|]. simpl. lia.
Qed.
End SortBySeverity.

Section DetectEmergency.
Import EmergencyDetector.
Context (rt : runtime).

(** C1. The ranks are critical=4, high=3, medium=2, low=1. When the seven
    checks trigger at least one candidate, the result reports as primary
    the first candidate, in check order, of maximal rank; [all_concerns]
    holds all the triggered candidates (sorted by rank, stably) and
    [total_emergencies] their number. When no check triggers, the result
    has emergency=False, severity "none", emergency_type None and
    all_concerns=[]; that dict has no [total_emergencies] key. *)
Theorem detect_emergency_primary
    (vision_data activity_data health_data : option pydict)
    (now_fall now : Z) (triggered : list candidate) :
  collect_emergencies rt (or_empty vision_data) (or_empty activity_data)
    (or_empty health_data) now_fall = Ok triggered →
  severity_order "critical" = 4%nat ∧ severity_order "high" = 3%nat
  ∧ severity_order "medium" = 2%nat ∧ severity_order "low" = 1%nat
  ∧ match triggered with
    | [] =>
        ∃ r,
          detect_emergency rt vision_data activity_data health_data now_fall now
            = Ok r
          ∧ result_get r "emergency" = Some (RBool false)
          ∧ result_get r "severity" = Some (RStr "none")
          ∧ result_get r "emergency_type" = Some RNone
          ∧ result_get r "all_concerns" = Some (RConcerns [])
          ∧ result_get r "total_emergencies" = None
    | _ :: _ =>
        ∃ r primary rest pre post,
          detect_emergency rt vision_data activity_data health_data now_fall now
            = Ok r
          ∧ triggered = (pre ++ primary :: post)%list
          ∧ Forall (λ c, rank c < rank primary)%nat pre
          ∧ Forall (λ c, rank c ≤ rank primary)%nat post
          ∧ primary :: rest = sort_by_severity triggered
          ∧ primary :: rest ≡ₚ triggered
          ∧ result_get r "emergency" = Some (RBool true)
          ∧ result_get r "emergency_type" = Some (RStr (type primary))
          ∧ result_get r "severity" = Some (RStr (severity primary))
          ∧ result_get r "alert_message" = Some (RStr (message primary))
          ∧ result_get r "recommended_action" = Some (RStr (action primary))
          ∧ result_get r "all_concerns" = Some (RConcerns (primary :: rest))
          ∧ result_get r "total_emergencies"
              = Some (RInt (Z.of_nat (length triggered)))
    end.
Proof.
  intros Hcollect. do 4 (split; [reflexivity|]).
  unfold detect_emergency. rewrite Hcollect. simpl.
  destruct triggered as [|c l].
  - eexists. split; [reflexivity|]. by repeat split.
  - destruct (sort_by_severity_head c l)
      as (top & rest & pre & post & Hs & Hl & Hpre & Hpost).
    unfold build_result. rewrite Hs.
    eexists _, top, rest, pre, post.
    split; [reflexivity|].
    repeat split; try done.
    + rewrite <- Hs. apply sort_by_severity_perm.
    + pose proof (sort_by_severity_length (c :: l)) as Hlen.
      rewrite Hs in Hlen. simpl in *. by rewrite Hlen.
Qed.
End DetectEmergency.

(** A fall, a missed day of meals and a pressed button: two critical
    candidates, of which the fall comes first in check order. *)
Lemma detect_emergency_primary_witness :
  ∃ r primary rest,
    EmergencyDetector.detect_emergency BasicRuntime.rt
      (Some {[ "fall_detected" := PBool true ]})
      (Some {[ "days_without_eating" := PInt 1 ]})
      (Some {[ "emergency_button_presses" := PInt 1 ]}) 0 0 = Ok r
    ∧ EmergencyDetector.result_get r "emergency_type" = Some (EmergencyDetector.RStr "fall_detected")
    ∧ EmergencyDetector.result_get r "severity" = Some (EmergencyDetector.RStr "critical")
    ∧ EmergencyDetector.result_get r "all_concerns"
      = Some (EmergencyDetector.RConcerns (primary :: rest))
    ∧ EmergencyDetector.type <$> (primary :: rest)
      = ["fall_detected"; "emergency_button"; "missed_meals"]
    ∧ EmergencyDetector.result_get r "total_emergencies"
      = Some (EmergencyDetector.RInt 3).
Proof.
  destruct (EmergencyDetector.collect_emergencies BasicRuntime.rt
              (or_empty (Some {[ "fall_detected" := PBool true ]}))
              (or_empty (Some {[ "days_without_eating" := PInt 1 ]}))
              (or_empty (Some {[ "emergency_button_presses" := PInt 1 ]})) 0)
    as [triggered|e] eqn:Hc; [|by vm_compute in Hc].
  pose proof (detect_emergency_primary BasicRuntime.rt _ _ _ 0 0 triggered Hc)
    as (_ & _ & _ & _ & H).
  vm_compute in Hc. injection Hc as <-.
  destruct H as (r & primary & rest & pre & post & Hr & _ & _ & _ & Hsort & _
                 & _ & Hty & Hsev & _ & _ & Hall & Htot).
  exists r, primary, rest.
  split; [exact Hr|].
  vm_compute in Hsort. injection Hsort as -> ->.
  by repeat split.
Defined.

(** ** Emergency rule engine: the fall check *)

Section FallCheck.
Import EmergencyDetector.
Context (rt : runtime).

(** C2. With [fall_detected] true the fall check emits exactly one
    candidate, of severity critical, and with [fall_detected] absent or
    false it emits nothing. For a timestamp without UTC offset the
    candidate is [fall_no_movement], with the elapsed minutes in its
    message, when at least five minutes have elapsed, and [fall_detected]
    before. For a timestamp with a UTC offset the candidate is
    [fall_detected] whatever the elapsed time: subtracting it from the
    naive [datetime.now()] raises [TypeError], which the handler for
    unparseable timestamps swallows. Without a timestamp that parses the
    candidate is [fall_detected]. *)
Theorem fall_check_one_candidate (local_utcoffset : Z) (vision_data : pydict)
    (now : Z) :
  if truthy (dict_get_none vision_data "fall_detected") then
    ∃ c, _check_fall_emergency rt vision_data now = Ok (Some c)
         ∧ severity c = "critical"
         ∧ match Spec.fall_time rt vision_data with
           | Some (Naive t) =>
               Spec.elapsed_since_fall rt local_utcoffset vision_data now
               = Some (now - t)%Z
               ∧ if (5 * us_per_minute <=? now - t)%Z
                 then c = fall_no_movement (Spec.minutes (now - t))
                      ∧ type c = "fall_no_movement"
                      ∧ message c =
                          "🚨 URGENT: Fall detected "
                          +:+ pretty (py_int (Spec.minutes (now - t)))
                          +:+ " minutes ago with no movement detected!"
                 else c = fall_detected ∧ type c = "fall_detected"
           | Some (Aware t utcoffset) =>
               Spec.elapsed_since_fall rt local_utcoffset vision_data now
               = Some ((now - local_utcoffset) - (t - utcoffset))%Z
               ∧ c = fall_detected ∧ type c = "fall_detected"
           | None =>
               Spec.elapsed_since_fall rt local_utcoffset vision_data now = None
               ∧ c = fall_detected ∧ type c = "fall_detected"
           end
  else _check_fall_emergency rt vision_data now = Ok None.
Proof.
  unfold _check_fall_emergency, Spec.elapsed_since_fall, Spec.fall_time.
  destruct (truthy (dict_get_none vision_data "fall_detected")); simpl; [|done].
  destruct (dict_get_none vision_data "fall_timestamp") as [|b|z|q|s] eqn:Hts;
    simpl.
  - by exists fall_detected.
  - destruct b; by exists fall_detected.
  - destruct (z =? 0)%Z; by exists fall_detected.
  - destruct (Qeq_bool q 0); by exists fall_detected.
  - destruct (String.eqb s ""); simpl; [by exists fall_detected|].
    unfold fall_try. simpl.
    destruct (parse_iso rt s) as [[t|t o]|]; simpl;
      [|by exists fall_detected..].
    fold (Spec.minutes (now - t)). rewrite five_minutes.
    destruct (5 * us_per_minute <=? now - t)%Z; simpl.
    + by eexists.
    + by exists fall_detected.
Qed.

End FallCheck.

(** The engine at 10:51, for a fall stamped 10:45 and for a fall without
    timestamp *)
Example fall_six_minutes_ago :
  EmergencyDetector._check_fall_emergency BasicRuntime.rt
    {[ "fall_detected" := PBool true;
       "fall_timestamp" := PStr "2026-01-25T10:45:00" ]}
    (1769337900000000 + 6 * us_per_minute)
  = Ok (Some (EmergencyDetector.fall_no_movement 6)).
Proof. reflexivity. Qed.

Example fall_without_timestamp :
  EmergencyDetector._check_fall_emergency BasicRuntime.rt
    {[ "fall_detected" := PBool true ]} 1769337900000000
  = Ok (Some EmergencyDetector.fall_detected).
Proof. reflexivity. Qed.

(** C2, as stated, fails: at 16:45 UTC a fall stamped 10:45 with the
    offset [+00:00] is six hours old, and the check still answers with the
    immediate [fall_detected] candidate. *)
Lemma offset_timestamp_never_escalates :
  ¬ Spec.no_movement_after_five_minutes Cases.offset_runtime 0
      Cases.fall_with_offset (1769337900000000 + 360 * us_per_minute).
Proof.
  unfold Spec.no_movement_after_five_minutes. intros H.
  destruct (H eq_refl (360 * us_per_minute)%Z) as (c & Hc & Htype).
  - by vm_compute.
  - by vm_compute.
  - vm_compute in Hc. injection Hc as <-. discriminate.
Qed.


(** ** Emergency rule engine: the pain check *)

Section PainCheck.
Import EmergencyDetector.
Context (rt : runtime).

(** C8, as amended. [pain_detected] and [pain_expression_count] are read
    from the vision summary, [pain_score] and [health_complaints] from the
    health summary. On numeric values, the check emits the high-severity
    [severe_pain] candidate exactly when [pain_detected] is true and
    [pain_score] > 0.7; otherwise the medium-severity candidate exactly
    when [pain_expression_count] > 3 and [health_complaints] > 2; never
    both, the high-severity condition being tested first. *)
Theorem pain_check_cases (vision_data health_data : pydict)
    (score expressions complaints : Q) :
  let pain_detected := dict_get vision_data "pain_detected" (PBool false) in
  let pain_score := dict_get health_data "pain_score" (PInt 0) in
  let pain_expressions := dict_get vision_data "pain_expression_count" (PInt 0) in
  let health_complaints := dict_get health_data "health_complaints" (PInt 0) in
  as_num pain_score = Some score →
  as_num pain_expressions = Some expressions →
  as_num health_complaints = Some complaints →
  _check_pain_emergency rt vision_data health_data
  = Ok (if truthy pain_detected && Qlt_bool (7 # 10) score
        then Some (severe_pain rt score pain_expressions)
        else if Qlt_bool 3 expressions && Qlt_bool 2 complaints
             then Some (pain_indicators rt pain_expressions health_complaints)
             else None)
  ∧ type (severe_pain rt score pain_expressions) = "severe_pain"
  ∧ severity (severe_pain rt score pain_expressions) = "high"
  ∧ severity (pain_indicators rt pain_expressions health_complaints) = "medium".
Proof.
  intros pain_detected pain_score pain_expressions health_complaints Hs He Hc.
  split; [|done].
  unfold _check_pain_emergency.
  fold pain_detected pain_score pain_expressions health_complaints.
  rewrite (py_gt_num _ _ _ Hs), (py_gt_num _ _ _ He), (py_gt_num _ _ _ Hc),
    (num_ok _ _ Hs).
  unfold pain_score_threshold.
  destruct (truthy pain_detected); simpl.
  - destruct (Qlt_bool (7 # 10) score); simpl; [done|].
    by destruct (Qlt_bool 3 expressions), (Qlt_bool 2 complaints).
  - by destruct (Qlt_bool 3 expressions), (Qlt_bool 2 complaints).
Qed.
End PainCheck.

Lemma pain_check_cases_witness :
  EmergencyDetector._check_pain_emergency BasicRuntime.rt
    {[ "pain_detected" := PBool true; "pain_expression_count" := PInt 4 ]}
    {[ "pain_score" := PFloat (9 # 10); "health_complaints" := PInt 3 ]}
  = Ok (Some (EmergencyDetector.severe_pain BasicRuntime.rt (9 # 10) (PInt 4))).
Proof.
  refine (proj1 (pain_check_cases BasicRuntime.rt
           {[ "pain_detected" := PBool true; "pain_expression_count" := PInt 4 ]}
           {[ "pain_score" := PFloat (9 # 10); "health_complaints" := PInt 3 ]}
           (9 # 10) 4 3 _ _ _)); reflexivity.
Defined.

(** C8, as stated, fails: a pain score of 0.9 in the vision summary, next
    to [pain_detected], triggers nothing. *)
Lemma pain_score_in_vision_ignored :
  ¬ Spec.pain_score_from_vision BasicRuntime.rt
      {[ "pain_detected" := PBool true; "pain_score" := PFloat (9 # 10) ]} ∅.
Proof.
  intros [_ H]. destruct H as (c & Hc & _); [by split|]. discriminate Hc.
Qed.

(** ** Feature extractor *)

Section ExtractFeatures.
Import MultiModalRiskPredictor.

(** C9, as amended. Extraction is a total function without effects that
    fills the fifteen features, each from one field of one modality:
    chat [avg_sentiment], [lonely_mentions], [health_complaints]; mood
    [sad_count], [inactive_days]; vision [emotion_score], [fall_count],
    [distress_count], [pain_count], [inactivity_hours]; activity
    [eating_irregularity], [sleep_quality], [days_without_eating]; health
    [medicine_missed], [emergency_button_presses]. An absent field or
    modality gives the default: 0.0, 1.0 for the sleep quality, 0 for
    counts. *)
Theorem extract_features_fields
    (chat_data mood_data vision_data activity_data health_data : option pydict) :
  let f := _extract_features (or_empty chat_data) (or_empty mood_data)
             (or_empty vision_data) (or_empty activity_data)
             (or_empty health_data) in
  avg_sentiment_7days f = Spec.field_or chat_data "avg_sentiment" (PFloat 0)
  ∧ lonely_mentions f = Spec.field_or chat_data "lonely_mentions" (PInt 0)
  ∧ health_complaints f = Spec.field_or chat_data "health_complaints" (PInt 0)
  ∧ sad_mood_count f = Spec.field_or mood_data "sad_count" (PInt 0)
  ∧ inactive_days f = Spec.field_or mood_data "inactive_days" (PInt 0)
  ∧ avg_facial_emotion_score f = Spec.field_or vision_data "emotion_score" (PFloat 0)
  ∧ fall_detected_count f = Spec.field_or vision_data "fall_count" (PInt 0)
  ∧ distress_episodes f = Spec.field_or vision_data "distress_count" (PInt 0)
  ∧ pain_expression_count f = Spec.field_or vision_data "pain_count" (PInt 0)
  ∧ camera_inactivity_hours f
    = Spec.field_or vision_data "inactivity_hours" (PFloat 0)
  ∧ eating_irregularity f
    = Spec.field_or activity_data "eating_irregularity" (PFloat 0)
  ∧ sleep_quality_score f = Spec.field_or activity_data "sleep_quality" (PFloat 1)
  ∧ days_without_eating f
    = Spec.field_or activity_data "days_without_eating" (PInt 0)
  ∧ medicine_missed f = Spec.field_or health_data "medicine_missed" (PInt 0)
  ∧ emergency_button_presses f
    = Spec.field_or health_data "emergency_button_presses" (PInt 0).
Proof.
  destruct chat_data, mood_data, vision_data, activity_data, health_data;
    repeat split.
Qed.
End ExtractFeatures.

(** C9, as stated, fails: the documented vision field
    [pain_expression_count] does not reach the feature of that name. *)
Lemma documented_pain_field_ignored :
  ¬ Spec.features_from_documented_fields None None
      (Some {[ "pain_expression_count" := PInt 5 ]}) None None.
Proof. intros H. discriminate H. Qed.

(** ** Risk scorer: the weighted sum and the bands *)

Section RuleScore.
Import MultiModalRiskPredictor.
Local Open Scope Q_scope.

Lemma add_if_positive_count score w z :
  (0 <= z)%Z →
  ∃ score', add_if_positive score w (PInt z) = Ok score'
            ∧ score' == score + inject_Z z * w.
Proof.
  intros Hz. unfold add_if_positive, py_gt, num. simpl.
  rewrite (Qlt_bool_inject_Z 0). destruct (Z.ltb_spec 0 z) as [Hpos|Hle].
  - eexists. split; [reflexivity|]. ring.
  - assert (z = 0%Z) as -> by lia.
    eexists. split; [reflexivity|]. ring.
Qed.

Lemma add_excess_pain score z :
  ∃ score',
    (if Qlt_bool 2 (inject_Z z)
     then Ok (score + 1 * (inject_Z z - 2))
     else Ok score) = Ok score'
    ∧ score' == score + inject_Z (Z.max 0 (z - 2)) * 1.
Proof.
  rewrite (Qlt_bool_inject_Z 2). destruct (Z.ltb_spec 2 z) as [Hgt|Hle].
  - eexists. split; [reflexivity|].
    rewrite Z.max_r by lia.
    replace (z - 2)%Z with (z + - (2))%Z by lia.
    rewrite inject_Z_plus, inject_Z_opp. change (inject_Z 2) with 2. ring.
  - eexists. split; [reflexivity|].
    rewrite Z.max_l by lia. change (inject_Z 0) with 0. ring.
Qed.

Lemma rule_score_weighted_sum (v : Spec.FeatureVector) :
  (0 <= Spec.fall_detected_count v)%Z →
  (0 <= Spec.emergency_button_presses v)%Z →
  (0 <= Spec.days_without_eating v)%Z →
  (0 <= Spec.distress_episodes v)%Z →
  ∃ score, rule_score (Spec.to_features v) = Ok score
           ∧ score == Spec.weighted_sum v.
Proof.
  intros Hfall Hbutton Heat Hdistress.
  unfold rule_score. cbn [Spec.to_features fall_detected_count
    emergency_button_presses days_without_eating distress_episodes
    camera_inactivity_hours pain_expression_count avg_sentiment_7days
    sad_mood_count lonely_mentions health_complaints medicine_missed
    inactive_days avg_facial_emotion_score eating_irregularity
    sleep_quality_score].
  destruct (add_if_positive_count 0 3 _ Hfall) as (s1 & -> & E1).
  cbn [mbind res_bind].
  destruct (add_if_positive_count s1 4 _ Hbutton) as (s2 & -> & E2).
  cbn [mbind res_bind].
  destruct (add_if_positive_count s2 (5 # 2) _ Heat) as (s3 & -> & E3).
  cbn [mbind res_bind].
  destruct (add_if_positive_count s3 (3 # 2) _ Hdistress) as (s4 & -> & E4).
  cbn [mbind res_bind].
  unfold py_gt. cbn [num as_num mbind res_bind].
  destruct (add_excess_pain
              (if Qlt_bool 12 (Spec.camera_inactivity_hours v)
               then s4 + 2 else s4)
              (Spec.pain_expression_count v)) as (s5 & -> & E5).
  unfold add_weighted. cbn [num as_num mbind res_bind].
  eexists. split; [reflexivity|].
  unfold Spec.weighted_sum. rewrite E5.
  destruct (Qlt_bool 12 (Spec.camera_inactivity_hours v));
    rewrite E4, E3, E2, E1; ring.
Qed.

Lemma band_label n : risk_level (band n) = Spec.label n.
Proof.
  unfold band, Spec.label.
  destruct (Qlt_bool n (3 # 10)); [done|].
  by destruct (Qlt_bool n (6 # 10)).
Qed.


End RuleScore.


(** ** Risk scorer: the sum of the three probabilities *)

Section Probabilities.
Import MultiModalRiskPredictor.
Local Open Scope Q_scope.

(** In the SAFE band the three formulas add up to one: the rounded
    probabilities are within 0.0015 of it. *)
Lemma safe_band_total_near_one (n : Q) :
  n < 3 # 10 →
  1 - (3 # 2000) <= Spec.total (probs (band n)) <= 1 + (3 # 2000).
Proof.
  intros Hn. unfold band.
  assert (Qlt_bool n (3 # 10) = true) as -> by by apply Qlt_bool_iff.
  unfold Spec.total. cbn [probs safe monitor high_risk].
  pose proof (py_round3_bounds (1 - n)).
  pose proof (py_round3_bounds (n * (7 # 10))).
  pose proof (py_round3_bounds (n * (3 # 10))).
  lra.
Qed.

(** In the HIGH_RISK band they add up to 0.8 + 0.2 n. *)
Lemma high_risk_band_total (n : Q) :
  6 # 10 <= n →
  Spec.total (probs (band n)) <= (8 # 10) + (2 # 10) * n + (3 # 2000).
Proof.
  intros Hn. unfold band.
  assert (Qlt_bool n (3 # 10) = false) as -> by (apply Qlt_bool_false; lra).
  assert (Qlt_bool n (6 # 10) = false) as -> by by apply Qlt_bool_false.
  unfold Spec.total. cbn [probs safe monitor high_risk].
  pose proof (py_round3_bounds ((1 - n) * (3 # 10))).
  pose proof (py_round3_bounds ((1 - n) * (1 # 2))).
  pose proof (py_round3_bounds n).
  lra.
Qed.

(** C3 fails in the MONITOR band, where the three formulas add up to
    0.85 + 0.3 n: whenever the normalized value lies in [0.3, 0.49), the
    three probabilities of the rule-based path sum to at most 0.9985,
    which is further from 1 than the tolerance 1e-6. *)
Theorem monitor_band_total_below_one (f : features) (score : Q) :
  rule_score f = Ok score →
  3 # 10 <= normalize score →
  normalize score < 49 # 100 →
  ∃ p, _predict_with_rules f = Ok p
       ∧ risk_level p = "MONITOR"
       ∧ Spec.total (probs p) <= 9985 # 10000
       ∧ Spec.total (probs p) < 1 - Spec.tolerance.
Proof.
  intros Hs Hlo Hhi. unfold _predict_with_rules. rewrite Hs.
  cbn [mbind res_bind]. eexists. split; [reflexivity|].
  set (n := normalize score) in *. unfold band.
  assert (Qlt_bool n (3 # 10) = false) as -> by by apply Qlt_bool_false.
  assert (Qlt_bool n (6 # 10) = true) as -> by (apply Qlt_bool_iff; lra).
  split; [done|].
  unfold Spec.total, Spec.tolerance. cbn [probs safe monitor high_risk].
  pose proof (py_round3_bounds ((1 - n) * (1 # 2))).
  pose proof (py_round3_bounds ((1 # 2) + (n - (3 # 10)) * (1 # 2))).
  pose proof (py_round3_bounds (n * (3 # 10))).
  split; lra.
Qed.
End Probabilities.

(** One detected fall and nothing else: MONITOR with probabilities 0.292,
    0.558 and 0.125, which sum to 0.975. *)
Example one_fall_probabilities :
  MultiModalRiskPredictor._predict_with_rules
    (MultiModalRiskPredictor._extract_features ∅ ∅ {[ "fall_count" := PInt 1 ]} ∅ ∅)
  = Ok {| MultiModalRiskPredictor.risk_level := "MONITOR";
          MultiModalRiskPredictor.risk_score := 417 # 1000;
          MultiModalRiskPredictor.probs :=
            {| MultiModalRiskPredictor.safe := 292 # 1000;
               MultiModalRiskPredictor.monitor := 558 # 1000;
               MultiModalRiskPredictor.high_risk := 125 # 1000 |} |}.
Proof. reflexivity. Qed.

Lemma monitor_band_total_witness :
  ∃ p, MultiModalRiskPredictor._predict_with_rules
         (MultiModalRiskPredictor._extract_features ∅ ∅
            {[ "fall_count" := PInt 1 ]} ∅ ∅) = Ok p
       ∧ MultiModalRiskPredictor.risk_level p = "MONITOR"
       ∧ (Spec.total (MultiModalRiskPredictor.probs p) <= 9985 # 10000)%Q
       ∧ (Spec.total (MultiModalRiskPredictor.probs p) < 1 - Spec.tolerance)%Q.
Proof.
  eapply (monitor_band_total_below_one
            (MultiModalRiskPredictor._extract_features ∅ ∅
               {[ "fall_count" := PInt 1 ]} ∅ ∅));
    [vm_compute; reflexivity | vm_compute; discriminate | reflexivity].
Defined.

(** ** Risk assessment: the label *)

Section PredictRisk.
Import MultiModalRiskPredictor.
Context (rt : runtime).









End PredictRisk.



(** ** Alert dispatcher: the rate limiter *)

Section RateLimiter.
Import AlertService.
Context (rt : runtime) (be : backends).
Local Open Scope Z_scope.

Lemma is_rate_limited_true history elder_id alert_type now :
  _is_rate_limited rt history elder_id alert_type now = true ↔
  ∃ ts, ts ∈ default [] (history !! history_key rt elder_id alert_type)
        ∧ now - ts < cooldown.
Proof.
  unfold _is_rate_limited.
  destruct (history !! history_key rt elder_id alert_type) as [stamps|]; simpl.
  - rewrite Nat.ltb_lt. split.
    + intros Hlen.
      destruct (filter (λ ts, now - ts < cooldown) stamps) as [|ts l] eqn:E;
        [simpl in Hlen; lia|].
      assert (Hin : ts ∈ filter (λ ts, now - ts < cooldown) stamps)
        by (rewrite E; left).
      apply list_elem_of_filter in Hin as [??]. eauto.
    + intros (ts & Hin & Hts).
      assert (Hf : ts ∈ filter (λ ts, now - ts < cooldown) stamps)
        by by apply list_elem_of_filter.
      destruct (filter _ stamps); [by apply elem_of_nil in Hf | simpl; lia].
  - split; [done|]. intros (ts & Hin & _). by apply elem_of_nil in Hin.
Qed.

Lemma is_rate_limited_false history elder_id alert_type now :
  _is_rate_limited rt history elder_id alert_type now = false ↔
  Forall (λ ts, cooldown ≤ now - ts)
    (default [] (history !! history_key rt elder_id alert_type)).
Proof.
  rewrite <- not_true_iff_false, is_rate_limited_true, Forall_forall.
  split.
  - intros Hno ts Hin. destruct (Z.le_gt_cases cooldown (now - ts)); [done|].
    exfalso. apply Hno. exists ts. split; [done | lia].
  - intros Hall (ts & Hin & Hts). specialize (Hall ts Hin). lia.
Qed.

Lemma record_alert_lookup history elder_id alert_type now :
  _record_alert rt history elder_id alert_type now
    !! history_key rt elder_id alert_type
  = Some (filter (λ ts, now - one_hour < ts)
            (default [] (history !! history_key rt elder_id alert_type))
          ++ [now])%list.
Proof.
  unfold _record_alert. set (key := history_key rt elder_id alert_type).
  rewrite lookup_insert_eq. f_equal.
  rewrite lookup_insert_eq. simpl.
  assert (E : default [] ((match history !! key with
                           | Some _ => history
                           | None => <[key:=[]]> history
                           end) !! key) = default [] (history !! key)).
  { destruct (history !! key) eqn:Hk; [by rewrite Hk|].
    by rewrite lookup_insert_eq. }
  rewrite E, filter_app. f_equal.
  rewrite filter_cons_True; [done | unfold one_hour, us_per_hour; lia].
Qed.

Lemma record_alert_other history elder_id alert_type now k :
  k ≠ history_key rt elder_id alert_type →
  _record_alert rt history elder_id alert_type now !! k = history !! k.
Proof.
  intros Hk. unfold _record_alert.
  rewrite !lookup_insert_ne by done.
  destruct (history !! _); [done|]. by rewrite lookup_insert_ne.
Qed.

Lemma notify_member_history clk elder_id data severity message action title
    body i member results st :
  alert_history
    (notify_member rt be clk elder_id data severity message action title body
       i member results st).2
  = alert_history st.
Proof.
  unfold notify_member, _send_fcm_notification, _send_sms_alert.
  repeat (case_match; simplify_eq; simpl in * ); done.
Qed.

Lemma notify_all_history clk elder_id data severity message action title body
    members : ∀ i results st,
  alert_history
    (notify_all rt be clk elder_id data severity message action title body
       i members results st).2
  = alert_history st.
Proof.
  induction members as [|m members IH]; intros i results st; simpl; [done|].
  destruct (notify_member rt be clk elder_id data severity message action
              title body i m results st) as [results' st'] eqn:E.
  rewrite IH. by rewrite <- (notify_member_history clk elder_id data severity
    message action title body i m results st), E.
Qed.

(** A suppressed dispatch touches nothing. *)
Lemma send_suppressed clk elder_id elder_name data members st :
  _is_rate_limited rt (alert_history st) elder_id
    (dict_get_none data "emergency_type") (now_check clk) = true →
  send_emergency_alert rt be clk elder_id elder_name data members st
  = (NotSent "rate_limited" "Similar alert sent recently", st).
Proof. intros H. unfold send_emergency_alert. by rewrite H. Qed.

(** A dispatch that is not suppressed is sent and recorded once. *)
Lemma send_recorded clk elder_id elder_name data members st :
  _is_rate_limited rt (alert_history st) elder_id
    (dict_get_none data "emergency_type") (now_check clk) = false →
  ∃ results tr,
    send_emergency_alert rt be clk elder_id elder_name data members st
    = (Sent results (now_return clk),
       {| alert_history :=
            _record_alert rt (alert_history st) elder_id
              (dict_get_none data "emergency_type") (now_record clk);
          trace := tr |}).
Proof.
  intros H. unfold send_emergency_alert. rewrite H.
  match goal with |- context [notify_all ?a ?b ?c ?d ?e ?f ?g ?h ?i ?j ?k ?l ?m ?n] =>
    pose proof (notify_all_history c d e f g h i j l k m n) as Hh;
    destruct (notify_all a b c d e f g h i j k l m n) as [results st'] end.
  simpl in Hh. unfold _log_alert.
  destruct (negb (firebase_initialized be) || negb (db be));
    simpl; rewrite Hh; eauto.
Qed.
End RateLimiter.

Section Dispatch.
Import AlertService.
Context (rt : runtime) (be : backends).
Local Open Scope Z_scope.

(** C5. Of two dispatches for the same (subject, alert type) key, the
    first being sent and the second checked less than 30 minutes after the
    first was recorded, the first returns sent=True and records one
    timestamp; the second returns sent=False with reason "rate_limited",
    invokes no channel and changes nothing; a third one, checked 30
    minutes or more after the last recorded send, returns sent=True again
    and records one timestamp. The clock is assumed not to run backwards:
    the timestamps recorded before the first dispatch are not later than
    the one it records. *)
Theorem cooldown_suppresses_then_releases
    (elder_id : string) (alert_type : pyval)
    (name1 name2 name3 : string) (data1 data2 data3 : pydict)
    (members1 members2 members3 : list pydict) (clk1 clk2 clk3 : clock)
    (st0 st1 st2 st3 : state) (r1 r2 r3 : alert_result) :
  let key := history_key rt elder_id alert_type in
  let earlier := default [] (alert_history st0 !! key) in
  dict_get_none data1 "emergency_type" = alert_type →
  dict_get_none data2 "emergency_type" = alert_type →
  dict_get_none data3 "emergency_type" = alert_type →
  send_emergency_alert rt be clk1 elder_id name1 data1 members1 st0 = (r1, st1) →
  send_emergency_alert rt be clk2 elder_id name2 data2 members2 st1 = (r2, st2) →
  send_emergency_alert rt be clk3 elder_id name3 data3 members3 st2 = (r3, st3) →
  Forall (λ ts, cooldown ≤ now_check clk1 - ts) earlier →
  Forall (λ ts, ts ≤ now_record clk1) earlier →
  now_check clk2 - now_record clk1 < cooldown →
  cooldown ≤ now_check clk3 - now_record clk1 →
  sent r1 = true
  ∧ alert_history st1 !! key
    = Some (filter (λ ts, now_record clk1 - one_hour < ts) earlier
            ++ [now_record clk1])%list
  ∧ sent r2 = false
  ∧ reason r2 = Some "rate_limited"
  ∧ st2 = st1
  ∧ sent r3 = true
  ∧ alert_history st3 !! key
    = Some (filter (λ ts, now_record clk3 - one_hour < ts)
              (default [] (alert_history st1 !! key))
            ++ [now_record clk3])%list.
Proof.
  intros key earlier T1 T2 T3 S1 S2 S3 Hfree Hpast Hinside Hafter.
  (* first dispatch *)
  destruct (send_recorded rt be clk1 elder_id name1 data1 members1 st0)
    as (res1 & tr1 & E1).
  { rewrite T1. by apply is_rate_limited_false. }
  rewrite T1 in E1. rewrite E1 in S1. injection S1 as <- <-.
  pose proof (record_alert_lookup rt (alert_history st0) elder_id alert_type
                (now_record clk1)) as H1. fold key earlier in H1.
  (* second dispatch *)
  rewrite send_suppressed in S2.
  2:{ rewrite T2. apply is_rate_limited_true. exists (now_record clk1).
      split; [|done]. cbn [alert_history]. fold key. rewrite H1. simpl.
      apply elem_of_app. right. left. }
  injection S2 as <- <-.
  (* third dispatch *)
  destruct (send_recorded rt be clk3 elder_id name3 data3 members3
              {| alert_history :=
                   _record_alert rt (alert_history st0) elder_id alert_type
                     (now_record clk1);
                 trace := tr1 |})
    as (res3 & tr3 & E3).
  { rewrite T3. apply is_rate_limited_false. cbn [alert_history]. fold key.
    rewrite H1. simpl. apply Forall_app. split.
    - apply Forall_forall. intros ts Hts.
      apply list_elem_of_filter in Hts as [_ Hts].
      rewrite Forall_forall in Hpast. specialize (Hpast ts Hts). lia.
    - by repeat constructor. }
  rewrite T3 in E3. rewrite E3 in S3. injection S3 as <- <-.
  cbn [alert_history sent reason]. fold key.
  repeat split; try done.
  apply record_alert_lookup.
Qed.

(** C6, as amended. The rate-limit decision reads the history as it
    stands. A suppressed attempt changes nothing, so it prunes nothing. A
    dispatch that is sent prunes when it is recorded, after the decision:
    the key then holds the earlier timestamps less than one hour old
    followed by the new one, every timestamp it holds is less than one
    hour old, and the other keys are untouched. No entry one hour old or
    older persists past the next write for its key. *)
Theorem history_pruned_when_recorded
    (clk : clock) (elder_id elder_name : string) (data : pydict)
    (members : list pydict) (st st' : state) (r : alert_result) :
  let alert_type := dict_get_none data "emergency_type" in
  let key := history_key rt elder_id alert_type in
  send_emergency_alert rt be clk elder_id elder_name data members st = (r, st') →
  sent r = negb (_is_rate_limited rt (alert_history st) elder_id alert_type
                   (now_check clk))
  ∧ if sent r then
      alert_history st' !! key
      = Some (filter (λ ts, now_record clk - one_hour < ts)
                (default [] (alert_history st !! key))
              ++ [now_record clk])%list
      ∧ Forall (λ ts, now_record clk - ts < one_hour)
          (default [] (alert_history st' !! key))
      ∧ ∀ k, k ≠ key → alert_history st' !! k = alert_history st !! k
    else st' = st.
Proof.
  intros alert_type key S. subst alert_type key.
  set (alert_type := dict_get_none data "emergency_type") in *.
  set (key := history_key rt elder_id alert_type).
  destruct (_is_rate_limited rt (alert_history st) elder_id alert_type
              (now_check clk)) eqn:Hlim.
  - rewrite send_suppressed in S by done. by injection S as <- <-.
  - destruct (send_recorded rt be clk elder_id elder_name data members st Hlim)
      as (res & tr & E).
    rewrite E in S. injection S as <- <-. cbn [sent alert_history negb].
    split; [done|].
    pose proof (record_alert_lookup rt (alert_history st) elder_id alert_type
                  (now_record clk)) as H.
    fold alert_type key in H |- *.
    split; [done|]. split.
    + rewrite H. simpl. apply Forall_app. split.
      * apply Forall_forall. intros ts Hts.
        apply list_elem_of_filter in Hts as [Hts _]. lia.
      * repeat constructor. unfold one_hour, us_per_hour. lia.
    + intros k Hk. by apply record_alert_other.
Qed.
End Dispatch.

(** Two dispatches one second apart, and a third after 31 minutes *)
Lemma cooldown_suppresses_then_releases_witness :
  ∃ r1 st1 r2 st2 r3 st3,
    Sample.dispatch 0 Sample.fresh = (r1, st1)
    ∧ Sample.dispatch (1 * Sample.second) st1 = (r2, st2)
    ∧ Sample.dispatch (31 * Sample.minute) st2 = (r3, st3)
    ∧ AlertService.sent r1 = true
    ∧ AlertService.sent r2 = false
    ∧ AlertService.reason r2 = Some "rate_limited"
    ∧ st2 = st1
    ∧ AlertService.sent r3 = true.
Proof.
  destruct (Sample.dispatch 0 Sample.fresh) as [r1 st1] eqn:S1.
  destruct (Sample.dispatch (1 * Sample.second) st1) as [r2 st2] eqn:S2.
  destruct (Sample.dispatch (31 * Sample.minute) st2) as [r3 st3] eqn:S3.
  exists r1, st1, r2, st2, r3, st3.
  split; [reflexivity|]. split; [exact S2|]. split; [exact S3|].
  destruct (cooldown_suppresses_then_releases BasicRuntime.rt Sample.mock_backends
              "elder-1" (PStr "fall_detected") "Elder" "Elder" "Elder"
              Sample.fall_alert Sample.fall_alert Sample.fall_alert
              Sample.family Sample.family Sample.family
              (Sample.at_time 0) (Sample.at_time (1 * Sample.second))
              (Sample.at_time (31 * Sample.minute))
              Sample.fresh st1 st2 st3 r1 r2 r3)
    as (H1 & _ & H2 & H3 & H4 & H5 & _);
    [reflexivity | reflexivity | reflexivity | exact S1 | exact S2 | exact S3
    | constructor | constructor | vm_compute; reflexivity
    | vm_compute; discriminate | ].
  by repeat split.
Defined.

(** C6, as stated, fails: an attempt at minute 70 that is suppressed by the
    send of minute 50 leaves the timestamp of minute 0 in the history. *)
Lemma stale_entry_survives_suppression :
  ¬ Spec.pruned_on_every_attempt BasicRuntime.rt Sample.mock_backends
      (Sample.at_time (70 * Sample.minute)) "elder-1" "Elder"
      Sample.fall_alert Sample.family
      {| AlertService.alert_history :=
           {[ "elder-1:fall_detected" := [0; 50 * Sample.minute]%Z ]};
         AlertService.trace := [] |}.
Proof.
  unfold Spec.pruned_on_every_attempt. intros H.
  rewrite Forall_forall in H. specialize (H 0%Z).
  assert (Habsurd : (AlertService.now_check (Sample.at_time (70 * Sample.minute)) - 0
                     ≤ AlertService.one_hour)%Z).
  { apply H. vm_compute. left. }
  vm_compute in Habsurd. by apply Habsurd.
Qed.

Lemma history_pruned_when_recorded_witness :
  ∃ r st',
    Sample.dispatch (70 * Sample.minute)
      {| AlertService.alert_history :=
           {[ "elder-1:fall_detected" := [0; 20 * Sample.minute]%Z ]};
         AlertService.trace := [] |} = (r, st')
    ∧ AlertService.sent r = true
    ∧ AlertService.alert_history st' !! "elder-1:fall_detected"
      = Some [20 * Sample.minute; 70 * Sample.minute]%Z.
Proof.
  destruct (Sample.dispatch _ _) as [r st'] eqn:S. exists r, st'.
  split; [reflexivity|].
  destruct (history_pruned_when_recorded BasicRuntime.rt Sample.mock_backends
              _ _ _ _ _ _ _ _ S) as [Hsent H].
  assert (Hr : AlertService.sent r = true)
    by (rewrite Hsent; vm_compute; reflexivity).
  rewrite Hr in H. split; [exact Hr|].
  destruct H as (H & _). etrans; [exact H|]. vm_compute. reflexivity.
Defined.

(** ** The scenarios of tests/test_ml_service.py *)

Section RepositoryTests.
Import EmergencyDetector MultiModalRiskPredictor.

Example test_no_emergency :
  Sample.emergency_summary
    (detect_emergency BasicRuntime.rt
       (Some {[ "fall_detected" := PBool false; "distress_level" := PStr "low" ]})
       (Some {[ "days_without_eating" := PInt 0; "max_inactivity_hours" := PInt 6 ]})
       (Some {[ "emergency_button_presses" := PInt 0 ]}) 0 0)
  = Some (RBool false, RNone, RStr "none").
Proof. reflexivity. Qed.

Example test_fall_emergency :
  Sample.emergency_summary
    (detect_emergency BasicRuntime.rt
       (Some {[ "fall_detected" := PBool true ]}) (Some ∅) (Some ∅) 0 0)
  = Some (RBool true, RStr "fall_detected", RStr "critical").
Proof. reflexivity. Qed.

Example test_eating_emergency :
  Sample.emergency_summary
    (detect_emergency BasicRuntime.rt
       (Some ∅) (Some {[ "days_without_eating" := PInt 3 ]}) (Some ∅) 0 0)
  = Some (RBool true, RStr "no_eating", RStr "critical").
Proof. reflexivity. Qed.

Example test_emergency_button :
  Sample.emergency_summary
    (detect_emergency BasicRuntime.rt
       (Some ∅) (Some ∅) (Some {[ "emergency_button_presses" := PInt 1 ]}) 0 0)
  = Some (RBool true, RStr "emergency_button", RStr "critical").
Proof. reflexivity. Qed.

Example test_risk_prediction_safe :
  result_risk_level
    (predict_risk BasicRuntime.rt None
       (Some {[ "avg_sentiment" := PFloat (5 # 10); "lonely_mentions" := PInt 0;
                "health_complaints" := PInt 0 ]})
       (Some {[ "sad_count" := PInt 0; "inactive_days" := PInt 0 ]})
       (Some {[ "emotion_score" := PFloat (5 # 10); "fall_count" := PInt 0;
                "distress_count" := PInt 0; "pain_count" := PInt 0;
                "inactivity_hours" := PInt 2 ]})
       (Some {[ "eating_irregularity" := PFloat (1 # 10);
                "sleep_quality" := PFloat (8 # 10);
                "days_without_eating" := PInt 0 ]})
       (Some {[ "medicine_missed" := PInt 0;
                "emergency_button_presses" := PInt 0 ]}) 0)
  = "SAFE".
Proof. reflexivity. Qed.

Example test_risk_prediction_high_risk :
  result_risk_level
    (predict_risk BasicRuntime.rt None
       (Some {[ "avg_sentiment" := PFloat (- 7 # 10); "lonely_mentions" := PInt 5;
                "health_complaints" := PInt 5 ]})
       (Some {[ "sad_count" := PInt 7; "inactive_days" := PInt 5 ]})
       (Some {[ "emotion_score" := PFloat (- 5 # 10); "fall_count" := PInt 2;
                "distress_count" := PInt 3; "pain_count" := PInt 5;
                "inactivity_hours" := PInt 16 ]})
       (Some {[ "eating_irregularity" := PFloat (8 # 10);
                "sleep_quality" := PFloat (2 # 10);
                "days_without_eating" := PInt 2 ]})
       (Some {[ "medicine_missed" := PInt 5;
                "emergency_button_presses" := PInt 0 ]}) 0)
  = "HIGH_RISK".
Proof. reflexivity. Qed.
End RepositoryTests.

(** * Further properties *)

(** ** The error monad *)

Section Binds.
Context {A B : Type}.

Lemma bind_Ok (m : res A) (k : A → res B) b :
  m ≫= k = Ok b → ∃ a, m = Ok a ∧ k a = Ok b.
Proof. destruct m as [a|e]; [eauto | done]. Qed.

End Binds.

Section Comparisons.
Lemma py_ge_num v c q : as_num v = Some q → py_ge v c = Ok (Qle_bool c q).
Proof. intros H. unfold py_ge, num. by rewrite H. Qed.



End Comparisons.

(** ** Emergency rule engine: what the checks can emit *)

Section CandidateKinds.
Import EmergencyDetector.
Context (rt : runtime).

Ltac invert_check H :=
  unfold py_gt, py_ge, num, mbind, res_bind in H;
  repeat (simpl in *; case_match; simplify_eq/=);
  unfold Extra.kind, Extra.candidate_kinds; simpl; set_solver.

Lemma fall_kind vision_data now c :
  _check_fall_emergency rt vision_data now = Ok (Some c) →
  Extra.kind c ∈ Extra.candidate_kinds.
Proof.
  intros H. unfold _check_fall_emergency, catch_value_type, fall_try,
    fromisoformat, datetime_sub in H.
  invert_check H.
Qed.

Lemma distress_kind vision_data c :
  _check_distress_emergency vision_data = Ok (Some c) →
  Extra.kind c ∈ Extra.candidate_kinds.
Proof. intros H. unfold _check_distress_emergency in H. invert_check H. Qed.

Lemma pain_kind vision_data health_data c :
  _check_pain_emergency rt vision_data health_data = Ok (Some c) →
  Extra.kind c ∈ Extra.candidate_kinds.
Proof. intros H. unfold _check_pain_emergency in H. invert_check H. Qed.

Lemma eating_kind activity_data c :
  _check_eating_emergency rt activity_data = Ok (Some c) →
  Extra.kind c ∈ Extra.candidate_kinds.
Proof. intros H. unfold _check_eating_emergency in H. invert_check H. Qed.

Lemma inactivity_kind activity_data c :
  _check_inactivity_emergency activity_data = Ok (Some c) →
  Extra.kind c ∈ Extra.candidate_kinds.
Proof. intros H. unfold _check_inactivity_emergency in H. invert_check H. Qed.

Lemma button_kind health_data c :
  _check_emergency_button rt health_data = Ok (Some c) →
  Extra.kind c ∈ Extra.candidate_kinds.
Proof. intros H. unfold _check_emergency_button in H. invert_check H. Qed.

Lemma combined_kind vision_data activity_data health_data c :
  _check_combined_risks vision_data activity_data health_data = Ok (Some c) →
  Extra.kind c ∈ Extra.candidate_kinds.
Proof.
  intros H. unfold _check_combined_risks in H.
  apply bind_Ok in H as (missed & _ & H).
  apply bind_Ok in H as (complaints & _ & H).
  apply bind_Ok in H as (medicine & _ & H).
  destruct (_ <=? _)%nat; [|done].
  injection H as <-. unfold Extra.kind, Extra.candidate_kinds. simpl. set_solver.
Qed.

(** What [collect_emergencies] returns, check by check *)
Lemma collect_emergencies_inv vision_data activity_data health_data now l :
  collect_emergencies rt vision_data activity_data health_data now = Ok l →
  ∃ o1 o2 o3 o4 o5 o6 o7,
    _check_fall_emergency rt vision_data now = Ok o1
    ∧ _check_distress_emergency vision_data = Ok o2
    ∧ _check_pain_emergency rt vision_data health_data = Ok o3
    ∧ _check_eating_emergency rt activity_data = Ok o4
    ∧ _check_inactivity_emergency activity_data = Ok o5
    ∧ _check_emergency_button rt health_data = Ok o6
    ∧ _check_combined_risks vision_data activity_data health_data = Ok o7
    ∧ l = (option_list o1 ++ option_list o2 ++ option_list o3 ++ option_list o4
           ++ option_list o5 ++ option_list o6 ++ option_list o7)%list.
Proof.
  unfold collect_emergencies. intros H.
  apply bind_Ok in H as (o1 & H1 & H). apply bind_Ok in H as (o2 & H2 & H).
  apply bind_Ok in H as (o3 & H3 & H). apply bind_Ok in H as (o4 & H4 & H).
  apply bind_Ok in H as (o5 & H5 & H). apply bind_Ok in H as (o6 & H6 & H).
  apply bind_Ok in H as (o7 & H7 & H). injection H as <-.
  exists o1, o2, o3, o4, o5, o6, o7. repeat (split; [done|]).
  destruct o1, o2, o3, o4, o5, o6, o7; reflexivity.
Qed.

Lemma collect_emergencies_kinds vision_data activity_data health_data now l :
  collect_emergencies rt vision_data activity_data health_data now = Ok l →
  Forall (λ c, Extra.kind c ∈ Extra.candidate_kinds) l.
Proof.
  intros H. apply collect_emergencies_inv in H
    as (o1 & o2 & o3 & o4 & o5 & o6 & o7 & H1 & H2 & H3 & H4 & H5 & H6 & H7 & ->).
  repeat (apply Forall_app; split).
  - destruct o1; simpl; [|done]. constructor; [|constructor]. by eapply fall_kind.
  - destruct o2; simpl; [|done]. constructor; [|constructor]. by eapply distress_kind.
  - destruct o3; simpl; [|done]. constructor; [|constructor]. by eapply pain_kind.
  - destruct o4; simpl; [|done]. constructor; [|constructor]. by eapply eating_kind.
  - destruct o5; simpl; [|done]. constructor; [|constructor]. by eapply inactivity_kind.
  - destruct o6; simpl; [|done]. constructor; [|constructor]. by eapply button_kind.
  - destruct o7; simpl; [|done]. constructor; [|constructor]. by eapply combined_kind.
Qed.

Lemma collect_emergencies_length vision_data activity_data health_data now l :
  collect_emergencies rt vision_data activity_data health_data now = Ok l →
  (List.length l ≤ 7)%nat.
Proof.
  intros H. apply collect_emergencies_inv in H
    as (o1 & o2 & o3 & o4 & o5 & o6 & o7 & _ & _ & _ & _ & _ & _ & _ & ->).
  destruct o1, o2, o3, o4, o5, o6, o7; simpl; lia.
Qed.
End CandidateKinds.

(** ** Emergency rule engine: the reported result *)

Section ReportedResult.
Import EmergencyDetector.
Context (rt : runtime).

Lemma severity_order_max s : (severity_order s ≤ 4)%nat.
Proof. unfold severity_order. repeat case_match; lia. Qed.

Lemma severity_order_critical s : severity_order s = 4%nat → s = "critical".
Proof.
  unfold severity_order.
  destruct (String.eqb_spec s "critical"); [done|].
  repeat case_match; lia.
Qed.

Lemma kind_severity c :
  Extra.kind c ∈ Extra.candidate_kinds →
  severity c = "critical" ∨ severity c = "high" ∨ severity c = "medium".
Proof.
  unfold Extra.kind, Extra.candidate_kinds. intros H.
  repeat (apply elem_of_cons in H as [H|H];
          [apply (f_equal snd) in H; simpl in H; tauto|]).
  by apply elem_of_nil in H.
Qed.

(** What [detect_emergency] returns, in terms of the collected list *)
Lemma detect_emergency_inv vision_data activity_data health_data now_fall now r :
  detect_emergency rt vision_data activity_data health_data now_fall now = Ok r →
  ∃ triggered,
    collect_emergencies rt (or_empty vision_data) (or_empty activity_data)
      (or_empty health_data) now_fall = Ok triggered
    ∧ build_result triggered now = Ok r.
Proof. unfold detect_emergency. intros H. by apply bind_Ok in H. Qed.


(** X1. A detection that completes lists at most seven concerns, one per
    check, each of one of the twelve kinds the checks build, in
    non-increasing order of rank; the severity it reports is "none",
    "medium", "high" or "critical", never "low". *)
Theorem detect_emergency_concerns
    (vision_data activity_data health_data : option pydict)
    (now_fall now : Z) (r : result) :
  detect_emergency rt vision_data activity_data health_data now_fall now = Ok r →
  ∃ concerns sev,
    result_get r "all_concerns" = Some (RConcerns concerns)
    ∧ (List.length concerns ≤ 7)%nat
    ∧ Forall (λ c, Extra.kind c ∈ Extra.candidate_kinds) concerns
    ∧ StronglySorted (λ a b, rank b ≤ rank a)%nat concerns
    ∧ result_get r "severity" = Some (RStr sev)
    ∧ sev ∈ ["none"; "medium"; "high"; "critical"].
Proof.
  intros H. apply detect_emergency_inv in H as (triggered & Hc & Hr).
  pose proof (collect_emergencies_kinds rt _ _ _ _ _ Hc) as Hk.
  pose proof (collect_emergencies_length rt _ _ _ _ _ Hc) as Hl.
  destruct triggered as [|c l].
  - injection Hr as <-. exists [], "none". simpl.
    repeat split; [lia | constructor | constructor | by left].
  - unfold build_result in Hr.
    pose proof (sort_by_severity_perm (c :: l)) as Hperm.
    pose proof (sort_by_severity_sorted (c :: l)) as Hsorted.
    destruct (sort_by_severity (c :: l)) as [|top rest] eqn:Hs; [done|].
    injection Hr as <-. exists (top :: rest), (severity top). simpl.
    assert (Hk' : Forall (λ c, Extra.kind c ∈ Extra.candidate_kinds) (top :: rest))
      by by rewrite Hperm.
    repeat split; try done.
    + change (List.length (top :: rest) ≤ 7)%nat. by rewrite Hperm.
    + apply Forall_cons in Hk' as [Htop _].
      rewrite !elem_of_cons.
      destruct (kind_severity top Htop) as [E|[E|E]]; rewrite E; tauto.
Qed.

(** A detected fall always yields one critical candidate. *)
Lemma fall_check_critical vision_data now :
  truthy (dict_get_none vision_data "fall_detected") = true →
  ∃ c, _check_fall_emergency rt vision_data now = Ok (Some c)
       ∧ severity c = "critical".
Proof.
  intros Hfall. unfold _check_fall_emergency. rewrite Hfall. simpl.
  destruct (truthy (dict_get_none vision_data "fall_timestamp")); simpl;
    [|by eexists].
  unfold fall_try, fromisoformat.
  destruct (dict_get_none vision_data "fall_timestamp") as [| | | |s]; simpl;
    try by eexists.
  destruct (parse_iso rt s) as [[t|t o]|]; simpl; try by eexists.
  destruct (Qle_bool _ _); simpl; by eexists.
Qed.

(** The primary severity is critical as soon as one triggered candidate is. *)
Lemma critical_candidate_wins triggered now r c :
  build_result triggered now = Ok r →
  c ∈ triggered → severity c = "critical" →
  result_get r "emergency" = Some (RBool true)
  ∧ result_get r "severity" = Some (RStr "critical").
Proof.
  intros Hr Hin Hsev.
  destruct triggered as [|c0 l]; [by apply elem_of_nil in Hin|].
  destruct (sort_by_severity_head c0 l)
    as (top & rest & pre & post & Hs & Hl & Hpre & Hpost).
  unfold build_result in Hr. rewrite Hs in Hr. injection Hr as <-. simpl.
  split; [done|]. do 2 f_equal. apply severity_order_critical.
  assert (Hc : rank c = 4%nat) by (unfold rank; by rewrite Hsev).
  pose proof (severity_order_max (severity top)) as Hmax.
  fold (rank top) in Hmax |- *.
  rewrite Hl in Hin. apply elem_of_app in Hin as [Hin|Hin].
  - rewrite Forall_forall in Hpre. specialize (Hpre c Hin). lia.
  - apply elem_of_cons in Hin as [->|Hin]; [done|].
    rewrite Forall_forall in Hpost. specialize (Hpost c Hin). lia.
Qed.

Lemma elem_of_option_list_collect (o1 o2 o3 o4 o5 o6 o7 : option candidate) c :
  c ∈ option_list o1 ∨ c ∈ option_list o2 ∨ c ∈ option_list o3
  ∨ c ∈ option_list o4 ∨ c ∈ option_list o6 →
  c ∈ (option_list o1 ++ option_list o2 ++ option_list o3 ++ option_list o4
       ++ option_list o5 ++ option_list o6 ++ option_list o7)%list.
Proof. rewrite !elem_of_app. tauto. Qed.

(** X2. A critical condition is never masked. When a fall is detected, or
    the distress level is "critical", or two or more days passed without
    eating, or the emergency button was pressed, a detection that completes
    reports emergency=True with severity "critical", whatever else the
    other checks emit. *)
Theorem critical_conditions_reported
    (vision_data activity_data health_data : option pydict)
    (now_fall now : Z) (r : result) :
  detect_emergency rt vision_data activity_data health_data now_fall now = Ok r →
  truthy (dict_get_none (or_empty vision_data) "fall_detected") = true
  ∨ dict_get (or_empty vision_data) "distress_level" (PStr "low") = PStr "critical"
  ∨ (∃ d, as_num (dict_get (or_empty activity_data) "days_without_eating" (PInt 0))
          = Some d ∧ (2 <= d)%Q)
  ∨ (∃ n, as_num (dict_get (or_empty health_data) "emergency_button_presses" (PInt 0))
          = Some n ∧ (0 < n)%Q) →
  result_get r "emergency" = Some (RBool true)
  ∧ result_get r "severity" = Some (RStr "critical").
Proof.
  intros H Hcond. apply detect_emergency_inv in H as (triggered & Hc & Hr).
  apply collect_emergencies_inv in Hc
    as (o1 & o2 & o3 & o4 & o5 & o6 & o7 & H1 & H2 & H3 & H4 & H5 & H6 & H7 & ->).
  assert (∃ c, (c ∈ option_list o1 ∨ c ∈ option_list o2 ∨ c ∈ option_list o3
                ∨ c ∈ option_list o4 ∨ c ∈ option_list o6)
               ∧ severity c = "critical") as (c & Hin & Hsev).
  { destruct Hcond as [Hfall|[Hdis|[(d & Hd & Hge)|(n & Hn & Hpos)]]].
    - destruct (fall_check_critical _ now_fall Hfall) as (c & Hc & Hsev).
      rewrite Hc in H1. injection H1 as <-.
      exists c. split; [left; left | done].
    - unfold _check_distress_emergency in H2. rewrite Hdis in H2. simpl in H2.
      injection H2 as <-. eexists. split; [right; left; left | done].
    - unfold _check_eating_emergency in H4.
      rewrite (py_ge_num _ _ _ Hd) in H4. simpl in H4.
      assert (Qle_bool days_without_eating_threshold d = true) as E
        by by apply Qle_bool_iff.
      rewrite E in H4. injection H4 as <-.
      eexists. split; [do 3 right; left; left | done].
    - unfold _check_emergency_button in H6.
      rewrite (py_gt_num _ _ _ Hn) in H6. simpl in H6.
      assert (Qlt_bool 0 n = true) as E by by apply Qlt_bool_iff.
      rewrite E in H6. injection H6 as <-.
      eexists. split; [do 4 right; left | done]. }
  eapply critical_candidate_wins; [exact Hr | | exact Hsev].
  by apply elem_of_option_list_collect.
Qed.
End ReportedResult.

(** ** Emergency rule engine: failure and thresholds *)

Section Robustness.
Import EmergencyDetector.
Context (rt : runtime).






End Robustness.

Section Thresholds.
Import EmergencyDetector.
Context (rt : runtime).
Local Open Scope Q_scope.

Lemma Qle_bool_false x y : Qle_bool x y = false ↔ y < x.
Proof.
  rewrite <- not_true_iff_false, Qle_bool_iff.
  split; [apply Qnot_le_lt | apply Qlt_not_le].
Qed.

(** X5. The inactivity check is monotone: more hours of inactivity never
    give a candidate of lower rank (nothing below 12 hours, medium from 12,
    high from 18). *)
Theorem inactivity_rank_monotone (a1 a2 : pydict) (h1 h2 : Q) :
  as_num (dict_get a1 "max_inactivity_hours" (PInt 0)) = Some h1 →
  as_num (dict_get a2 "max_inactivity_hours" (PInt 0)) = Some h2 →
  h1 <= h2 →
  ∃ o1 o2,
    _check_inactivity_emergency a1 = Ok o1
    ∧ _check_inactivity_emergency a2 = Ok o2
    ∧ (Extra.rank_of o1 ≤ Extra.rank_of o2)%nat
    ∧ (Extra.rank_of o2 = 0%nat ↔ h2 < 12)
    ∧ (Extra.rank_of o2 = 3%nat ↔ 18 <= h2).
Proof.
  intros N1 N2 Hle. unfold _check_inactivity_emergency.
  rewrite !(py_ge_num _ _ _ N1), !(py_ge_num _ _ _ N2),
    (num_ok _ _ N1), (num_ok _ _ N2).
  cbn [mbind res_bind]. unfold inactivity_hours_threshold.
  destruct (Qle_bool 18 h1) eqn:A1, (Qle_bool 18 h2) eqn:A2;
    cbn [mbind res_bind];
    try (destruct (Qle_bool 12 h1) eqn:B1);
    try (destruct (Qle_bool 12 h2) eqn:B2);
    rewrite ?Qle_bool_iff, ?Qle_bool_false in *;
    (eexists _, _; split; [reflexivity|]; split; [reflexivity|]);
    cbn; repeat split; intros; try lia; try lra.
Qed.

(** X6. On whole numbers of days the eating check is monotone, and it
    emits nothing for 0 days or fewer, the medium [missed_meals] candidate
    for exactly one day and the critical [no_eating] candidate from two
    days. *)
Theorem eating_rank_monotone (a1 a2 : pydict) (d1 d2 : Z) :
  dict_get a1 "days_without_eating" (PInt 0) = PInt d1 →
  dict_get a2 "days_without_eating" (PInt 0) = PInt d2 →
  (d1 ≤ d2)%Z →
  ∃ o1 o2,
    _check_eating_emergency rt a1 = Ok o1
    ∧ _check_eating_emergency rt a2 = Ok o2
    ∧ (Extra.rank_of o1 ≤ Extra.rank_of o2)%nat
    ∧ (o2 = None ↔ (d2 ≤ 0)%Z)
    ∧ ((∃ c, o2 = Some c ∧ Extra.kind c = ("missed_meals", "medium"))
       ↔ d2 = 1%Z)
    ∧ ((∃ c, o2 = Some c ∧ Extra.kind c = ("no_eating", "critical"))
       ↔ (2 ≤ d2)%Z).
Proof.
  intros E1 E2 Hle. unfold _check_eating_emergency.
  rewrite E1, E2. unfold py_ge, py_eq_num, num. cbn [as_num mbind res_bind].
  unfold days_without_eating_threshold.
  assert (G : ∀ d, Qle_bool 2 (inject_Z d) = (2 <=? d)%Z).
  { intros d. apply eq_true_iff_eq. rewrite Qle_bool_iff, Z.leb_le.
    by rewrite (Zle_Qle 2 d). }
  assert (Q1 : ∀ d, Qeq_bool (inject_Z d) 1 = (d =? 1)%Z).
  { intros d. apply eq_true_iff_eq. rewrite Qeq_bool_iff, Z.eqb_eq.
    change 1 with (inject_Z 1). by rewrite inject_Z_injective. }
  rewrite !G, !Q1.
  destruct (Z.leb_spec 2 d1), (Z.leb_spec 2 d2),
    (Z.eqb_spec d1 1), (Z.eqb_spec d2 1);
    (eexists _, _; split; [reflexivity|]; split; [reflexivity|]);
    (split; [cbn; lia|]);
    (split; [split; [intros [=] | intros ?]; first [done | lia]|]);
    (split; (split; [intros (c & [= <-] & Hk); vm_compute in Hk;
                     first [lia | discriminate]
                    | intros ?; first [lia | by eexists]])).
Qed.
End Thresholds.

(** One day and a half without eating falls between the two thresholds. *)
Example eating_gap :
  EmergencyDetector._check_eating_emergency BasicRuntime.rt
    {[ "days_without_eating" := PFloat (3 # 2) ]} = Ok None.
Proof. reflexivity. Qed.

Lemma inactivity_rank_monotone_witness :
  ∃ o1 o2,
    EmergencyDetector._check_inactivity_emergency
      {[ "max_inactivity_hours" := PFloat (25 # 2) ]} = Ok o1
    ∧ EmergencyDetector._check_inactivity_emergency
        {[ "max_inactivity_hours" := PInt 20 ]} = Ok o2
    ∧ Extra.rank_of o1 = 2%nat ∧ Extra.rank_of o2 = 3%nat.
Proof.
  destruct (inactivity_rank_monotone
              {[ "max_inactivity_hours" := PFloat (25 # 2) ]}
              {[ "max_inactivity_hours" := PInt 20 ]} (25 # 2) 20)
    as (o1 & o2 & H1 & H2 & _); [reflexivity | reflexivity | by vm_compute |].
  exists o1, o2. split; [exact H1|]. split; [exact H2|].
  vm_compute in H1, H2. injection H1 as <-. injection H2 as <-. by split.
Defined.

Lemma eating_rank_monotone_witness :
  ∃ o1 o2,
    EmergencyDetector._check_eating_emergency BasicRuntime.rt
      {[ "days_without_eating" := PInt 1 ]} = Ok o1
    ∧ EmergencyDetector._check_eating_emergency BasicRuntime.rt
        {[ "days_without_eating" := PInt 3 ]} = Ok o2
    ∧ Extra.rank_of o1 = 2%nat ∧ Extra.rank_of o2 = 4%nat.
Proof.
  destruct (eating_rank_monotone BasicRuntime.rt
              {[ "days_without_eating" := PInt 1 ]}
              {[ "days_without_eating" := PInt 3 ]} 1 3)
    as (o1 & o2 & H1 & H2 & _); [reflexivity | reflexivity | lia |].
  exists o1, o2. split; [exact H1|]. split; [exact H2|].
  vm_compute in H1, H2. injection H1 as <-. injection H2 as <-. by split.
Defined.

(** ** Emergency rule engine: combined risk factors *)

Section CombinedRisks.
Import EmergencyDetector.

Lemma append_if_sublist cond name l all :
  l `sublist_of` all → append_if cond name l `sublist_of` (all ++ [name])%list.
Proof.
  intros H. destruct cond; simpl.
  - by apply sublist_app.
  - by apply sublist_inserts_r.
Qed.

(** X7. When the combined check triggers, its candidate is of high
    severity and carries between three and eight risk factors, without
    repetition and in the order of the checklist; its message names the
    first five and ends with "..." exactly when there are more. *)
Theorem combined_risks_factors (vision_data activity_data health_data : pydict)
    (c : candidate) :
  _check_combined_risks vision_data activity_data health_data = Ok (Some c) →
  ∃ factors,
    risk_factors c = Some factors
    ∧ type c = "multiple_risk_factors" ∧ severity c = "high"
    ∧ factors `sublist_of` Extra.all_risk_factors
    ∧ NoDup factors
    ∧ (3 ≤ List.length factors ≤ 8)%nat
    ∧ message c = "Multiple concerning signals detected: "
                  +:+ str_join ", " (take 5 factors)
                  +:+ (if (5 <? List.length factors)%nat then "..." else "").
Proof.
  intros H. unfold _check_combined_risks in H.
  apply bind_Ok in H as (missed & _ & H).
  apply bind_Ok in H as (complaints & _ & H).
  apply bind_Ok in H as (medicine & _ & H).
  match type of H with
  | (if (_ <=? List.length ?l)%nat then _ else _) = _ => set (factors := l) in *
  end.
  assert (Hsub : factors `sublist_of` Extra.all_risk_factors).
  { subst factors.
    change Extra.all_risk_factors with
      (((((((([] ++ ["emotional distress"]) ++ ["pain expressions"])
            ++ ["unusual posture"]) ++ ["prolonged inactivity"])
          ++ ["concerning activity patterns"]) ++ ["missed meals"])
        ++ ["multiple health complaints"]) ++ ["missed medications"])%list.
    repeat apply append_if_sublist. constructor. }
  destruct (Nat.leb_spec combined_risk_factors (List.length factors)) as [Hlen|];
    [|done].
  injection H as <-. exists factors. simpl.
  split; [done|]. split; [done|]. split; [done|]. split; [done|].
  split; [|split; [|done]].
  - eapply sublist_NoDup; [|exact Hsub].
    unfold Extra.all_risk_factors. apply (bool_decide_unpack _). by vm_compute.
  - split; [exact Hlen|].
    apply sublist_length in Hsub. exact Hsub.
Qed.
End CombinedRisks.

Lemma combined_risks_factors_witness :
  ∃ c factors,
    EmergencyDetector._check_combined_risks
      {[ "distress_level" := PStr "high"; "pain_detected" := PBool true ]}
      {[ "concerning" := PBool true ]} ∅ = Ok (Some c)
    ∧ EmergencyDetector.risk_factors c = Some factors
    ∧ factors = ["emotional distress"; "pain expressions";
                 "concerning activity patterns"].
Proof.
  destruct (EmergencyDetector._check_combined_risks
              {[ "distress_level" := PStr "high"; "pain_detected" := PBool true ]}
              {[ "concerning" := PBool true ]} ∅) as [[c|]|] eqn:Hc;
    try by vm_compute in Hc.
  destruct (combined_risks_factors _ _ _ c Hc) as (factors & Hf & _).
  exists c, factors. split; [reflexivity|]. split; [exact Hf|].
  vm_compute in Hc. injection Hc as <-. by injection Hf as <-.
Defined.

(** ** Emergency rule engine: routing priority *)

Section Priority.
Import EmergencyDetector EmergencyPriority.

Lemma severity_scores_range v s :
  severity_scores v = Ok s → (0 ≤ s ≤ 100)%Z.
Proof.
  destruct v; simpl; intros H; simplify_eq; try lia.
  repeat case_match; lia.
Qed.

(** X8. The routing priority of any result dict is between 0 and 100, as
    the docstring promises; the only way the call can fail is a
    [TypeError], when a key holds a value of the wrong kind. *)
Theorem priority_score_range (emergency_result : result) :
  match get_emergency_priority_score emergency_result with
  | Ok score => (0 ≤ score ≤ 100)%Z
  | Raise e => e = TypeError
  end.
Proof.
  unfold get_emergency_priority_score.
  destruct (negb _); [lia|].
  destruct (severity_scores _) as [base|e] eqn:Hs; simpl.
  2:{ destruct (rget emergency_result "severity" RNone); by simplify_eq/=. }
  apply severity_scores_range in Hs.
  destruct (rget emergency_result "emergency_type" (RStr "")) as [| | s | | |];
    simpl; try done; try lia.
  all: cbn [mbind res_bind].
  all: repeat (destruct (str_in _ _); cbn [mbind res_bind]); lia.
Qed.

(** X9. On a result of [detect_emergency] the priority is decided by the
    reported severity alone: 100 for critical, 75 for high, 50 for medium
    and 0 when there is no emergency.  The boosts for falls, the emergency
    button and missed eating never change it, because every candidate
    they apply to is already critical; the call never fails. *)
Theorem priority_of_detection (rt : runtime)
    (vision_data activity_data health_data : option pydict)
    (now_fall now : Z) (r : result) :
  detect_emergency rt vision_data activity_data health_data now_fall now = Ok r →
  ∃ sev,
    result_get r "severity" = Some (RStr sev)
    ∧ get_emergency_priority_score r =
        Ok (if String.eqb sev "critical" then 100
            else if String.eqb sev "high" then 75
            else if String.eqb sev "medium" then 50
            else 0)%Z
    ∧ (sev = "none" ↔ result_get r "emergency" = Some (RBool false)).
Proof.
  intros H. apply detect_emergency_inv in H as (triggered & Hc & Hr).
  pose proof (collect_emergencies_kinds rt _ _ _ _ _ Hc) as Hk.
  destruct triggered as [|c l].
  - injection Hr as <-. by exists "none".
  - unfold build_result in Hr.
    pose proof (sort_by_severity_perm (c :: l)) as Hperm.
    destruct (sort_by_severity (c :: l)) as [|top rest] eqn:Hs; [done|].
    injection Hr as <-. exists (severity top).
    assert (Htop : Extra.kind top ∈ Extra.candidate_kinds).
    { rewrite <- Hperm in Hk. by apply Forall_cons in Hk as [? _]. }
    split; [done|].
    unfold get_emergency_priority_score, rget, Extra.kind, Extra.candidate_kinds in *.
    cbn [result_get]. simpl result_get.
    repeat (apply elem_of_cons in Htop as [Htop|Htop];
            [injection Htop as -> ->; by vm_compute|]).
    by apply elem_of_nil in Htop.
Qed.
End Priority.

Lemma priority_of_detection_witness :
  ∃ r,
    EmergencyDetector.detect_emergency BasicRuntime.rt
      None (Some {[ "max_inactivity_hours" := PInt 20 ]}) None 0 0 = Ok r
    ∧ EmergencyDetector.result_get r "severity" = Some (EmergencyDetector.RStr "high")
    ∧ EmergencyPriority.get_emergency_priority_score r = Ok 75%Z.
Proof.
  destruct (EmergencyDetector.detect_emergency BasicRuntime.rt
      None (Some {[ "max_inactivity_hours" := PInt 20 ]}) None 0 0) as [r|]
    eqn:Hr; [|by vm_compute in Hr].
  destruct (priority_of_detection _ _ _ _ _ _ _ Hr) as (sev & Hsev & Hscore & _).
  exists r. split; [reflexivity|].
  assert (sev = "high") as ->.
  { vm_compute in Hr. injection Hr as <-. vm_compute in Hsev. congruence. }
  by split.
Defined.

(** ** Emergency rule engine: instances *)

Lemma detect_emergency_concerns_witness :
  ∃ r concerns,
    EmergencyDetector.detect_emergency BasicRuntime.rt
      (Some {[ "fall_detected" := PBool true ]})
      (Some {[ "max_inactivity_hours" := PInt 20 ]}) None 0 0 = Ok r
    ∧ EmergencyDetector.result_get r "all_concerns"
      = Some (EmergencyDetector.RConcerns concerns)
    ∧ (List.length concerns ≤ 7)%nat.
Proof.
  destruct (EmergencyDetector.detect_emergency BasicRuntime.rt
      (Some {[ "fall_detected" := PBool true ]})
      (Some {[ "max_inactivity_hours" := PInt 20 ]}) None 0 0) as [r|] eqn:Hr;
    [|by vm_compute in Hr].
  destruct (detect_emergency_concerns _ _ _ _ _ _ _ Hr)
    as (concerns & sev & Hc & Hl & _).
  by exists r, concerns.
Defined.

Lemma critical_conditions_reported_witness :
  ∃ r,
    EmergencyDetector.detect_emergency BasicRuntime.rt
      (Some {[ "distress_level" := PStr "high" ]})
      (Some {[ "max_inactivity_hours" := PInt 20 ]})
      (Some {[ "emergency_button_presses" := PInt 1 ]}) 0 0 = Ok r
    ∧ EmergencyDetector.result_get r "severity"
      = Some (EmergencyDetector.RStr "critical").
Proof.
  destruct (EmergencyDetector.detect_emergency BasicRuntime.rt
      (Some {[ "distress_level" := PStr "high" ]})
      (Some {[ "max_inactivity_hours" := PInt 20 ]})
      (Some {[ "emergency_button_presses" := PInt 1 ]}) 0 0) as [r|] eqn:Hr;
    [|by vm_compute in Hr].
  exists r. split; [reflexivity|].
  apply (critical_conditions_reported _ _ _ _ _ _ _ Hr).
  right. right. right. exists 1%Q. by vm_compute.
Defined.



(** ** Risk scorer: the reported numbers *)

Section RuleOutputs.
Import MultiModalRiskPredictor.
Local Open Scope Q_scope.

(** [round(x, 3)] does not cross a multiple of 0.001. *)
Lemma py_round3_le_grid x (k : Z) : x <= k # 1000 → py_round3 x <= k # 1000.
Proof.
  intros Hx. unfold py_round3.
  pose proof (round_half_even_bounds (x * 1000)) as [_ H].
  set (z := round_half_even (x * 1000)) in *.
  assert (E : k # 1000 == inject_Z k * (1 # 1000)).
  { unfold Qeq, inject_Z, Qmult. simpl. lia. }
  assert (Hz : inject_Z z <= inject_Z k + (1 # 2)) by (rewrite E in Hx; lra).
  unfold Qle, Qplus, inject_Z in Hz. simpl in Hz.
  unfold Qle. simpl. lia.
Qed.

Lemma py_round3_ge_grid x (k : Z) : k # 1000 <= x → k # 1000 <= py_round3 x.
Proof.
  intros Hx. unfold py_round3.
  pose proof (round_half_even_bounds (x * 1000)) as [H _].
  set (z := round_half_even (x * 1000)) in *.
  assert (E : k # 1000 == inject_Z k * (1 # 1000)).
  { unfold Qeq, inject_Z, Qmult. simpl. lia. }
  assert (Hz : inject_Z k - (1 # 2) <= inject_Z z) by (rewrite E in Hx; lra).
  unfold Qle, Qminus, Qplus, Qopp, inject_Z in Hz. simpl in Hz.
  unfold Qle. simpl. lia.
Qed.

Lemma normalize_range score : 0 <= normalize score <= 1.
Proof.
  unfold normalize. rewrite clamp01_spec. unfold Spec.clamp.
  repeat match goal with
         | |- context [Qlt_bool ?a ?b] =>
             let E := fresh in
             destruct (Qlt_bool a b) eqn:E;
             [apply Qlt_bool_iff in E | apply Qlt_bool_false in E]
         end; lra.
Qed.

Lemma predict_with_rules_inv f p :
  _predict_with_rules f = Ok p →
  ∃ score, rule_score f = Ok score ∧ p = band (normalize score).
Proof.
  unfold _predict_with_rules. intros H.
  apply bind_Ok in H as (score & Hs & H). exists score. by simplify_eq.
Qed.

Ltac band_cases n :=
  unfold band;
  destruct (Qlt_bool n (3 # 10)) eqn:H3;
    [apply Qlt_bool_iff in H3
    |apply Qlt_bool_false in H3;
     destruct (Qlt_bool n (6 # 10)) eqn:H6;
       [apply Qlt_bool_iff in H6 | apply Qlt_bool_false in H6]];
  cbn [risk_level risk_score probs safe monitor high_risk].

Ltac grid_le k := apply (Qle_trans _ (k # 1000)); [apply py_round3_le_grid; lra | lra].
Ltac grid_ge k := apply (Qle_trans _ (k # 1000)); [lra | apply py_round3_ge_grid; lra].

(** X10. Whatever the features, a rule-based prediction reports a risk
    score and three probabilities that all lie between 0 and 1. *)
Theorem rule_prediction_bounded (f : features) (p : prediction) :
  _predict_with_rules f = Ok p →
  0 <= risk_score p <= 1
  ∧ 0 <= safe (probs p) <= 1
  ∧ 0 <= monitor (probs p) <= 1
  ∧ 0 <= high_risk (probs p) <= 1.
Proof.
  intros H. apply predict_with_rules_inv in H as (score & _ & ->).
  pose proof (normalize_range score) as [Hlo Hhi].
  set (n := normalize score) in *.
  band_cases n; repeat split; (grid_le 1000%Z || grid_ge 0%Z).
Qed.

(** X11. The label of a rule-based prediction agrees with the numbers
    reported with it: the class of the label has the largest of the three
    probabilities, strictly, and the reported (rounded) score is at most
    0.3 for SAFE, between 0.3 and 0.6 for MONITOR and at least 0.6 for
    HIGH_RISK. *)
Theorem rule_prediction_label_consistent (f : features) (p : prediction) :
  _predict_with_rules f = Ok p →
  (risk_level p = "SAFE"
   ∧ risk_score p <= 3 # 10
   ∧ monitor (probs p) < safe (probs p)
   ∧ high_risk (probs p) < safe (probs p))
  ∨ (risk_level p = "MONITOR"
     ∧ 3 # 10 <= risk_score p <= 6 # 10
     ∧ safe (probs p) < monitor (probs p)
     ∧ high_risk (probs p) < monitor (probs p))
  ∨ (risk_level p = "HIGH_RISK"
     ∧ 6 # 10 <= risk_score p
     ∧ safe (probs p) < high_risk (probs p)
     ∧ monitor (probs p) < high_risk (probs p)).
Proof.
  intros H. apply predict_with_rules_inv in H as (score & _ & ->).
  pose proof (normalize_range score) as [Hlo Hhi].
  set (n := normalize score) in *.
  band_cases n; [left | right; left | right; right]; (split; [done|]).
  - split; [grid_le 300%Z|].
    assert (700 # 1000 <= py_round3 (1 - n)) by (apply py_round3_ge_grid; lra).
    assert (py_round3 (n * (7 # 10)) <= 210 # 1000)
      by (apply py_round3_le_grid; lra).
    assert (py_round3 (n * (3 # 10)) <= 90 # 1000)
      by (apply py_round3_le_grid; lra).
    split; lra.
  - split; [split; [grid_ge 300%Z | grid_le 600%Z]|].
    assert (py_round3 ((1 - n) * (1 # 2)) <= 350 # 1000)
      by (apply py_round3_le_grid; lra).
    assert (500 # 1000 <= py_round3 ((1 # 2) + (n - (3 # 10)) * (1 # 2)))
      by (apply py_round3_ge_grid; lra).
    assert (py_round3 (n * (3 # 10)) <= 180 # 1000)
      by (apply py_round3_le_grid; lra).
    split; lra.
  - split; [grid_ge 600%Z|].
    assert (py_round3 ((1 - n) * (3 # 10)) <= 120 # 1000)
      by (apply py_round3_le_grid; lra).
    assert (py_round3 ((1 - n) * (1 # 2)) <= 200 # 1000)
      by (apply py_round3_le_grid; lra).
    assert (600 # 1000 <= py_round3 n) by (apply py_round3_ge_grid; lra).
    split; lra.
Qed.
End RuleOutputs.

Lemma rule_prediction_bounded_witness :
  ∃ p,
    MultiModalRiskPredictor._predict_with_rules
      (Spec.to_features Sample.boundary_vector) = Ok p
    ∧ (0 <= MultiModalRiskPredictor.risk_score p <= 1)%Q.
Proof.
  destruct (MultiModalRiskPredictor._predict_with_rules
              (Spec.to_features Sample.boundary_vector)) as [p|] eqn:Hp;
    [|by vm_compute in Hp].
  exists p. split; [reflexivity|].
  exact (proj1 (rule_prediction_bounded _ _ Hp)).
Defined.

Lemma rule_prediction_label_consistent_witness :
  ∃ p,
    MultiModalRiskPredictor._predict_with_rules
      (Spec.to_features Sample.boundary_vector) = Ok p
    ∧ MultiModalRiskPredictor.risk_level p = "MONITOR"
    ∧ (3 # 10 <= MultiModalRiskPredictor.risk_score p <= 6 # 10)%Q.
Proof.
  destruct (MultiModalRiskPredictor._predict_with_rules
              (Spec.to_features Sample.boundary_vector)) as [p|] eqn:Hp;
    [|by vm_compute in Hp].
  exists p. split; [reflexivity|].
  destruct (rule_prediction_label_consistent _ _ Hp)
    as [(Hl & _)|[(Hl & Hs & _)|(Hl & _)]].
  - vm_compute in Hp. injection Hp as <-. by vm_compute in Hl.
  - by split.
  - vm_compute in Hp. injection Hp as <-. by vm_compute in Hl.
Defined.

(** ** Risk scorer: how the label moves with the inputs *)

Section RuleMonotone.
Import MultiModalRiskPredictor.
Local Open Scope Q_scope.

Lemma weighted_sum_monotone v v' :
  Extra.at_least_as_concerning v v' →
  Spec.weighted_sum v <= Spec.weighted_sum v'.
Proof.
  intros (H1 & H2 & H3 & H4 & H5 & H6 & H7 & H8 & H9 & H10 & H11 & H12 & H13
          & H14 & H15).
  unfold Spec.weighted_sum.
  assert (H6' : (Z.max 0 (Spec.pain_expression_count v - 2)
                 ≤ Z.max 0 (Spec.pain_expression_count v' - 2))%Z) by lia.
  rewrite Zle_Qle in H1, H2, H3, H4, H6', H8, H9, H10, H11, H12.
  assert (Hcam : (if Qlt_bool 12 (Spec.camera_inactivity_hours v) then 2 else 0)
                 <= (if Qlt_bool 12 (Spec.camera_inactivity_hours v')
                     then 2 else 0)).
  { destruct (Qlt_bool 12 (Spec.camera_inactivity_hours v)) eqn:E;
      destruct (Qlt_bool 12 (Spec.camera_inactivity_hours v')) eqn:E';
      try lra.
    apply Qlt_bool_iff in E. apply Qlt_bool_false in E'. lra. }
  repeat match goal with
         | |- context [inject_Z ?z] => generalize dependent (inject_Z z); intros
         end.
  generalize dependent (if Qlt_bool 12 (Spec.camera_inactivity_hours v)
                        then 2 else 0).
  generalize dependent (if Qlt_bool 12 (Spec.camera_inactivity_hours v')
                        then 2 else 0).
  intros. lra.
Qed.

Lemma clamp_monotone x y : x <= y → Spec.clamp x 0 1 <= Spec.clamp y 0 1.
Proof.
  intros H. unfold Spec.clamp.
  repeat match goal with
         | |- context [Qlt_bool ?a ?b] =>
             let E := fresh in
             destruct (Qlt_bool a b) eqn:E;
             [apply Qlt_bool_iff in E | apply Qlt_bool_false in E]
         end; lra.
Qed.

Lemma normalized_monotone v v' :
  Spec.weighted_sum v <= Spec.weighted_sum v' →
  Spec.normalized v <= Spec.normalized v'.
Proof.
  intros H. unfold Spec.normalized. apply clamp_monotone.
  assert (E : ∀ x, (x + 2) / 12 == (x + 2) * (1 # 12)) by (intros; field).
  rewrite !E. lra.
Qed.

Lemma label_rank_monotone n n' :
  n <= n' → (Extra.label_rank (Spec.label n) ≤ Extra.label_rank (Spec.label n'))%nat.
Proof.
  intros H. unfold Spec.label.
  repeat match goal with
         | |- context [Qlt_bool ?a ?b] =>
             let E := fresh in
             destruct (Qlt_bool a b) eqn:E;
             [apply Qlt_bool_iff in E | apply Qlt_bool_false in E]
         end; try (vm_compute; lia); lra.
Qed.

(** The rule-based prediction on a typed feature vector *)
Lemma predict_with_rules_typed v :
  (0 ≤ Spec.fall_detected_count v)%Z →
  (0 ≤ Spec.emergency_button_presses v)%Z →
  (0 ≤ Spec.days_without_eating v)%Z →
  (0 ≤ Spec.distress_episodes v)%Z →
  ∃ p, _predict_with_rules (Spec.to_features v) = Ok p
       ∧ risk_level p = Spec.label (Spec.normalized v).
Proof.
  intros Hfall Hbutton Heat Hdistress.
  destruct (rule_score_weighted_sum v Hfall Hbutton Heat Hdistress)
    as (score & Hscore & Esum).
  exists (band (normalize score)).
  split; [unfold _predict_with_rules; by rewrite Hscore|].
  rewrite band_label. apply label_proper.
  unfold normalize, Spec.normalized. rewrite clamp01_spec.
  apply clamp_proper. by rewrite Esum.
Qed.

(** X12. The rule-based label never improves when the inputs get worse:
    if no count, duration or irregularity decreases and no sentiment,
    emotion or sleep score increases, the label stays or moves up in the
    order SAFE, MONITOR, HIGH_RISK. *)
Theorem rule_label_monotone (v v' : Spec.FeatureVector) :
  (0 ≤ Spec.fall_detected_count v)%Z →
  (0 ≤ Spec.emergency_button_presses v)%Z →
  (0 ≤ Spec.days_without_eating v)%Z →
  (0 ≤ Spec.distress_episodes v)%Z →
  Extra.at_least_as_concerning v v' →
  ∃ p p',
    _predict_with_rules (Spec.to_features v) = Ok p
    ∧ _predict_with_rules (Spec.to_features v') = Ok p'
    ∧ (Extra.label_rank (risk_level p) ≤ Extra.label_rank (risk_level p'))%nat.
Proof.
  intros Hfall Hbutton Heat Hdistress Hworse.
  destruct (predict_with_rules_typed v) as (p & Hp & Hl); try done.
  destruct (predict_with_rules_typed v') as (p' & Hp' & Hl').
  1-4: destruct Hworse as (? & ? & ? & ? & _); lia.
  exists p, p'. split; [done|]. split; [done|].
  rewrite Hl, Hl'. apply label_rank_monotone, normalized_monotone.
  by apply weighted_sum_monotone.
Qed.

Lemma weighted_sum_floor v :
  Extra.in_range v →
  inject_Z (Spec.emergency_button_presses v) * 4 - 2 <= Spec.weighted_sum v.
Proof.
  intros (H1 & H2 & H3 & H4 & H5 & H6 & H7 & H8 & H9 & H10 & H11 & H12 & H13).
  unfold Spec.weighted_sum.
  assert (H0 : (0 ≤ Z.max 0 (Spec.pain_expression_count v - 2))%Z) by lia.
  rewrite Zle_Qle in H0, H1, H2, H3, H4, H5, H6, H7, H8, H9.
  change (inject_Z 0) with 0 in *.
  assert (Hcam : 0 <= (if Qlt_bool 12 (Spec.camera_inactivity_hours v)
                       then 2 else 0)) by (destruct (Qlt_bool _ _); lra).
  repeat match goal with
         | |- context [inject_Z ?z] => generalize dependent (inject_Z z); intros
         end.
  generalize dependent (if Qlt_bool 12 (Spec.camera_inactivity_hours v)
                        then 2 else 0).
  intros. lra.
Qed.

(** X13. With features in their ranges the weighted sum is at least -2,
    the lower end named in the code's comment, so the normalized value is
    (score + 2) / 12 capped at 1 and the lower clamp never applies. *)
Theorem rule_score_floor (v : Spec.FeatureVector) :
  Extra.in_range v →
  ∃ score,
    rule_score (Spec.to_features v) = Ok score
    ∧ -2 <= score
    ∧ normalize score == (if Qlt_bool 10 score then 1 else (score + 2) / 12).
Proof.
  intros Hr. pose proof (weighted_sum_floor v Hr) as Hfloor.
  destruct Hr as (H1 & H2 & H3 & H4 & _).
  destruct (rule_score_weighted_sum v H1 H2 H3 H4) as (score & Hscore & Esum).
  exists score. split; [done|].
  rewrite Zle_Qle in H2. change (inject_Z 0) with 0 in H2.
  assert (Hge : -2 <= score) by (rewrite Esum; lra).
  split; [done|].
  unfold normalize. rewrite clamp01_spec. unfold Spec.clamp.
  assert (E : (score + 2) / 12 == (score + 2) * (1 # 12)) by field.
  repeat match goal with
         | |- context [Qlt_bool ?a ?b] =>
             let E := fresh in
             destruct (Qlt_bool a b) eqn:E;
             [apply Qlt_bool_iff in E | apply Qlt_bool_false in E]
         end; try reflexivity; lra.
Qed.

(** X14. A pressed emergency button is never scored SAFE by the rules:
    with features in their ranges, one press gives at least MONITOR and
    two presses give HIGH_RISK, whatever the other features are. *)
Theorem button_press_not_safe (v : Spec.FeatureVector) :
  Extra.in_range v →
  (1 ≤ Spec.emergency_button_presses v)%Z →
  ∃ p,
    _predict_with_rules (Spec.to_features v) = Ok p
    ∧ risk_level p ≠ "SAFE"
    ∧ ((2 ≤ Spec.emergency_button_presses v)%Z → risk_level p = "HIGH_RISK").
Proof.
  intros Hr Hpress. pose proof (weighted_sum_floor v Hr) as Hfloor.
  destruct Hr as (H1 & H2 & H3 & H4 & _).
  destruct (predict_with_rules_typed v H1 H2 H3 H4) as (p & Hp & Hl).
  exists p. split; [done|]. rewrite Hl.
  rewrite Zle_Qle in Hpress. change (inject_Z 1) with 1 in Hpress.
  assert (E : (Spec.weighted_sum v + 2) / 12
              == (Spec.weighted_sum v + 2) * (1 # 12)) by field.
  assert (Hn : Spec.weighted_sum v <= 10 →
               Spec.normalized v == (Spec.weighted_sum v + 2) * (1 # 12)).
  { intros Hle. unfold Spec.normalized, Spec.clamp. rewrite <- E.
    destruct (Qlt_bool _ 0) eqn:E0;
      [apply Qlt_bool_iff in E0; rewrite E in E0; lra|].
    destruct (Qlt_bool 1 _) eqn:E1;
      [apply Qlt_bool_iff in E1; rewrite E in E1; lra|].
    reflexivity. }
  assert (Hhi : 10 < Spec.weighted_sum v → Spec.normalized v == 1).
  { intros Hgt. unfold Spec.normalized, Spec.clamp.
    destruct (Qlt_bool _ 0) eqn:E0;
      [apply Qlt_bool_iff in E0; rewrite E in E0; lra|].
    destruct (Qlt_bool 1 _) eqn:E1; [reflexivity|].
    apply Qlt_bool_false in E1. rewrite E in E1. lra. }
  destruct (Qlt_le_dec 10 (Spec.weighted_sum v)) as [Hgt|Hle].
  - rewrite (label_proper _ _ (Hhi Hgt)). by vm_compute.
  - rewrite (label_proper _ _ (Hn Hle)). unfold Spec.label.
    split.
    + destruct (Qlt_bool _ (3 # 10)) eqn:E3;
        [apply Qlt_bool_iff in E3; lra|].
      by destruct (Qlt_bool _ (6 # 10)).
    + intros Htwo. rewrite Zle_Qle in Htwo. change (inject_Z 2) with 2 in Htwo.
      destruct (Qlt_bool _ (3 # 10)) eqn:E3;
        [apply Qlt_bool_iff in E3; lra|].
      destruct (Qlt_bool _ (6 # 10)) eqn:E6;
        [apply Qlt_bool_iff in E6; lra|].
      done.
Qed.
End RuleMonotone.

(** A single detected fall, on the other hand, can still be scored SAFE. *)
Example one_fall_scored_safe :
  ∃ p,
    MultiModalRiskPredictor._predict_with_rules
      (Spec.to_features (Cases.falls 1)) = Ok p
    ∧ MultiModalRiskPredictor.risk_level p = "SAFE".
Proof. eexists. split; by vm_compute. Qed.

Lemma rule_label_monotone_witness :
  ∃ p p',
    MultiModalRiskPredictor._predict_with_rules
      (Spec.to_features (Cases.falls 1)) = Ok p
    ∧ MultiModalRiskPredictor._predict_with_rules
        (Spec.to_features (Cases.falls 3)) = Ok p'
    ∧ (Extra.label_rank (MultiModalRiskPredictor.risk_level p)
       ≤ Extra.label_rank (MultiModalRiskPredictor.risk_level p'))%nat.
Proof.
  apply rule_label_monotone; try (simpl; lia).
  unfold Extra.at_least_as_concerning. simpl.
  repeat split; try lia; by vm_compute.
Defined.

Lemma rule_score_floor_witness :
  ∃ score,
    MultiModalRiskPredictor.rule_score (Spec.to_features (Cases.presses 0))
    = Ok score
    ∧ (-2 <= score)%Q.
Proof.
  destruct (rule_score_floor (Cases.presses 0)) as (score & Hs & Hge & _).
  - unfold Extra.in_range. simpl. repeat split; try lia; by vm_compute.
  - by exists score.
Defined.

Lemma button_press_not_safe_witness :
  ∃ p,
    MultiModalRiskPredictor._predict_with_rules
      (Spec.to_features (Cases.presses 2)) = Ok p
    ∧ MultiModalRiskPredictor.risk_level p = "HIGH_RISK".
Proof.
  destruct (button_press_not_safe (Cases.presses 2)) as (p & Hp & _ & Hhigh).
  - unfold Extra.in_range. simpl. repeat split; try lia; by vm_compute.
  - simpl. lia.
  - exists p. split; [exact Hp|]. apply Hhigh. simpl. lia.
Defined.

(** ** Risk assessment: factors and recommendations *)

Section Strings.
Lemma str_prefix_app p s : str_prefix p (p +:+ s) = true.
Proof. induction p as [|c p IH]; simpl; [done|]. by rewrite Ascii.eqb_refl. Qed.

Lemma str_prefix_app_l p s b :
  str_prefix p s = true → str_prefix p (s +:+ b) = true.
Proof.
  revert s. induction p as [|c p IH]; intros [|d s]; simpl; try done.
  intros [-> H]%andb_true_iff. by rewrite (IH _ H).
Qed.

Lemma str_in_app_l p s b : str_in p s = true → str_in p (s +:+ b) = true.
Proof.
  induction s as [|c s IH].
  - simpl. rewrite orb_false_r. intros H. destruct p; [|done].
    by destruct b.
  - cbn [str_in]. intros [H|H]%orb_true_iff.
    + change (String c s +:+ b) with (String c (s +:+ b)).
      cbn [str_in]. change (String c (s +:+ b)) with (String c s +:+ b).
      by rewrite (str_prefix_app_l _ _ _ H).
    + change (String c s +:+ b) with (String c (s +:+ b)).
      cbn [str_in]. rewrite (IH H). apply orb_true_r.
Qed.

Lemma str_in_app_r p a s : str_in p s = true → str_in p (a +:+ s) = true.
Proof.
  intros H. induction a as [|c a IH]; [done|].
  change (String c a +:+ s) with (String c (a +:+ s)).
  cbn [str_in]. rewrite IH. apply orb_true_r.
Qed.

Lemma str_lower_app a b : str_lower (a +:+ b) = str_lower a +:+ str_lower b.
Proof. induction a as [|c a IH]; simpl; [done|]. by rewrite IH. Qed.

(** A word found in one of the joined strings is found in the whole. *)
Lemma str_in_lower_join p sep l x :
  x ∈ l → str_in p (str_lower x) = true →
  str_in p (str_lower (str_join sep l)) = true.
Proof.
  intros Hin Hx. induction l as [|y l IH]; [by apply elem_of_nil in Hin|].
  destruct l as [|z l].
  - apply list_elem_of_singleton in Hin as ->. done.
  - change (str_join sep (y :: z :: l))
      with (y +:+ sep +:+ str_join sep (z :: l)).
    rewrite !str_lower_app.
    apply elem_of_cons in Hin as [->|Hin].
    + by apply str_in_app_l.
    + apply str_in_app_r, str_in_app_r. by apply IH.
Qed.
End Strings.

Section Recommendations.
Import MultiModalRiskPredictor.
Context (rt : runtime).

Lemma elem_of_append_if c t l x :
  x ∈ append_if c t l ↔ x ∈ l ∨ (c = true ∧ x = t).
Proof.
  destruct c; simpl.
  - rewrite elem_of_app, list_elem_of_singleton.
    split; [intros [H|H]; auto | intros [H|[_ H]]; auto].
  - split; [auto | intros [H|[H _]]; [done | discriminate]].
Qed.

Lemma append_if_bound c t l n :
  (List.length l ≤ n)%nat → (List.length (append_if c t l) ≤ S n)%nat.
Proof. destruct c; simpl; [rewrite length_app; simpl|]; lia. Qed.

(** X15. The recommendations are never empty and never more than seven.
    SAFE gets the three fixed lines; MONITOR gets one to five lines that
    start with the check-in line; any other label, HIGH_RISK or not, gets
    four to seven lines that start with the banner and always include the
    immediate check-in. *)
Theorem recommendations_shape (risk_level : string) (factors : list string) :
  let recs := _generate_recommendations risk_level factors in
  if String.eqb risk_level "SAFE" then List.length recs = 3%nat
  else if String.eqb risk_level "MONITOR" then
    head recs = Some "📊 Increase check-in frequency"
    ∧ (1 ≤ List.length recs ≤ 5)%nat
  else
    head recs = Some "⚠️ IMMEDIATE ACTION REQUIRED"
    ∧ (4 ≤ List.length recs ≤ 7)%nat
    ∧ "📞 Schedule immediate check-in or visit" ∈ recs.
Proof.
  unfold _generate_recommendations.
  destruct (String.eqb risk_level "SAFE"); [done|].
  destruct (String.eqb risk_level "MONITOR"); cbv zeta.
  - repeat match goal with
           | |- context [append_if ?c _ _] => destruct c; cbn [append_if app]
           end; cbn; (split; [done | lia]).
  - repeat match goal with
           | |- context [append_if ?c _ _] => destruct c; cbn [append_if app]
           end; cbn; (split; [done|]); (split; [lia|]);
      apply (bool_decide_unpack _); by vm_compute.
Qed.

Ltac factor_binds H :=
  unfold _identify_risk_factors in H;
  repeat (let c := fresh "c" in let Hc := fresh "Hc" in
          apply bind_Ok in H as (c & Hc & H)).

(** X16. The list of contributing factors is never empty, whatever the
    features: it has between one and fifteen entries. *)
Theorem risk_factors_count (f : features) (factors : list string) :
  _identify_risk_factors rt f = Ok factors →
  (1 ≤ List.length factors ≤ 15)%nat.
Proof.
  intros H. factor_binds H.
  match type of H with
  | Ok (match ?l with _ => _ end) = _ => set (collected := l) in *
  end.
  assert (Hlen : (List.length collected ≤ 15)%nat).
  { subst collected. do 15 apply append_if_bound. simpl. lia. }
  destruct collected; injection H as <-; simpl in *; lia.
Qed.
End Recommendations.

Section AssessmentAdvice.
Import MultiModalRiskPredictor.
Context (rt : runtime).

Lemma elem_of_append_if_here t l : t ∈ append_if true t l.
Proof. apply elem_of_append_if. by right. Qed.

Lemma elem_of_append_if_keep c t l x : x ∈ l → x ∈ append_if c t l.
Proof. intros H. apply elem_of_append_if. by left. Qed.

Lemma py_gt_positive v n : as_num v = Some n → (0 < n)%Q → py_gt v 0 = Ok true.
Proof.
  intros Hn Hpos. rewrite (py_gt_num _ _ _ Hn).
  by apply Qlt_bool_iff in Hpos as ->.
Qed.

(** What a completed assessment is made of *)
Lemma predict_risk_inv model chat_data mood_data vision_data activity_data
    health_data now a :
  predict_risk rt model chat_data mood_data vision_data activity_data
    health_data now = Assessment a →
  ∃ p factors,
    _identify_risk_factors rt (a_features a) = Ok factors
    ∧ a_features a
      = _extract_features (or_empty chat_data) (or_empty mood_data)
          (or_empty vision_data) (or_empty activity_data)
          (or_empty health_data)
    ∧ match model with
      | Some m => _predict_with_model m (a_features a)
      | None => _predict_with_rules (a_features a)
      end = Ok p
    ∧ a_risk_level a = risk_level p
    ∧ a_risk_score a = risk_score p
    ∧ a_risk_probability a = probs p
    ∧ a_contributing_factors a = factors
    ∧ a_recommendations a = _generate_recommendations (risk_level p) factors.
Proof.
  unfold predict_risk, predict_risk_try.
  destruct model as [m|].
  - destruct (_predict_with_model m _) as [p|] eqn:Hp;
      cbn [mbind res_bind catch_all]; [|done].
    destruct (_identify_risk_factors rt _) as [factors|] eqn:Hf;
      cbn [mbind res_bind catch_all]; [|done].
    intros [= <-]. by exists p, factors.
  - destruct (_predict_with_rules _) as [p|] eqn:Hp;
      cbn [mbind res_bind catch_all]; [|done].
    destruct (_identify_risk_factors rt _) as [factors|] eqn:Hf;
      cbn [mbind res_bind catch_all]; [|done].
    intros [= <-]. by exists p, factors.
Qed.

Ltac factor_binds H :=
  unfold _identify_risk_factors in H;
  repeat (let c := fresh "c" in let Hc := fresh "Hc" in
          apply bind_Ok in H as (c & Hc & H)).

Ltac find_factor :=
  repeat first [apply elem_of_append_if_here | apply elem_of_append_if_keep].

Ltac collected_factors H x :=
  match type of H with
  | Ok (match ?l with _ => _ end) = _ =>
      let Hx := fresh "Hx" in
      assert (Hx : x ∈ l) by find_factor;
      destruct l; [by apply elem_of_nil in Hx|]; injection H as <-
  end.

Ltac decide_advice :=
  unfold _generate_recommendations; cbn [String.eqb Ascii.eqb Bool.eqb];
  cbv zeta;
  match goal with
  | Hs : str_in _ _ = true |- _ => rewrite Hs
  end;
  cbn [append_if];
  repeat match goal with
         | |- context [append_if ?c _ _] => destruct c; cbn [append_if]
         end;
  apply (bool_decide_unpack _); by vm_compute.

(** X17. In a HIGH_RISK assessment the critical signals are always
    answered: when the features count a fall, a distress episode or an
    emergency button press, the recommendations contain the line written
    for it, whatever else is reported and after the cut to seven lines. *)
Theorem high_risk_recommendations (model : option classifier)
    (chat_data mood_data vision_data activity_data health_data : option pydict)
    (now : Z) (a : assessment) :
  predict_risk rt model chat_data mood_data vision_data activity_data
    health_data now = Assessment a →
  a_risk_level a = "HIGH_RISK" →
  ((∃ n, as_num (fall_detected_count (a_features a)) = Some n ∧ (0 < n)%Q) →
   "🚨 Contact IMMEDIATELY to verify safety after fall" ∈ a_recommendations a)
  ∧ ((∃ n, as_num (distress_episodes (a_features a)) = Some n ∧ (0 < n)%Q) →
     "🚨 Contact immediately - emotional distress detected"
       ∈ a_recommendations a)
  ∧ ((∃ n, as_num (emergency_button_presses (a_features a)) = Some n
           ∧ (0 < n)%Q) →
     "🚨 RESPOND TO EMERGENCY BUTTON - contact now" ∈ a_recommendations a).
Proof.
  intros H Hhigh.
  apply predict_risk_inv in H
    as (p & factors & Hf & _ & _ & Hl & _ & _ & _ & ->).
  rewrite <- Hl, Hhigh. clear Hl Hhigh.
  set (f := a_features a) in *. clearbody f. clear a.
  split; [|split]; intros (n & Hn & Hpos);
    pose proof (py_gt_positive _ _ Hn Hpos) as Htest;
    factor_binds Hf;
    repeat match goal with
           | H : ?t = Ok ?c |- _ =>
               match type of Htest with
               | t = Ok true => is_var c; rewrite Htest in H; injection H as <-
               end
           end.
  - collected_factors Hf ("⚠️ " +:+ py_str rt (fall_detected_count f)
                          +:+ " fall(s) detected").
    assert (Hs : str_in "fall" (str_lower (str_join " " (s :: l))) = true).
    { eapply str_in_lower_join; [exact Hx|].
      rewrite !str_lower_app. by apply str_in_app_r, str_in_app_r. }
    decide_advice.
  - collected_factors Hf ("⚠️ " +:+ py_str rt (distress_episodes f)
                          +:+ " distress episode(s)").
    assert (Hs : str_in "distress" (str_lower (str_join " " (s :: l))) = true).
    { eapply str_in_lower_join; [exact Hx|].
      rewrite !str_lower_app. by apply str_in_app_r, str_in_app_r. }
    decide_advice.
  - collected_factors Hf ("🚨 Emergency button pressed "
                          +:+ py_str rt (emergency_button_presses f)
                          +:+ " time(s)").
    assert (Hs : str_in "emergency" (str_lower (str_join " " (s :: l))) = true).
    { eapply str_in_lower_join; [exact Hx|].
      rewrite !str_lower_app. by apply str_in_app_l. }
    decide_advice.
Qed.
End AssessmentAdvice.

(** ** Alert dispatch: what is sent and what is counted *)

Section FanOut.
Import AlertService.
Context (rt : runtime) (be : backends).
Local Open Scope Z_scope.

Lemma count_nil {A} (p : A → bool) : Extra.count p [] = 0.
Proof. done. Qed.

Lemma count_app {A} (p : A → bool) l1 l2 :
  Extra.count p (l1 ++ l2) = Extra.count p l1 + Extra.count p l2.
Proof.
  unfold Extra.count. rewrite List.filter_app, length_app. lia.
Qed.

Lemma count_cons {A} (p : A → bool) x l :
  Extra.count p (x :: l) = (if p x then 1 else 0) + Extra.count p l.
Proof. unfold Extra.count. simpl. destruct (p x); simpl; lia. Qed.

Lemma count_nonneg {A} (p : A → bool) l : 0 ≤ Extra.count p l.
Proof. unfold Extra.count. lia. Qed.

(** One iteration of the loop: the events it adds and the counters it
    moves *)
Lemma notify_member_accounting clk elder_id data severity message action
    title body i member results st results' st' :
  notify_member rt be clk elder_id data severity message action title body
    i member results st = (results', st') →
  ∃ events,
    trace st' = (trace st ++ events)%list
    ∧ Extra.count Extra.is_fcm events = (if Extra.has_token member then 1 else 0)
    ∧ Extra.count Extra.is_sms events
      = (if py_eq_str severity "critical" && Extra.has_phone member
         then 1 else 0)
    ∧ Extra.count Extra.is_fcm events + Extra.count Extra.is_sms events
      = Z.of_nat (List.length events)
    ∧ fcm_sent results' + failed results'
      = fcm_sent results + failed results + Extra.count Extra.is_fcm events
    ∧ fcm_sent results ≤ fcm_sent results'
    ∧ failed results ≤ failed results'
    ∧ sms_sent results ≤ sms_sent results'
      ≤ sms_sent results + Extra.count Extra.is_sms events
    ∧ (firebase_initialized be = false → failed results' = failed results)
    ∧ (twilio_initialized be = false →
       sms_sent results' = sms_sent results + Extra.count Extra.is_sms events)
    ∧ List.length (family_notified results')
      = S (List.length (family_notified results)).
Proof.
  unfold notify_member, _send_fcm_notification, _send_sms_alert,
    Extra.has_token, Extra.has_phone.
  destruct (truthy (dict_get_none member "fcm_token")) eqn:Htoken;
    destruct (py_eq_str severity "critical") eqn:Hcrit;
    destruct (truthy (dict_get_none member "phone")) eqn:Hphone;
    destruct (firebase_initialized be) eqn:Hfb;
    destruct (twilio_initialized be) eqn:Htw;
    cbn [negb andb];
    repeat match goal with
           | |- context [messaging_send be ?m] =>
               destruct (messaging_send be m) eqn:?
           | |- context [twilio_create be ?p ?t] =>
               destruct (twilio_create be p t) eqn:?
           end;
    intros [= <- <-]; cbn [trace fcm_sent sms_sent failed family_notified];
    rewrite <- ?(assoc_L (++)); eexists; (split; [try reflexivity|]).
  all: try (instantiate (1 := []); by rewrite app_nil_r).
  all: unfold Extra.count; rewrite ?length_app; cbn;
    repeat split; intros; try lia; try done.
Qed.

Lemma notify_all_accounting clk elder_id data severity message action title
    body members : ∀ i results st results' st',
  notify_all rt be clk elder_id data severity message action title body
    i members results st = (results', st') →
  ∃ events,
    trace st' = (trace st ++ events)%list
    ∧ Extra.count Extra.is_fcm events = Extra.count Extra.has_token members
    ∧ Extra.count Extra.is_sms events
      = (if py_eq_str severity "critical"
         then Extra.count Extra.has_phone members else 0)
    ∧ Extra.count Extra.is_fcm events + Extra.count Extra.is_sms events
      = Z.of_nat (List.length events)
    ∧ fcm_sent results' + failed results'
      = fcm_sent results + failed results + Extra.count Extra.is_fcm events
    ∧ fcm_sent results ≤ fcm_sent results'
    ∧ failed results ≤ failed results'
    ∧ sms_sent results ≤ sms_sent results'
      ≤ sms_sent results + Extra.count Extra.is_sms events
    ∧ (firebase_initialized be = false → failed results' = failed results)
    ∧ (twilio_initialized be = false →
       sms_sent results' = sms_sent results + Extra.count Extra.is_sms events)
    ∧ List.length (family_notified results')
      = (List.length (family_notified results) + List.length members)%nat.
Proof.
  induction members as [|m members IH]; intros i results st results' st' H.
  - injection H as <- <-. exists []. rewrite app_nil_r, !count_nil.
    destruct (py_eq_str severity "critical"); simpl; repeat split; lia.
  - cbn [notify_all] in H.
    destruct (notify_member rt be clk elder_id data severity message action
                title body i m results st) as [results1 st1] eqn:E1.
    apply notify_member_accounting in E1
      as (ev1 & T1 & F1 & S1 & L1 & A1 & B1 & C1 & D1 & M1 & W1 & N1).
    apply IH in H
      as (ev2 & T2 & F2 & S2 & L2 & A2 & B2 & C2 & D2 & M2 & W2 & N2).
    exists (ev1 ++ ev2)%list.
    rewrite T2, T1, <- (assoc_L (++)), !count_app, !count_cons, length_app.
    rewrite F1, S1 in *. rewrite F2, S2 in *.
    split; [done|]. split; [done|].
    split; [destruct (py_eq_str severity "critical"); simpl; lia|].
    split; [lia|]. split; [lia|]. split; [lia|]. split; [lia|].
    split; [lia|].
    split; [intros Hfb; specialize (M1 Hfb); specialize (M2 Hfb); lia|].
    split; [intros Htw; specialize (W1 Htw); specialize (W2 Htw); lia|].
    simpl. lia.
Qed.

(** X18. A dispatch that is sent attempts one push per family member with
    a token and, only when the severity is "critical", one SMS per member
    with a phone number, and nothing else apart from the log entry, which
    is written only when Firebase is initialised and the Firestore client
    is there. Every push attempt is counted, as sent or as failed; the SMS
    counter never exceeds the attempts; every member is listed as
    notified. *)
Theorem dispatch_accounting (clk : clock) (elder_id elder_name : string)
    (data : pydict) (members : list pydict) (st st' : state)
    (results : send_results) (timestamp : Z) :
  send_emergency_alert rt be clk elder_id elder_name data members st
    = (Sent results timestamp, st') →
  ∃ events,
    trace st' = (trace st ++ events)%list
    ∧ Extra.count Extra.is_fcm events = Extra.count Extra.has_token members
    ∧ Extra.count Extra.is_sms events
      = (if py_eq_str (dict_get data "severity" (PStr "medium")) "critical"
         then Extra.count Extra.has_phone members else 0)
    ∧ Z.of_nat (List.length events)
      = Extra.count Extra.is_fcm events + Extra.count Extra.is_sms events
        + (if firebase_initialized be && db be then 1 else 0)
    ∧ fcm_sent results + failed results = Extra.count Extra.has_token members
    ∧ 0 ≤ fcm_sent results
    ∧ 0 ≤ failed results
    ∧ 0 ≤ sms_sent results ≤ Extra.count Extra.is_sms events
    ∧ List.length (family_notified results) = List.length members.
Proof.
  unfold send_emergency_alert.
  destruct (_is_rate_limited _ _ _ _ _); [done|].
  match goal with |- context [notify_all ?a ?b ?c ?d ?e ?f ?g ?h ?i ?j ?k ?l ?m ?n] =>
    destruct (notify_all a b c d e f g h i j k l m n) as [results1 st1] eqn:E
  end.
  apply notify_all_accounting in E
    as (ev & T & F & S & L & A & B & C & D & _ & _ & N).
  cbn [fcm_sent failed sms_sent family_notified] in *.
  intros [= <- _ <-]. unfold _log_alert.
  destruct (firebase_initialized be && db be) eqn:Hlog.
  - apply andb_true_iff in Hlog as [-> ->]. cbn [negb orb trace].
    exists (ev ++ [ELog
      {| doc_elder_id := elder_id;
         doc_emergency_type := dict_get_none data "emergency_type";
         doc_severity := dict_get_none data "severity";
         doc_message := dict_get_none data "alert_message";
         doc_action := dict_get_none data "recommended_action";
         doc_family_notified := (λ f : pydict, dict_get_none f "id") <$> members;
         doc_results := results1 |}])%list.
    rewrite T, <- (assoc_L (++)), !count_app, length_app.
    change (Extra.count Extra.is_fcm [ELog _]) with 0.
    change (Extra.count Extra.is_sms [ELog _]) with 0.
    cbn [List.length]. rewrite !Z.add_0_r, Nat2Z.inj_add.
    repeat split; try done; lia.
  - assert (negb (firebase_initialized be) || negb (db be) = true) as ->
      by (by destruct (firebase_initialized be), (db be)).
    exists ev. rewrite Z.add_0_r. repeat split; try done; lia.
Qed.

(** X19. While no backend is initialised (mock mode) nothing can fail:
    every push attempt and every SMS attempt is counted as sent, the
    failure counter stays 0 and no log entry is written. *)
Theorem mock_dispatch_counts (clk : clock) (elder_id elder_name : string)
    (data : pydict) (members : list pydict) (st st' : state)
    (results : send_results) (timestamp : Z) :
  firebase_initialized be = false →
  twilio_initialized be = false →
  send_emergency_alert rt be clk elder_id elder_name data members st
    = (Sent results timestamp, st') →
  fcm_sent results = Extra.count Extra.has_token members
  ∧ failed results = 0
  ∧ sms_sent results
    = (if py_eq_str (dict_get data "severity" (PStr "medium")) "critical"
       then Extra.count Extra.has_phone members else 0)
  ∧ Z.of_nat (List.length (trace st')) - Z.of_nat (List.length (trace st))
    = fcm_sent results + sms_sent results.
Proof.
  intros Hfb Htw. unfold send_emergency_alert.
  destruct (_is_rate_limited _ _ _ _ _); [done|].
  match goal with |- context [notify_all ?a ?b ?c ?d ?e ?f ?g ?h ?i ?j ?k ?l ?m ?n] =>
    destruct (notify_all a b c d e f g h i j k l m n) as [results1 st1] eqn:E
  end.
  apply notify_all_accounting in E
    as (ev & T & F & S & L & A & B & C & D & M & W & N).
  specialize (M Hfb). specialize (W Htw).
  cbn [fcm_sent failed sms_sent family_notified] in *.
  intros [= <- _ <-]. unfold _log_alert. rewrite Hfb. cbn [negb orb trace].
  rewrite T, length_app. rewrite <- S, <- F. repeat split; lia.
Qed.
End FanOut.

(** ** Alert dispatch: the rate limiter's keys and history *)

Section LimiterKeys.
Import AlertService.
Context (rt : runtime) (be : backends).
Local Open Scope Z_scope.

(** What a dispatch leaves in the alert history *)
Lemma send_history clk elder_id elder_name data members st :
  alert_history
    (send_emergency_alert rt be clk elder_id elder_name data members st).2
  = if _is_rate_limited rt (alert_history st) elder_id
         (dict_get_none data "emergency_type") (now_check clk)
    then alert_history st
    else _record_alert rt (alert_history st) elder_id
           (dict_get_none data "emergency_type") (now_record clk).
Proof.
  destruct (_is_rate_limited _ _ _ _ _) eqn:H.
  - by rewrite (send_suppressed rt be _ _ _ _ _ _ H).
  - destruct (send_recorded rt be clk elder_id elder_name data members st H)
      as (results & tr & ->). done.
Qed.

(** X20. A dispatch only touches the history of its own key: for every
    other key the stored timestamps, and so the next rate-limit decision,
    are what they were before, whether the dispatch was sent or
    suppressed. *)
Theorem other_keys_unaffected (clk : clock) (elder_id elder_name : string)
    (data : pydict) (members : list pydict) (st : state)
    (other_id : string) (other_type : pyval) (now : Z) :
  history_key rt other_id other_type
    ≠ history_key rt elder_id (dict_get_none data "emergency_type") →
  let st' :=
    (send_emergency_alert rt be clk elder_id elder_name data members st).2 in
  alert_history st' !! history_key rt other_id other_type
    = alert_history st !! history_key rt other_id other_type
  ∧ _is_rate_limited rt (alert_history st') other_id other_type now
    = _is_rate_limited rt (alert_history st) other_id other_type now.
Proof.
  intros Hk st'.
  assert (E : alert_history st' !! history_key rt other_id other_type
              = alert_history st !! history_key rt other_id other_type).
  { subst st'. rewrite send_history.
    destruct (_is_rate_limited _ _ _ _ _); [done|].
    by apply record_alert_other. }
  split; [done|]. unfold _is_rate_limited. by rewrite E.
Qed.

Lemma history_key_cons rt' c e t :
  history_key rt' (String c e) t = String c (history_key rt' e t).
Proof. done. Qed.

(** X21. When elder ids contain no colon, two dispatches share a
    rate-limiter key only if they are for the same elder and their alert
    types print alike. *)
Theorem history_key_injective (e1 e2 : string) (t1 t2 : pyval) :
  Extra.no_colon e1 = true →
  Extra.no_colon e2 = true →
  history_key rt e1 t1 = history_key rt e2 t2 →
  e1 = e2 ∧ py_str rt t1 = py_str rt t2.
Proof.
  revert e2. induction e1 as [|c e1 IH]; intros [|d e2] H1 H2 Hk.
  - split; [done|]. unfold history_key in Hk. simpl in Hk. by injection Hk.
  - unfold history_key in Hk. simpl in Hk. injection Hk as <- _.
    by vm_compute in H2.
  - unfold history_key in Hk. simpl in Hk. injection Hk as -> _.
    by vm_compute in H1.
  - rewrite !history_key_cons in Hk. injection Hk as -> Hk.
    cbn [Extra.no_colon] in H1, H2.
    apply andb_true_iff in H1 as [_ H1]. apply andb_true_iff in H2 as [_ H2].
    destruct (IH e2 H1 H2 Hk) as [-> E]. done.
Qed.

Lemma spaced_snoc l x :
  Extra.spaced l → Forall (λ a, a + cooldown ≤ x) l → Extra.spaced (l ++ [x]).
Proof.
  unfold Extra.spaced. induction 1 as [|a l Hs IH Ha]; intros Hx; simpl.
  - repeat constructor.
  - apply Forall_cons in Hx as [Hax Hx]. constructor; [by apply IH|].
    apply Forall_app. split; [done|]. by constructor.
Qed.

Lemma spaced_filter (P : Z → Prop) `{!∀ x, Decision (P x)} l :
  Extra.spaced l → Extra.spaced (filter P l).
Proof.
  unfold Extra.spaced. induction 1 as [|a l Hs IH Ha]; [constructor|].
  destruct (decide (P a)).
  - rewrite filter_cons_True by done. constructor; [done|].
    apply Forall_forall. intros b [_ Hb]%list_elem_of_filter.
    rewrite Forall_forall in Ha. by apply Ha.
  - by rewrite filter_cons_False.
Qed.

Lemma one_hour_two_cooldowns : one_hour = 2 * cooldown.
Proof. reflexivity. Qed.

(** X22. The stored history stays short and ordered. If the timestamps of
    a key are in increasing order and at least one cooldown apart, then
    after a sent dispatch they still are, the last one is the time of this
    dispatch, and at most two are stored: the limit of ten alerts per hour
    is never reached. *)
Theorem history_stays_spaced (clk : clock) (elder_id elder_name : string)
    (data : pydict) (members : list pydict) (st st' : state)
    (results : send_results) (timestamp : Z) :
  let key := history_key rt elder_id (dict_get_none data "emergency_type") in
  Extra.spaced (default [] (alert_history st !! key)) →
  now_check clk ≤ now_record clk →
  send_emergency_alert rt be clk elder_id elder_name data members st
    = (Sent results timestamp, st') →
  ∃ stamps,
    alert_history st' !! key = Some stamps
    ∧ Extra.spaced stamps
    ∧ last stamps = Some (now_record clk)
    ∧ (List.length stamps ≤ 2)%nat
    ∧ (Z.of_nat (List.length stamps) < MAX_ALERTS_PER_HOUR).
Proof.
  intros key Hspaced Hclock Hsend. subst key.
  pose proof (send_history clk elder_id elder_name data members st) as Hh.
  rewrite Hsend in Hh. cbn [snd] in Hh.
  destruct (_is_rate_limited _ _ _ _ _) eqn:Hlim.
  { by rewrite (send_suppressed rt be _ _ _ _ _ _ Hlim) in Hsend. }
  apply is_rate_limited_false in Hlim.
  rewrite Hh, record_alert_lookup.
  set (old := default [] (alert_history st !! _)) in *.
  set (kept := filter (λ ts, now_record clk - one_hour < ts) old).
  assert (Hkept : Extra.spaced kept) by by apply spaced_filter.
  assert (Hold : Forall (λ a, now_record clk - one_hour < a
                              ∧ a + cooldown ≤ now_record clk) kept).
  { apply Forall_forall. intros a [Ha Hin]%list_elem_of_filter.
    rewrite Forall_forall in Hlim. specialize (Hlim a Hin). lia. }
  assert (Hlen : (List.length kept ≤ 1)%nat).
  { destruct kept as [|a [|b l]]; simpl; try lia. exfalso.
    apply StronglySorted_inv in Hkept as [_ Hab].
    apply Forall_cons in Hab as [Hab _].
    apply Forall_cons in Hold as [[Ha _] [[_ Hb] _]%Forall_cons].
    rewrite one_hour_two_cooldowns in Ha. lia. }
  exists (kept ++ [now_record clk])%list.
  split; [done|].
  split; [apply spaced_snoc; [done|]; eapply Forall_impl; [exact Hold|];
          simpl; intros; lia|].
  split; [by rewrite last_snoc|].
  rewrite length_app. simpl. unfold MAX_ALERTS_PER_HOUR. lia.
Qed.
End LimiterKeys.

(** With a colon in the elder id, two different elders can share a key. *)
Example history_key_collision :
  AlertService.history_key BasicRuntime.rt "ward:7" (PStr "fall")
  = AlertService.history_key BasicRuntime.rt "ward" (PStr "7:fall").
Proof. reflexivity. Qed.

(** ** Risk scorer: the fitted model *)

Section ModelPath.
Import MultiModalRiskPredictor.
Local Open Scope Q_scope.

Lemma py_index_range {A} (l : list A) i a :
  py_index l i = Ok a →
  (- Z.of_nat (List.length l) ≤ i < Z.of_nat (List.length l))%Z.
Proof.
  unfold py_index. destruct (Z.ltb_spec i 0).
  - destruct (Z.ltb_spec (Z.of_nat (List.length l) + i) 0); [done|]. lia.
  - destruct (Z.ltb_spec i 0); [lia|].
    destruct (l !! Z.to_nat i) eqn:E; [|done].
    apply lookup_lt_Some in E. lia.
Qed.

Lemma py_index_nonneg {A} (l : list A) (n : nat) a :
  py_index l (Z.of_nat n) = Ok a → l !! n = Some a.
Proof.
  unfold py_index. destruct (Z.ltb_spec (Z.of_nat n) 0); [lia|].
  destruct (Z.ltb_spec (Z.of_nat n) 0); [lia|].
  rewrite Nat2Z.id. destruct (l !! n); [by intros [= ->] | done].
Qed.

(** X23. A prediction of the fitted model exists only when the classifier
    answers a class index from -3 to 2 and at least three probabilities.
    The three reported probabilities are the classifier's first three,
    rounded: when those add up to 1, the reported ones add up to 1 within
    0.0015. *)
Theorem model_prediction_total (m : classifier) (f : features) (p : prediction) :
  _predict_with_model m f = Ok p →
  ∃ c p0 p1 p2 rest,
    predict m ((λ get, get f) <$> FEATURE_ORDER) = Ok c
    ∧ predict_proba m ((λ get, get f) <$> FEATURE_ORDER)
      = Ok (p0 :: p1 :: p2 :: rest)
    ∧ (-3 ≤ c < 3)%Z
    ∧ py_index RISK_LABELS c = Ok (risk_level p)
    ∧ (p0 + p1 + p2 == 1 →
       1 - (3 # 2000) <= Spec.total (probs p) <= 1 + (3 # 2000)).
Proof.
  unfold _predict_with_model. intros H.
  apply bind_Ok in H as (c & Hc & H).
  apply bind_Ok in H as (ps & Hps & H).
  apply bind_Ok in H as (label & Hlabel & H).
  apply bind_Ok in H as (score & Hscore & H).
  apply bind_Ok in H as (p0 & H0 & H).
  apply bind_Ok in H as (p1 & H1 & H).
  apply bind_Ok in H as (p2 & H2 & H).
  injection H as <-.
  apply (py_index_nonneg _ 0) in H0. apply (py_index_nonneg _ 1) in H1.
  apply (py_index_nonneg _ 2) in H2.
  destruct ps as [|q0 [|q1 [|q2 rest]]]; simplify_eq/=.
  exists c, p0, p1, p2, rest.
  split; [done|]. split; [done|].
  split; [by apply py_index_range in Hlabel|]. split; [done|].
  intros Hsum. unfold Spec.total. simpl.
  pose proof (py_round3_bounds p0). pose proof (py_round3_bounds p1).
  pose proof (py_round3_bounds p2). lra.
Qed.
End ModelPath.

Lemma model_prediction_total_witness :
  ∃ p,
    MultiModalRiskPredictor._predict_with_model Cases.fixed_classifier
      (Spec.to_features (Cases.falls 0)) = Ok p
    ∧ MultiModalRiskPredictor.risk_level p = "MONITOR"
    ∧ (1 - (3 # 2000) <= Spec.total (MultiModalRiskPredictor.probs p)
       <= 1 + (3 # 2000))%Q.
Proof.
  destruct (MultiModalRiskPredictor._predict_with_model Cases.fixed_classifier
              (Spec.to_features (Cases.falls 0))) as [p|] eqn:Hp;
    [|by vm_compute in Hp].
  destruct (model_prediction_total _ _ _ Hp)
    as (c & p0 & p1 & p2 & rest & Hc & Hps & _ & Hl & Hsum).
  exists p. split; [reflexivity|].
  injection Hc as <-. injection Hps as <- <- <- _.
  split; [by injection Hl|]. by apply Hsum.
Defined.

(** ** Risk assessment and alert dispatch: instances *)

Lemma risk_factors_count_witness :
  ∃ factors,
    MultiModalRiskPredictor._identify_risk_factors BasicRuntime.rt
      (Spec.to_features (Cases.falls 0)) = Ok factors
    ∧ (1 ≤ List.length factors ≤ 15)%nat.
Proof.
  destruct (MultiModalRiskPredictor._identify_risk_factors BasicRuntime.rt
              (Spec.to_features (Cases.falls 0))) as [factors|] eqn:Hf;
    [|by vm_compute in Hf].
  exists factors. split; [reflexivity|].
  exact (risk_factors_count _ _ _ Hf).
Defined.

Lemma high_risk_recommendations_witness :
  ∃ a,
    MultiModalRiskPredictor.predict_risk BasicRuntime.rt None None None None
      None (Some {[ "emergency_button_presses" := PInt 2 ]}) 0
    = MultiModalRiskPredictor.Assessment a
    ∧ "🚨 RESPOND TO EMERGENCY BUTTON - contact now"
        ∈ MultiModalRiskPredictor.a_recommendations a.
Proof.
  destruct (MultiModalRiskPredictor.predict_risk BasicRuntime.rt None None
              None None None
              (Some {[ "emergency_button_presses" := PInt 2 ]}) 0)
    as [a|] eqn:Ha; [|by vm_compute in Ha].
  exists a. split; [reflexivity|].
  apply (high_risk_recommendations _ _ _ _ _ _ _ _ _ Ha).
  - vm_compute in Ha. by injection Ha as <-.
  - exists 2%Q. vm_compute in Ha. injection Ha as <-. by vm_compute.
Defined.

Lemma dispatch_accounting_witness :
  ∃ results timestamp st',
    AlertService.send_emergency_alert BasicRuntime.rt Cases.live_backends
      (Cases.clock_at 0) "elder-1" "Elder" Cases.button_alert Cases.relatives
      Cases.idle = (AlertService.Sent results timestamp, st')
    ∧ (AlertService.fcm_sent results + AlertService.failed results = 2)%Z
    ∧ List.length (AlertService.family_notified results) = 3%nat.
Proof.
  destruct (AlertService.send_emergency_alert BasicRuntime.rt
              Cases.live_backends (Cases.clock_at 0) "elder-1" "Elder"
              Cases.button_alert Cases.relatives Cases.idle)
    as [[results timestamp|] st'] eqn:H; [|by vm_compute in H].
  exists results, timestamp, st'. split; [reflexivity|].
  destruct (dispatch_accounting _ _ _ _ _ _ _ _ _ _ _ H)
    as (events & _ & _ & _ & _ & Hc & _ & _ & _ & Hn).
  split; [etrans; [exact Hc|]; by vm_compute | exact Hn].
Defined.

(** With Firebase initialised but no Firestore client, the two pushes and
    the SMS are the only calls: nothing is logged. *)
Example no_log_without_firestore :
  List.length
    (AlertService.trace
       (AlertService.send_emergency_alert BasicRuntime.rt Cases.firestore_down
          (Cases.clock_at 0) "elder-1" "Elder" Cases.button_alert
          Cases.relatives Cases.idle).2)
  = 3%nat.
Proof. by vm_compute. Qed.

Lemma mock_dispatch_counts_witness :
  ∃ results timestamp st',
    AlertService.send_emergency_alert BasicRuntime.rt Cases.mock_backends
      (Cases.clock_at 0) "elder-1" "Elder" Cases.button_alert Cases.relatives
      Cases.idle = (AlertService.Sent results timestamp, st')
    ∧ AlertService.fcm_sent results = 2%Z
    ∧ AlertService.failed results = 0%Z
    ∧ AlertService.sms_sent results = 1%Z.
Proof.
  destruct (AlertService.send_emergency_alert BasicRuntime.rt
              Cases.mock_backends (Cases.clock_at 0) "elder-1" "Elder"
              Cases.button_alert Cases.relatives Cases.idle)
    as [[results timestamp|] st'] eqn:H; [|by vm_compute in H].
  exists results, timestamp, st'. split; [reflexivity|].
  destruct (mock_dispatch_counts BasicRuntime.rt Cases.mock_backends
              _ _ _ _ _ _ _ _ _ eq_refl eq_refl H) as (Hf & Hz & Hs & _).
  split; [etrans; [exact Hf|]; by vm_compute|].
  split; [exact Hz|]. etrans; [exact Hs|]. by vm_compute.
Defined.

Lemma other_keys_unaffected_witness :
  AlertService._is_rate_limited BasicRuntime.rt
    (AlertService.alert_history
       (AlertService.send_emergency_alert BasicRuntime.rt Cases.mock_backends
          (Cases.clock_at 0) "elder-1" "Elder" Cases.button_alert
          Cases.relatives Cases.idle).2)
    "elder-2" (PStr "emergency_button") 5
  = false.
Proof.
  etrans.
  - apply (other_keys_unaffected BasicRuntime.rt Cases.mock_backends
             (Cases.clock_at 0) "elder-1" "Elder" Cases.button_alert
             Cases.relatives Cases.idle "elder-2" (PStr "emergency_button") 5).
    by vm_compute.
  - by vm_compute.
Defined.

Lemma history_key_injective_witness :
  "elder-1" = "elder-1" ∧ "fall_detected" = "fall_detected".
Proof.
  apply (history_key_injective BasicRuntime.rt "elder-1" "elder-1"
           (PStr "fall_detected") (PStr "fall_detected"));
    reflexivity.
Defined.

Lemma history_stays_spaced_witness :
  ∃ results timestamp st' stamps,
    AlertService.send_emergency_alert BasicRuntime.rt Cases.mock_backends
      (Cases.clock_at (40 * us_per_minute)) "elder-1" "Elder"
      Cases.button_alert Cases.relatives
      {| AlertService.alert_history :=
           {[ "elder-1:emergency_button" := [0]%Z ]};
         AlertService.trace := [] |}
    = (AlertService.Sent results timestamp, st')
    ∧ AlertService.alert_history st' !! "elder-1:emergency_button"
      = Some stamps
    ∧ (List.length stamps ≤ 2)%nat.
Proof.
  destruct (AlertService.send_emergency_alert BasicRuntime.rt
              Cases.mock_backends (Cases.clock_at (40 * us_per_minute))
              "elder-1" "Elder" Cases.button_alert Cases.relatives
              {| AlertService.alert_history :=
                   {[ "elder-1:emergency_button" := [0]%Z ]};
                 AlertService.trace := [] |})
    as [[results timestamp|] st'] eqn:H; [|by vm_compute in H].
  destruct (history_stays_spaced BasicRuntime.rt Cases.mock_backends
              (Cases.clock_at (40 * us_per_minute)) "elder-1" "Elder"
              Cases.button_alert Cases.relatives
              {| AlertService.alert_history :=
                   {[ "elder-1:emergency_button" := [0]%Z ]};
                 AlertService.trace := [] |} st' results timestamp)
    as (stamps & Hs & _ & _ & Hl & _).
  - change (Extra.spaced [0%Z]). repeat constructor.
  - by vm_compute.
  - exact H.
  - by exists results, timestamp, st', stamps.
Defined.
